(** * GoldKach investment API: reports, activity log and pagination

    A shallow embedding of the report and activity-log controllers
    ([src/controllers/users.ts]), of the portfolio-asset controller
    ([dist/controllers/portfolioassets.js]) and of the asset list
    controller, with the properties of their aggregation logic; and of
    the role middleware, the user, asset and portfolio controllers and
    the slug helper, with the properties of their access rules and of
    the tables they write.

    Conventions of the embedding.
    - A JavaScript number is read in two ways.  The exact reading is
      [Js.number]: an exact rational, [NaN] or an infinity, with
      arithmetic that does not round.  The [Binary64] reading is the
      IEEE double the code runs on.  The sums of the group-by
      reductions and the rates of the activity report are written once,
      over the operations of either reading; everything else is in the
      exact reading.
    - A [Date] is its time value, milliseconds since the epoch, or
      [None] for an Invalid Date; [TimeClip] keeps time values within
      8.64e15 milliseconds of the epoch.  The local time zone of the
      process is a [Zone], the offsets of [LocalTZA] at every instant,
      so that daylight saving is covered; an offset in milliseconds
      stands for the zone that has it at all times.
    - A JavaScript object used as a dictionary is a [gmap] with string
      keys where only lookups matter, and an insertion-ordered
      association list where [Object.values] is taken.
    - The handlers take the rows of the tables they read.  A handler that
      writes returns the new tables with its response; an exception is
      [None] and ends in the 500 of the [catch].  [deleteOldLogs] is a
      [prog], the tree of its database calls, so that a property can
      speak of the call it reaches.
    - A text function of the engine that depends on Unicode ([trim],
      [toUpperCase], [toLowerCase], [parseFloat]) is a variable of the
      handlers that call it; [generateSlug] is read on ASCII titles. *)

From Stdlib Require Import QArith Qround Qabs Lqa ZArith Lia List Ascii String.
From Stdlib Require PrimFloat Uint63.
From stdpp Require Import base gmap strings list fin_maps sorting.

Local Open Scope Z_scope.

(** ** JavaScript numbers *)

Module Js.

Inductive number : Type :=
| Num (q : Q)
| NaN
| PosInf
| NegInf.

Definition of_Z (z : Z) : number := Num (inject_Z z).

(** [ToBoolean] on a number: [0] and [NaN] are falsy. *)
Definition truthy (n : number) : bool :=
  match n with
  | Num q => negb (Qeq_bool q 0)
  | NaN => false
  | PosInf | NegInf => true
  end.

(** [a || b] on numbers. *)
Definition or_else (a b : number) : number := if truthy a then a else b.

(** [a < b]: every comparison with [NaN] is false. *)
Definition lt (a b : number) : bool :=
  match a, b with
  | NaN, _ | _, NaN => false
  | Num x, Num y => negb (Qle_bool y x)
  | NegInf, (Num _ | PosInf) => true
  | Num _, PosInf => true
  | _, _ => false
  end.

(** [a > b]. *)
Definition gt (a b : number) : bool := lt b a.

(** [Math.max(a, b)]: [NaN] if either argument is. *)
Definition max (a b : number) : number :=
  match a, b with
  | NaN, _ | _, NaN => NaN
  | _, _ => if lt a b then b else a
  end.

(** [Math.min(a, b)]. *)
Definition min (a b : number) : number :=
  match a, b with
  | NaN, _ | _, NaN => NaN
  | _, _ => if lt b a then b else a
  end.

(** [a / b], with the results of IEEE division by zero. *)
Definition div (a b : number) : number :=
  match a, b with
  | Num x, Num y =>
      if Qeq_bool y 0 then
        (if Qeq_bool x 0 then NaN
         else if Qle_bool 0 x then PosInf else NegInf)
      else Num (x / y)
  | Num _, (PosInf | NegInf) => Num 0
  | PosInf, Num y => if Qle_bool 0 y then PosInf else NegInf
  | NegInf, Num y => if Qle_bool 0 y then NegInf else PosInf
  | _, _ => NaN
  end.

(** [a * b] for a finite right operand, as the rates use it. *)
Definition mul (a b : number) : number :=
  match a, b with
  | Num x, Num y => Num (x * y)
  | PosInf, Num y =>
      if Qeq_bool y 0 then NaN else if Qle_bool 0 y then PosInf else NegInf
  | NegInf, Num y =>
      if Qeq_bool y 0 then NaN else if Qle_bool 0 y then NegInf else PosInf
  | _, _ => NaN
  end.

Definition is_finite (n : number) : bool :=
  match n with Num _ => true | _ => false end.

(** *** [parseInt(s, 10)]

    The digits are read as the integer they write.  A double holds
    every integer up to 2^53 in magnitude, so that up to there this is
    the number that [parseInt] returns; a longer run of digits is
    rounded by [parseInt], to an infinity from some 309 digits on. *)

Definition is_space (c : ascii) : bool :=
  let n := N_of_ascii c in
  ((9 <=? n) && (n <=? 13))%N || (n =? 32)%N.

Definition digit_of_ascii (c : ascii) : option Z :=
  let n := Z.of_N (N_of_ascii c) in
  if (48 <=? n) && (n <=? 57) then Some (n - 48) else None.

Fixpoint skip_spaces (s : string) : string :=
  match s with
  | String c s' => if is_space c then skip_spaces s' else s
  | EmptyString => s
  end.

(** The longest prefix of decimal digits, read as an integer; [None]
    when the prefix is empty. *)
Fixpoint parse_digits (s : string) (acc : option Z) : option Z :=
  match s with
  | String c s' =>
      match digit_of_ascii c with
      | Some d => parse_digits s' (Some (10 * default 0 acc + d))
      | None => acc
      end
  | EmptyString => acc
  end.

Definition parseInt (s : string) : number :=
  match skip_spaces s with
  | String "-" s' =>
      match parse_digits s' None with
      | Some z => of_Z (- z)
      | None => NaN
      end
  | String "+" s' =>
      match parse_digits s' None with
      | Some z => of_Z z
      | None => NaN
      end
  | s' =>
      match parse_digits s' None with
      | Some z => of_Z z
      | None => NaN
      end
  end.

(** *** Printing

    [String(n)] and template literals, for the integers and the [NaN]
    that [parseInt] and the counters produce. *)

Definition digit_char (n : Z) : ascii :=
  ascii_of_N (Z.to_N (48 + n mod 10)).

Fixpoint digits_of (fuel : nat) (n : Z) (acc : string) : string :=
  match fuel with
  | O => acc
  | S f =>
      let acc' := String (digit_char n) acc in
      if n <? 10 then acc' else digits_of f (n / 10) acc'
  end.

Definition string_of_Z (z : Z) : string :=
  let n := Z.abs z in
  let s := digits_of (S (Z.to_nat (Z.log2 n))) n EmptyString in
  if z <? 0 then String "-" s else s.

Definition to_string (n : number) : string :=
  match n with
  | Num q => string_of_Z (Qnum q / Zpos (Qden q))
  | NaN => "NaN"
  | PosInf => "Infinity"
  | NegInf => "-Infinity"
  end.

(** [a + b]. *)
Definition add (a b : number) : number :=
  match a, b with
  | Num x, Num y => Num (x + y)
  | NaN, _ | _, NaN => NaN
  | PosInf, NegInf | NegInf, PosInf => NaN
  | PosInf, _ | _, PosInf => PosInf
  | NegInf, _ | _, NegInf => NegInf
  end.

(** [a - b]. *)
Definition sub (a b : number) : number :=
  match a, b with
  | Num x, Num y => Num (x - y)
  | NaN, _ | _, NaN => NaN
  | PosInf, PosInf | NegInf, NegInf => NaN
  | PosInf, _ | _, NegInf => PosInf
  | NegInf, _ | _, PosInf => NegInf
  end.

End Js.

(** ** IEEE doubles

    The numbers as the engine computes them: binary64 with rounding to
    nearest, ties to even. *)

Module Binary64.

Definition number : Type := PrimFloat.float.

(** An integer count as a double (exact below 2^53). *)
Definition of_nat (n : nat) : number :=
  PrimFloat.of_uint63 (Uint63.of_Z (Z.of_nat n)).

Definition zero : number := of_nat 0.
Definition add : number -> number -> number := PrimFloat.add.
Definition mul : number -> number -> number := PrimFloat.mul.
Definition div : number -> number -> number := PrimFloat.div.

(** [a < b] and [a === b]. *)
Definition lt (a b : number) : bool := PrimFloat.ltb a b.
Definition eqb (a b : number) : bool := PrimFloat.eqb a b.

(** The double that a decimal literal with two decimals, [n / 100],
    denotes: the correctly rounded quotient. *)
Definition hundredths (n : nat) : number := div (of_nat n) (of_nat 100).

End Binary64.

(** ** Pagination of the list endpoints *)

Module Pagination.

Import Js.

(** [listAssets]: [page] and [pageSize] of the asset list. *)
Definition listAssets_page (page : option string) : number :=
  max (of_Z 1) (or_else (parseInt (default "1"%string page)) (of_Z 1)).

Definition listAssets_pageSize (pageSize : option string) : number :=
  min (of_Z 100)
      (max (of_Z 1) (or_else (parseInt (default "20"%string pageSize)) (of_Z 20))).

(** [getRecentActivity]: [pageNum] and [limitNum]. *)
Definition getRecentActivity_pageNum (page : option string) : number :=
  parseInt (default "1"%string page).

Definition getRecentActivity_limitNum (limit : option string) : number :=
  min (parseInt (default "20"%string limit)) (of_Z 100).

(** A number is an integer within [lo, hi]. *)
Definition within (lo hi : Z) (n : number) : Prop :=
  exists z : Z, n = of_Z z /\ lo <= z <= hi.

Definition at_least (lo : Z) (n : number) : Prop :=
  exists z : Z, n = of_Z z /\ lo <= z.

End Pagination.

(** ** Dates

    Time values and the day, month and year functions that the
    ECMAScript specification defines on them; [Date] methods on top. *)

Module JsDate.

Import Js.

Definition msPerDay : Z := 86400000.

Definition Day (t : Z) : Z := t / msPerDay.
Definition TimeWithinDay (t : Z) : Z := t mod msPerDay.

Definition InLeapYear_of (y : Z) : bool :=
  ((y mod 4 =? 0) && negb (y mod 100 =? 0)) || (y mod 400 =? 0).

Definition DayFromYear (y : Z) : Z :=
  365 * (y - 1970) + (y - 1969) / 4 - (y - 1901) / 100 + (y - 1601) / 400.

(** The year of a day number: the largest [y] with
    [DayFromYear y <= d], found from an estimate that is off by at most
    one. *)
Definition YearFromDay (d : Z) : Z :=
  let y := 1970 + (d * 10000) / 3652425 in
  if d <? DayFromYear y then y - 1
  else if DayFromYear (y + 1) <=? d then y + 1
  else y.

Definition YearFromTime (t : Z) : Z := YearFromDay (Day t).
Definition InLeapYear (t : Z) : bool := InLeapYear_of (YearFromTime t).
Definition DayWithinYear (t : Z) : Z := Day t - DayFromYear (YearFromTime t).

(** Day within the year on which month [m] (0 to 11) starts. *)
Definition monthStart (m : Z) (leap : bool) : Z :=
  let L := if leap then 1 else 0 in
  if m <=? 0 then 0
  else if m =? 1 then 31
  else if m =? 2 then 59 + L
  else if m =? 3 then 90 + L
  else if m =? 4 then 120 + L
  else if m =? 5 then 151 + L
  else if m =? 6 then 181 + L
  else if m =? 7 then 212 + L
  else if m =? 8 then 243 + L
  else if m =? 9 then 273 + L
  else if m =? 10 then 304 + L
  else 334 + L.

Definition MonthFromTime (t : Z) : Z :=
  let d := DayWithinYear t in
  let leap := InLeapYear t in
  if d <? monthStart 1 leap then 0
  else if d <? monthStart 2 leap then 1
  else if d <? monthStart 3 leap then 2
  else if d <? monthStart 4 leap then 3
  else if d <? monthStart 5 leap then 4
  else if d <? monthStart 6 leap then 5
  else if d <? monthStart 7 leap then 6
  else if d <? monthStart 8 leap then 7
  else if d <? monthStart 9 leap then 8
  else if d <? monthStart 10 leap then 9
  else if d <? monthStart 11 leap then 10
  else 11.

Definition DateFromTime (t : Z) : Z :=
  DayWithinYear t - monthStart (MonthFromTime t) (InLeapYear t) + 1.

Definition WeekDay (t : Z) : Z := (Day t + 4) mod 7.

Definition HourFromTime (t : Z) : Z := (t / 3600000) mod 24.
Definition MinFromTime (t : Z) : Z := (t / 60000) mod 60.
Definition SecFromTime (t : Z) : Z := (t / 1000) mod 60.
Definition msFromTime (t : Z) : Z := t mod 1000.

(** [MakeDay(year, month, date)] and [MakeDate(day, time)]. *)
Definition MakeDay (year month date : Z) : Z :=
  let ym := year + month / 12 in
  let mn := month mod 12 in
  DayFromYear ym + monthStart mn (InLeapYear_of ym) + date - 1.

Definition MakeDate (day time : Z) : Z := day * msPerDay + time.

(** The local time zone of the process, as the two readings of
    [LocalTZA]: [offset_at t] is the offset (milliseconds east of UTC)
    in force at the UTC time value [t], and [offset_of_local t] is the
    offset that the local time value [t] is read with.  Where daylight
    saving starts or ends the two differ. *)
Record Zone : Type := {
  offset_at : Z -> Z;
  offset_of_local : Z -> Z;
}.

(** A zone without transitions: the offset [tza] at all times.  An
    offset stands for its zone. *)
Definition fixed (tza : Z) : Zone :=
  {| offset_at := fun _ => tza; offset_of_local := fun _ => tza |}.

Coercion fixed : Z >-> Zone.

Definition LocalTime (zone : Zone) (t : Z) : Z := t + offset_at zone t.
Definition UTC (zone : Zone) (t : Z) : Z := t - offset_of_local zone t.

(** A [Date] object: its time value, [None] for an Invalid Date. *)
Definition Date : Type := option Z.

(** [TimeClip]: a time value is at most 8.64e15 milliseconds away from
    the epoch; beyond that the date is invalid. *)
Definition maxTime : Z := 8640000000000000.

Definition TimeClip (t : Z) : Date :=
  if Z.abs t <=? maxTime then Some t else None.

(** [date.getDate()], [date.getDay()], [date.getFullYear()],
    [date.getMonth()]: local time; [NaN] on an Invalid Date. *)
Definition getDate (zone : Zone) (d : Date) : Js.number :=
  match d with
  | Some t => Js.of_Z (DateFromTime (LocalTime zone t))
  | None => Js.NaN
  end.

Definition getDay (zone : Zone) (d : Date) : Js.number :=
  match d with
  | Some t => Js.of_Z (WeekDay (LocalTime zone t))
  | None => Js.NaN
  end.

Definition getFullYear (zone : Zone) (d : Date) : Js.number :=
  match d with
  | Some t => Js.of_Z (YearFromTime (LocalTime zone t))
  | None => Js.NaN
  end.

Definition getMonth (zone : Zone) (d : Date) : Js.number :=
  match d with
  | Some t => Js.of_Z (MonthFromTime (LocalTime zone t))
  | None => Js.NaN
  end.

(** [ToIntegerOrInfinity] of a finite number: truncation towards zero;
    [None] for [NaN] and the infinities, which make the date invalid. *)
Definition to_integer (n : Js.number) : option Z :=
  match n with
  | Js.Num q => Some (Z.quot (Qnum q) (Zpos (Qden q)))
  | _ => None
  end.

(** [date.setDate(dt)]: the day of the month is replaced in local
    time, the time within the day is kept, and the result is read back
    as a local time and clipped. *)
Definition setDate (zone : Zone) (d : Date) (dt : Js.number) : Date :=
  match d, to_integer dt with
  | Some tv, Some n =>
      let t := LocalTime zone tv in
      TimeClip (UTC zone (MakeDate (MakeDay (YearFromTime t) (MonthFromTime t) n)
                                   (TimeWithinDay t)))
  | _, _ => None
  end.

(** *** [toISOString] *)

Definition pad2 (n : Z) : string :=
  String (digit_char (n / 10)) (String (digit_char n) EmptyString).

Definition pad3 (n : Z) : string :=
  String (digit_char (n / 100)) (pad2 n).

Definition pad4 (n : Z) : string :=
  String (digit_char (n / 1000)) (pad3 n).

Definition pad6 (n : Z) : string :=
  String (digit_char (n / 100000)) (String (digit_char (n / 10000)) (pad4 n)).

(** Years 0 to 9999 print as four digits, the others as a sign and six
    digits. *)
Definition isoYear (y : Z) : string :=
  if (0 <=? y) && (y <=? 9999) then pad4 y
  else if y <? 0 then String "-" (pad6 (- y))
  else String "+" (pad6 y).

Definition isoDate (t : Z) : string :=
  (isoYear (YearFromTime t) ++ "-" ++ pad2 (MonthFromTime t + 1)
     ++ "-" ++ pad2 (DateFromTime t))%string.

Definition isoTime (t : Z) : string :=
  (pad2 (HourFromTime t) ++ ":" ++ pad2 (MinFromTime t) ++ ":"
     ++ pad2 (SecFromTime t) ++ "." ++ pad3 (msFromTime t))%string.

(** [date.toISOString()] of a valid date: always UTC. *)
Definition toISOString (t : Z) : string :=
  (isoDate t ++ "T" ++ isoTime t ++ "Z")%string.

(** [s.split("T")[0]]: the part of [s] before the first ["T"]. *)
Fixpoint split_T_head (s : string) : string :=
  match s with
  | String c s' =>
      if Ascii.eqb c "T" then EmptyString else String c (split_T_head s')
  | EmptyString => EmptyString
  end.

(** [date.toISOString().split("T")[0]]. *)
Definition isoDay (t : Z) : string := split_T_head (toISOString t).

(** *** Parsing *)

(** [new Date(s)] for the date-only form ["YYYY-MM-DD"], which is read
    as midnight UTC.  Every other string is taken as an Invalid Date;
    the properties below hold for any [Date_parse], this one serves the
    examples. *)
Definition all_digits (s : string) : bool :=
  forallb (fun c => bool_decide (is_Some (digit_of_ascii c))) (list_ascii_of_string s).

Definition Date_parse_day (s : string) : Date :=
  let y := substring 0 4 s in
  let m := substring 5 2 s in
  let d := substring 8 2 s in
  if (String.length s =? 10)%nat
     && String.eqb (substring 4 1 s) "-" && String.eqb (substring 7 1 s) "-"
     && all_digits y && all_digits m && all_digits d
  then
    match parse_digits y None, parse_digits m None, parse_digits d None with
    | Some y, Some m, Some d =>
        if (1 <=? m) && (m <=? 12) && (1 <=? d) && (d <=? 31)
        then Some (MakeDate (MakeDay y (m - 1) d) 0)
        else None
    | _, _, _ => None
    end
  else None.

End JsDate.

(** ** Sorting and ranking

    [Array.prototype.sort] is a stable sort.  For a comparator that is
    a difference of metrics, every stable sort returns the same array;
    it is written here as an insertion sort that keeps earlier elements
    first among equals. *)

Module JsArray.

Section Sort.
Context {A : Type} (cmp : A -> A -> Q).

(** [x] comes from before every element of [l] in the input: it goes
    before the first [y] with [cmp x y <= 0]. *)
Fixpoint insert_sorted (x : A) (l : list A) : list A :=
  match l with
  | [] => [x]
  | y :: l' =>
      if Qle_bool (cmp x y) 0 then x :: y :: l'
      else y :: insert_sorted x l'
  end.

Definition sort (l : list A) : list A := foldr insert_sorted [] l.
End Sort.

(** [arr.slice(0, n)]. *)
Definition slice0 {A : Type} (n : nat) (l : list A) : list A := take n l.

(** [arr.reduce((sum, x) => sum + f(x), 0)]. *)
Definition sum_by {A : Type} (f : A -> Q) (l : list A) : Q :=
  fold_left (fun sum x => (sum + f x)%Q) l 0%Q.

(** *** Vocabulary of the ranking properties *)

(** The comparator [(a, b) => metric(b) - metric(a)]. *)
Definition desc {A : Type} (metric : A -> Q) (a b : A) : Q :=
  (metric b - metric a)%Q.

(** Descending order of the metric. *)
Definition descending {A : Type} (metric : A -> Q) (l : list A) : Prop :=
  StronglySorted (fun a b => (metric b <= metric a)%Q) l.

(** The elements of [l] whose metric equals [v], in their order. *)
Definition with_metric {A : Type} (metric : A -> Q) (v : Q) (l : list A) : list A :=
  List.filter (fun a => Qeq_bool (metric a) v) l.

(** Two lists list the records of every metric value in the same
    order. *)
Definition same_order_of_equals {A : Type} (metric : A -> Q) (l1 l2 : list A) : Prop :=
  forall v : Q, with_metric metric v l1 = with_metric metric v l2.

(** [out] is the stable descending arrangement of [input], cut to at
    most [n] entries. *)
Definition stable_top {A : Type} (n : nat) (metric : A -> Q) (input out : list A) : Prop :=
  (length out <= n)%nat /\
  descending metric out /\
  exists rest : list A,
    out ++ rest ≡ₚ input /\
    (length out < n -> rest = [])%nat /\
    descending metric (out ++ rest) /\
    same_order_of_equals metric (out ++ rest) input.

End JsArray.

(** ** Plain objects as dictionaries

    An object literal [{}] inherits the properties of
    [Object.prototype].  For such a name [acc[k]] is the inherited
    function (for [__proto__] the prototype itself), which is truthy,
    although the object has no entry of its own. *)

Module JsObject.

Definition Object_prototype_keys : list string :=
  ["constructor"; "__defineGetter__"; "__defineSetter__"; "hasOwnProperty";
   "__lookupGetter__"; "__lookupSetter__"; "isPrototypeOf";
   "propertyIsEnumerable"; "toString"; "valueOf"; "__proto__";
   "toLocaleString"]%string.

Definition inherited (k : string) : bool :=
  existsb (String.eqb k) Object_prototype_keys.

End JsObject.

(** ** Financial reports *)

Module Reports.

Import Js JsDate JsArray.

Inductive TransactionStatus : Type := PENDING | APPROVED | REJECTED.

Definition TransactionStatus_eqb (a b : TransactionStatus) : bool :=
  match a, b with
  | PENDING, PENDING | APPROVED, APPROVED | REJECTED, REJECTED => true
  | _, _ => false
  end.

(** A deposit or withdrawal row, with the fields the reports read;
    [N] is the type of its amount. *)
Record Transaction_of (N : Type) : Type := {
  amount : N;
  transactionStatus : TransactionStatus;
  method : option string;
  createdAt : Z;
}.

Arguments amount {N} _.
Arguments transactionStatus {N} _.
Arguments method {N} _.
Arguments createdAt {N} _.

Abbreviation Transaction := (Transaction_of Q).

Record Bucket_of (N : Type) : Type := { count : nat; bucket_amount : N }.

Arguments count {N} _.
Arguments bucket_amount {N} _.

Abbreviation Bucket := (Bucket_of Q).

Record StatusTotals := { st_count : nat; st_amount : Q }.

Record DepositsSummary : Type := {
  totalCount : nat;
  totalAmount : Q;
  pending : StatusTotals;
  approved : StatusTotals;
  rejected : StatusTotals;
  averageDeposit : number;
}.

Definition with_status (s : TransactionStatus) (l : list Transaction) :=
  List.filter (fun d => TransactionStatus_eqb (transactionStatus d) s) l.

Definition status_totals (s : TransactionStatus) (l : list Transaction) :=
  let ds := with_status s l in
  {| st_count := length ds; st_amount := sum_by amount ds |}.

(** The [summary] of [getDepositsReport]. *)
Definition depositsSummary (deposits : list Transaction) : DepositsSummary :=
  let totalDeposits := sum_by amount deposits in
  {| totalCount := length deposits;
     totalAmount := totalDeposits;
     pending := status_totals PENDING deposits;
     approved := status_totals APPROVED deposits;
     rejected := status_totals REJECTED deposits;
     averageDeposit :=
       if (0 <? length deposits)%nat
       then div (Num totalDeposits) (of_Z (Z.of_nat (length deposits)))
       else of_Z 0 |}.

(** *** Group-by reductions

    Written over the zero and the addition of the amounts, so that they
    can be read exactly and in doubles. *)

Definition method_key {N : Type} (d : Transaction_of N) : string :=
  match method d with
  | Some m => if String.eqb m "" then "Unknown" else m
  | None => "Unknown"
  end.

Section GroupBy.
Context {N : Type} (zero : N) (add : N -> N -> N).

(** [deposits.reduce((sum, d) => sum + d.amount, 0)]. *)
Definition total_amount (deposits : list (Transaction_of N)) : N :=
  fold_left (fun sum d => add sum (amount d)) deposits zero.

(** One step of the group-by reductions:
    [if (!acc[k]) acc[k] = {count: 0, amount: 0};
     acc[k].count++; acc[k].amount += d.amount]. *)
Definition add_to_bucket (k : string) (a : N) (acc : gmap string (Bucket_of N))
  : gmap string (Bucket_of N) :=
  let b := default {| count := 0; bucket_amount := zero |} (acc !! k) in
  <[k := {| count := S (count b); bucket_amount := add (bucket_amount b) a |}]> acc.

(** The step on a plain object.  For a key that [Object.prototype]
    has, [!acc[k]] is false: no entry is made, the two updates go to
    the inherited value, and the object has the entries it had. *)
Definition add_to_object (k : string) (a : N) (acc : gmap string (Bucket_of N))
  : gmap string (Bucket_of N) :=
  if JsObject.inherited k then acc else add_to_bucket k a acc.

(** [byMethod] and [dailyBreakdown] of [getDepositsReport]; the keys
    of the daily breakdown are dates, which [Object.prototype] does not
    have. *)
Definition byMethod (deposits : list (Transaction_of N)) : gmap string (Bucket_of N) :=
  fold_left (fun acc d => add_to_object (method_key d) (amount d) acc) deposits ∅.

Definition dailyBreakdown (deposits : list (Transaction_of N))
  : gmap string (Bucket_of N) :=
  fold_left (fun acc d => add_to_bucket (isoDay (createdAt d)) (amount d) acc)
            deposits ∅.

(** Sums over the buckets of a breakdown. *)
Definition buckets_amount (m : gmap string (Bucket_of N)) : N :=
  map_fold (fun _ b acc => add acc (bucket_amount b)) zero m.

End GroupBy.

Definition buckets_count {N : Type} (m : gmap string (Bucket_of N)) : nat :=
  map_fold (fun _ b acc => (acc + count b)%nat) 0%nat m.

(** *** Wallets report: top wallets by balance *)

Record Wallet : Type := {
  wallet_id : string;
  balance : Q;
  netAssetValue : Q;
  totalFees : Q;
}.

(** [[...wallets].sort((a, b) => b.balance - a.balance).slice(0, 10)]. *)
Definition topWallets (wallets : list Wallet) : list Wallet :=
  slice0 10 (sort (fun a b => (balance b - balance a)%Q) wallets).

(** *** User activity report *)

Record Activity : Type := {
  act_userId : string;
  act_user : string;
  act_status : option string;
  act_createdAt : Z;
}.

Record UserCount : Type := { uc_user : string; uc_count : nat }.

(** [userActivityCount]: an object keyed by user id.  The keys keep
    their insertion order, which is the order [Object.values] lists
    them in (user ids are not array indices). *)
Fixpoint count_user (userId user : string) (acc : list (string * UserCount))
  : list (string * UserCount) :=
  match acc with
  | [] => [(userId, {| uc_user := user; uc_count := 1 |})]
  | (k, e) :: acc' =>
      if String.eqb k userId
      then (k, {| uc_user := uc_user e; uc_count := S (uc_count e) |}) :: acc'
      else (k, e) :: count_user userId user acc'
  end.

Definition userActivityCount (activities : list Activity)
  : list (string * UserCount) :=
  fold_left (fun acc a => count_user (act_userId a) (act_user a) acc) activities [].

Definition Object_values {V : Type} (o : list (string * V)) : list V := map snd o.

Definition by_count_desc (a b : UserCount) : Q :=
  (inject_Z (Z.of_nat (uc_count b)) - inject_Z (Z.of_nat (uc_count a)))%Q.

(** [Object.values(userActivityCount).sort((a, b) => b.count - a.count)
      .slice(0, 10)]. *)
Definition topUsersOf (entries : list UserCount) : list UserCount :=
  slice0 10 (sort by_count_desc entries).

Definition topActiveUsers (activities : list Activity) : list UserCount :=
  topUsersOf (Object_values (userActivityCount activities)).

(** [byStatus]: [acc[status] = (acc[status] || 0) + 1] with
    [status = a.status || "Unknown"]. *)
Definition status_key (a : Activity) : string :=
  match act_status a with
  | Some s => if String.eqb s "" then "Unknown" else s
  | None => "Unknown"
  end.

Definition byStatus (activities : list Activity) : gmap string nat :=
  fold_left (fun acc a =>
               <[status_key a := S (default 0%nat (acc !! status_key a))]> acc)
            activities ∅.

(** *** Rates of the summary

    Written over the operations of the numbers, so that they can be
    read exactly and in doubles. *)

Section Rates.
Context {N : Type} (of_nat : nat -> N) (div mul : N -> N -> N).

(** [activities.length > 0
      ? ((byStatus[k] || 0) / activities.length) * 100 : 0]. *)
Definition rate (k : string) (activities : list Activity) : N :=
  if (0 <? length activities)%nat
  then mul (div (of_nat (default 0%nat (byStatus activities !! k)))
                (of_nat (length activities)))
           (of_nat 100)
  else of_nat 0.

Definition successRate (activities : list Activity) : N :=
  rate "SUCCESS" activities.

Definition failureRate (activities : list Activity) : N :=
  rate "FAILED" activities.

End Rates.

(** The exact reading of the rates. *)
Definition exact_of_nat (n : nat) : number := of_Z (Z.of_nat n).

(** *** Vocabulary of the properties and sample data *)

Definition deposit_of (a : Q) (s : TransactionStatus) : Transaction :=
  {| amount := a; transactionStatus := s; method := None; createdAt := 0 |}.

(** The deposits of the scenario: 1000 approved, 500 pending, 200
    rejected. *)
Definition scenario_deposits : list Transaction :=
  [deposit_of 1000 APPROVED; deposit_of 500 PENDING; deposit_of 200 REJECTED].

(** A deposit in the doubles reading, of [cents / 100] at time [t]. *)
Definition deposit64 (cents : nat) (t : Z) : Transaction_of Binary64.number :=
  {| amount := Binary64.hundredths cents; transactionStatus := APPROVED;
     method := None; createdAt := t |}.

(** The number of activities of status [k]. *)
Definition count_status (k : string) (l : list Activity) : nat :=
  length (List.filter (fun a => String.eqb (status_key a) k) l).

Definition count_metric (u : UserCount) : Q := inject_Z (Z.of_nat (uc_count u)).

Definition wallet_of (name : string) (b : Q) : Wallet :=
  {| wallet_id := name; balance := b; netAssetValue := b; totalFees := 0 |}.

Definition activity_with (status : string) : Activity :=
  {| act_userId := "u1"; act_user := "u1"; act_status := Some status;
     act_createdAt := 0 |}.

Definition activity_of (user : string) : Activity :=
  {| act_userId := user; act_user := user; act_status := Some "SUCCESS"%string;
     act_createdAt := 0 |}.

End Reports.

(** ** Transaction trends *)

Module Trends.

Import Js JsDate JsArray Reports.

(** [s.padStart(2, "0")]. *)
Definition padStart2 (s : string) : string :=
  match String.length s with
  | O => "00"
  | S O => String "0" s
  | _ => s
  end.

(** [getGroupKey(date)] for the [period] of the request.  The weekly
    branch throws ([None]) if [setDate] leaves an Invalid Date, as
    [toISOString] then raises a [RangeError]. *)
Definition getGroupKey (tza : Zone) (period : string) (date : Z) : option string :=
  if String.eqb period "weekly" then
    let startOfWeek :=
      setDate tza (Some date)
              (sub (getDate tza (Some date)) (getDay tza (Some date))) in
    match startOfWeek with
    | Some t => Some (isoDay t)
    | None => None
    end
  else if String.eqb period "monthly" then
    Some (to_string (getFullYear tza (Some date)) ++ "-"
          ++ padStart2 (to_string (add (getMonth tza (Some date)) (of_Z 1))))%string
  else Some (isoDay date).

Record Trend : Type := {
  date : string;
  deposits : Q;
  withdrawals : Q;
  netFlow : Q;
  depositCount : nat;
  withdrawalCount : nat;
}.

Definition new_trend (key : string) : Trend :=
  {| date := key; deposits := 0; withdrawals := 0; netFlow := 0;
     depositCount := 0; withdrawalCount := 0 |}.

Definition add_deposit (key : string) (a : Q) (trends : gmap string Trend)
  : gmap string Trend :=
  let t := default (new_trend key) (trends !! key) in
  <[key := {| date := date t; deposits := (deposits t + a)%Q;
              withdrawals := withdrawals t; netFlow := netFlow t;
              depositCount := S (depositCount t);
              withdrawalCount := withdrawalCount t |}]> trends.

Definition add_withdrawal (key : string) (a : Q) (trends : gmap string Trend)
  : gmap string Trend :=
  let t := default (new_trend key) (trends !! key) in
  <[key := {| date := date t; deposits := deposits t;
              withdrawals := (withdrawals t + a)%Q; netFlow := netFlow t;
              depositCount := depositCount t;
              withdrawalCount := S (withdrawalCount t) |}]> trends.

(** The two [forEach] loops; an exception of [getGroupKey] aborts
    them. *)
Fixpoint each_deposit (tza : Zone) (period : string) (ds : list Transaction)
    (trends : gmap string Trend) : option (gmap string Trend) :=
  match ds with
  | [] => Some trends
  | d :: ds' =>
      match getGroupKey tza period (createdAt d) with
      | Some key => each_deposit tza period ds' (add_deposit key (amount d) trends)
      | None => None
      end
  end.

Fixpoint each_withdrawal (tza : Zone) (period : string) (ws : list Transaction)
    (trends : gmap string Trend) : option (gmap string Trend) :=
  match ws with
  | [] => Some trends
  | w :: ws' =>
      match getGroupKey tza period (createdAt w) with
      | Some key =>
          each_withdrawal tza period ws' (add_withdrawal key (amount w) trends)
      | None => None
      end
  end.

Definition set_netFlow (t : Trend) : Trend :=
  {| date := date t; deposits := deposits t; withdrawals := withdrawals t;
     netFlow := (deposits t - withdrawals t)%Q;
     depositCount := depositCount t; withdrawalCount := withdrawalCount t |}.

(** [trends] of [getTransactionTrendsReport], after the net flow is
    filled in; [period] defaults to ["daily"]. *)
Definition trends (tza : Zone) (period : option string)
    (deposits withdrawals : list Transaction) : option (gmap string Trend) :=
  let period := default "daily"%string period in
  match each_deposit tza period deposits ∅ with
  | Some t1 =>
      match each_withdrawal tza period withdrawals t1 with
      | Some t2 => Some (set_netFlow <$> t2)
      | None => None
      end
  | None => None
  end.

(** The week of a time value in the calendar of the zone [tza]: the
    day number of its Sunday. *)
Definition weekStartDay (tza : Zone) (t : Z) : Z :=
  Day (LocalTime tza t) - WeekDay (LocalTime tza t).

(** *** Vocabulary of the properties and sample data *)

(** East Africa Time: three hours east of UTC, no daylight saving. *)
Definition EAT : Z := 3 * 3600000.

(** Tuesday 2 January 2024 at 20:00 UTC (23:00 local) and at 22:00 UTC
    (Wednesday 01:00 local). *)
Definition tuesday_evening : Z := 1704225600000.
Definition tuesday_night : Z := 1704232800000.

Definition deposit_at (a : Q) (t : Z) : Transaction :=
  {| amount := a; transactionStatus := APPROVED; method := None; createdAt := t |}.

Definition one_deposit (key : string) (a : Q) : Trend :=
  {| date := key; deposits := a; withdrawals := 0; netFlow := a;
     depositCount := 1; withdrawalCount := 0 |}.

End Trends.

(** ** Comprehensive financial report: growth against the previous period *)

Module Summary.

Import Js JsDate JsArray Reports.

(** A query-string parameter is truthy when present and not empty. *)
Definition supplied (p : option string) : bool :=
  match p with
  | Some s => negb (String.eqb s "")
  | None => false
  end.

Record DateFilter : Type := { gte : option Date; lte : option Date }.

(** [parseDateFilters]; [Date_parse] is [new Date(string)], [None] for
    an Invalid Date. *)
Definition parseDateFilters (Date_parse : string -> Date)
    (startDate endDate : option string) : option DateFilter :=
  if negb (supplied startDate) && negb (supplied endDate) then None
  else Some {| gte := if supplied startDate
                      then Some (Date_parse (default ""%string startDate)) else None;
               lte := if supplied endDate
                      then Some (Date_parse (default ""%string endDate)) else None |}.

(** A [createdAt] condition of a query: each bound is absent
    ([undefined]) or a [Date]. *)
Record CreatedAt : Type := {
  c_gte : option Date;
  c_lte : option Date;
  c_lt : option Date;
}.

Definition bound_valid (b : option Date) : bool :=
  match b with
  | Some None => false
  | _ => true
  end.

Definition holds (cmp : Z -> Z -> bool) (b : option Date) (t : Z) : bool :=
  match b with
  | Some (Some x) => cmp t x
  | _ => true
  end.

Definition createdAt_matches (c : CreatedAt) (t : Z) : bool :=
  holds Z.geb (c_gte c) t && holds Z.leb (c_lte c) t && holds Z.ltb (c_lt c) t.

(** The rows a query selects.  The database client validates its
    arguments: an Invalid Date bound raises ([None]). *)
Definition select (c : CreatedAt) (approved_only : bool) (table : list Transaction)
  : option (list Transaction) :=
  if bound_valid (c_gte c) && bound_valid (c_lte c) && bound_valid (c_lt c) then
    Some (List.filter
            (fun r => createdAt_matches c (createdAt r)
                      && (negb approved_only
                          || TransactionStatus_eqb (transactionStatus r) APPROVED))
            table)
  else None.

Definition no_condition : CreatedAt :=
  {| c_gte := None; c_lte := None; c_lt := None |}.

(** [db.x.findMany({ where: createdAtFilter })]. *)
Definition findMany (dateFilter : option DateFilter) (table : list Transaction)
  : option (list Transaction) :=
  match dateFilter with
  | Some f => select {| c_gte := gte f; c_lte := lte f; c_lt := None |} false table
  | None => select no_condition false table
  end.

(** [db.x.aggregate({ _sum: { amount: true }, where })._sum.amount || 0]. *)
Definition aggregate_sum (c : CreatedAt) (table : list Transaction) : option Q :=
  match select c true table with
  | Some rows => Some (sum_by amount rows)
  | None => None
  end.

(** [d.getTime()]. *)
Definition getTime (d : Date) : number :=
  match d with
  | Some t => of_Z t
  | None => NaN
  end.

(** [new Date(n)] of a number: [TimeClip] of it, an Invalid Date
    beyond the range of time values and else the number truncated. *)
Definition Date_of_number (n : number) : Date :=
  match n with
  | Num q =>
      if Qle_bool (Qabs q) (inject_Z maxTime)
      then Some (Z.quot (Qnum q) (Zpos (Qden q)))
      else None
  | _ => None
  end.

(** The [createdAt] condition of the previous-period queries.  Reading
    [dateFilter.lte!.getTime()] when [lte] is absent is a [TypeError]
    ([None]); it is only evaluated when [gte] is present. *)
Definition previous_window (f : DateFilter) : option CreatedAt :=
  match gte f with
  | Some g =>
      match lte f with
      | Some l =>
          Some {| c_lt := Some g;
                  c_gte := Some (Date_of_number
                                   (sub (getTime g) (sub (getTime l) (getTime g))));
                  c_lte := None |}
      | None => None
      end
  | None => Some {| c_lt := None; c_gte := None; c_lte := None |}
  end.

Record GrowthMetrics : Type := {
  depositGrowth : option Q;
  withdrawalGrowth : option Q;
}.

(** [previous > 0 ? ((current - previous) / previous) * 100 : null]. *)
Definition growth (current previous : Q) : option Q :=
  if negb (Qle_bool previous 0)
  then Some (((current - previous) / previous) * 100)%Q
  else None.

Inductive CashFlowStatus : Type := POSITIVE | NEGATIVE.

Record Report : Type := {
  deposits_total : Q;
  deposits_approved : Q;
  deposits_count : nat;
  withdrawals_total : Q;
  withdrawals_approved : Q;
  withdrawals_count : nat;
  netCashFlow : Q;
  netCashFlow_status : CashFlowStatus;
  growthMetrics : option GrowthMetrics;
}.

Record Db : Type := {
  deposit : list Transaction;
  withdrawal : list Transaction;
}.

Inductive Response : Type :=
| Ok200 (data : Report)
| Error500.

(** The body of the [try] block, on the deposit and withdrawal
    tables; [None] is an exception. *)
Definition comprehensive_body (Date_parse : string -> Date) (db : Db)
    (startDate endDate : option string) : option Report :=
  let dateFilter := parseDateFilters Date_parse startDate endDate in
  deposits ← findMany dateFilter (deposit db);
  withdrawals ← findMany dateFilter (withdrawal db);
  let totalDeposits := sum_by amount deposits in
  let approvedDeposits := with_status APPROVED deposits in
  let totalApprovedDeposits := sum_by amount approvedDeposits in
  let totalWithdrawals := sum_by amount withdrawals in
  let approvedWithdrawals := with_status APPROVED withdrawals in
  let totalApprovedWithdrawals := sum_by amount approvedWithdrawals in
  let netCashFlow := (totalApprovedDeposits - totalApprovedWithdrawals)%Q in
  growthMetrics ←
    match dateFilter with
    | Some f =>
        w ← previous_window f;
        previousDeposits ← aggregate_sum w (deposit db);
        w' ← previous_window f;
        previousWithdrawals ← aggregate_sum w' (withdrawal db);
        Some (Some {| depositGrowth := growth totalApprovedDeposits previousDeposits;
                      withdrawalGrowth :=
                        growth totalApprovedWithdrawals previousWithdrawals |})
    | None => Some None
    end;
  Some {| deposits_total := totalDeposits;
          deposits_approved := totalApprovedDeposits;
          deposits_count := length deposits;
          withdrawals_total := totalWithdrawals;
          withdrawals_approved := totalApprovedWithdrawals;
          withdrawals_count := length withdrawals;
          netCashFlow := netCashFlow;
          netCashFlow_status :=
            if Qle_bool 0 netCashFlow then POSITIVE else NEGATIVE;
          growthMetrics := growthMetrics |}.

(** [getComprehensiveFinancialReport]: the [catch] turns every
    exception into a 500. *)
Definition getComprehensiveFinancialReport (Date_parse : string -> Date) (db : Db)
    (startDate endDate : option string) : Response :=
  match comprehensive_body Date_parse db startDate endDate with
  | Some r => Ok200 r
  | None => Error500
  end.

(** *** Vocabulary of the properties and sample data *)

(** The approved rows created in [lo, hi). *)
Definition approved_between (lo hi : Z) (table : list Transaction) : list Transaction :=
  List.filter (fun r => ((lo <=? createdAt r) && (createdAt r <? hi))
                        && TransactionStatus_eqb (transactionStatus r) APPROVED)
              table.

Definition row (a : Q) (s : TransactionStatus) (day : string) : Transaction :=
  {| amount := a; transactionStatus := s; method := None;
     createdAt := default 0 (Date_parse_day day) |}.

Definition sample_db : Db :=
  {| deposit := [row 300 APPROVED "2023-12-15"; row 1000 APPROVED "2024-01-10";
                 row 500 APPROVED "2024-01-20"; row 50 PENDING "2024-01-21"];
     withdrawal := [row 200 APPROVED "2023-12-20"; row 400 APPROVED "2024-01-15"] |}.

End Summary.

(** ** Activity log maintenance *)

Module ActivityLogs.

Import Js JsDate.

Record LogData : Type := {
  userId : string;
  action : string;
  module_ : string;
  status : string;
  description : string;
  method : string;
  platform : string;
  isAutomated : bool;
}.

Record ActivityLog : Type := { data : LogData; createdAt : Z }.

Record Request : Type := {
  user_role : option string;
  user_userId : option string;
  body_olderThanDays : option string;
}.

Inductive Body : Type :=
| ErrorBody (error : string)
| CleanupBody (message : string) (deletedCount : nat).

Record Response : Type := { res_status : Z; res_body : Body }.

(** A handler as the database calls it makes, in order, up to its
    response. *)
Inductive prog : Type :=
| Respond (r : Response)
| DeleteMany (createdAt_lt : Date) (k : nat -> prog)
| Create (d : LogData) (k : prog).

Definition cleanup_text (prefix : string) (count : nat) (days : number) : string :=
  (prefix ++ to_string (of_Z (Z.of_nat count)) ++ " logs older than "
     ++ to_string days ++ " days")%string.

Definition is_super_admin (role : option string) : bool :=
  match role with
  | Some r => String.eqb r "SUPER_ADMIN"
  | None => false
  end.

(** The [try] block of [deleteOldLogs]; [now] is [new Date()]. *)
Definition deleteOldLogs_body (tza : Zone) (now : Z) (req : Request) : prog :=
  if negb (is_super_admin (user_role req)) then
    Respond {| res_status := 403;
               res_body := ErrorBody "Access denied. Super Admin privileges required." |}
  else
    let olderThanDays := default "90"%string (body_olderThanDays req) in
    let days := parseInt olderThanDays in
    if lt days (of_Z 30) then
      Respond {| res_status := 400;
                 res_body := ErrorBody "Cannot delete logs newer than 30 days" |}
    else
      let cutoffDate := setDate tza (Some now) (sub (getDate tza (Some now)) days) in
      DeleteMany cutoffDate (fun result_count =>
        Create {| userId := default ""%string (user_userId req);
                  action := "LOGS_CLEANUP";
                  module_ := "system";
                  status := "SUCCESS";
                  description := cleanup_text "Deleted " result_count days;
                  method := "DELETE";
                  platform := "web";
                  isAutomated := false |}
          (Respond {| res_status := 200;
                      res_body :=
                        CleanupBody (cleanup_text "Successfully deleted "
                                                  result_count days)
                                    result_count |})).

(** Running a handler on the activity-log table.  [deleteMany] removes
    the rows created before the bound and reports how many; an Invalid
    Date bound is refused by the client and the exception reaches
    [on_error], the response of the [catch].  [create] appends a row
    stamped by the clock. *)
Fixpoint run (on_error : Response) (clock : Z) (p : prog) (table : list ActivityLog)
  : Response * list ActivityLog :=
  match p with
  | Respond r => (r, table)
  | DeleteMany None _ => (on_error, table)
  | DeleteMany (Some cutoff) k =>
      let kept := List.filter (fun l => negb (createdAt l <? cutoff)) table in
      run on_error clock (k (length table - length kept)%nat) kept
  | Create d k =>
      run on_error clock k (table ++ [{| data := d; createdAt := clock |}])
  end.

Definition deleteOldLogs (tza : Zone) (now : Z) (req : Request)
    (table : list ActivityLog)
  : Response * list ActivityLog :=
  run {| res_status := 500; res_body := ErrorBody "Failed to delete old logs" |}
      now (deleteOldLogs_body tza now req) table.

(** *** Vocabulary of the properties and sample data *)




Definition cleanup_request (olderThanDays : string) : Request :=
  {| user_role := Some "SUPER_ADMIN"%string;
     user_userId := Some "admin-1"%string;
     body_olderThanDays := Some olderThanDays |}.

Definition log_at (t : Z) : ActivityLog :=
  {| data := {| userId := "u1"; action := "LOGIN"; module_ := "auth";
                status := "SUCCESS"; description := ""; method := "POST";
                platform := "web"; isAutomated := false |};
     createdAt := t |}.

(** 1 March 2024 at noon UTC, and rows 40, 30 and 10 days older. *)
Definition sample_now : Z := 1709294400000.
Definition sample_table : list ActivityLog :=
  [log_at (sample_now - 40 * msPerDay); log_at (sample_now - 30 * msPerDay);
   log_at (sample_now - 10 * msPerDay)].

(** A zone that moves from the offset [std] to the offset [dst] at
    the instant [start]; the local times that the change skips are
    read with the offset before it. *)
Definition spring_forward (start std dst : Z) : Zone :=
  {| offset_at := fun t => if t <? start then std else dst;
     offset_of_local := fun t => if t <? start + dst then std else dst |}.

(** Central European Time in the spring of 2024: one hour east of UTC
    until 31 March, 01:00 UTC, two hours from then on. *)
Definition CET_2024 : Zone := spring_forward 1711846800000 3600000 7200000.

(** 15 April 2024 at noon UTC, 14:00 in that zone, and a row that is
    29 days, 23 hours and 30 minutes old then. *)
Definition april_noon : Z := 1713182400000.
Definition young_row : ActivityLog := log_at (april_noon - 30 * msPerDay + 1800000).

End ActivityLogs.

(** ** Portfolio assets *)

Module PortfolioAssets.

Import Js.

(** A value of a JSON request body; arrays and objects are left out. *)
Inductive value : Type :=
| VUndefined
| VNull
| VBool (b : bool)
| VNumber (n : number)
| VString (s : string).

(** [Number(v)]; [StringToNumber] is the conversion of a string. *)
Definition Number (StringToNumber : string -> number) (v : value) : number :=
  match v with
  | VUndefined => NaN
  | VNull => of_Z 0
  | VBool b => if b then of_Z 1 else of_Z 0
  | VNumber n => n
  | VString s => StringToNumber s
  end.

(** [toNum(v, def)]. *)
Definition toNum (StringToNumber : string -> number) (v : value) (def : Q) : Q :=
  match Number StringToNumber v with
  | Num q => q
  | _ => def
  end.

Definition calcLossGain (costPrice closeValue stock : Q) : Q :=
  ((closeValue - costPrice) * stock)%Q.

Record PortfolioAsset : Type := {
  id : string;
  portfolioId : string;
  assetId : string;
  stock : Q;
  costPrice : Q;
  closeValue : Q;
  lossGain : Q;
}.

Record Db : Type := {
  portfolio : gset string;
  asset : gmap string Q;
  portfolioAsset : gmap string PortfolioAsset;
}.

Record CreateBody : Type := {
  b_portfolioId : option string;
  b_assetId : option string;
  b_stock : value;
  b_costPrice : value;
  b_closeValue : value;
}.

Inductive Response : Type :=
| Status (code : Z)
| Row (code : Z) (data : PortfolioAsset).

Definition nonempty (s : option string) : bool :=
  match s with
  | Some x => negb (String.eqb x "")
  | None => false
  end.

Definition closeValue_missing (v : value) : bool :=
  match v with
  | VUndefined | VNull => true
  | VString s => String.eqb s ""
  | _ => false
  end.

(** [@@unique([portfolioId, assetId])]. *)
Definition pair_taken (db : Db) (pid aid : string) : bool :=
  bool_decide (map_Exists (fun _ r => portfolioId r = pid /\ assetId r = aid)
                          (portfolioAsset db)).

Definition with_portfolioAsset (db : Db) (t : gmap string PortfolioAsset) : Db :=
  {| portfolio := portfolio db; asset := asset db; portfolioAsset := t |}.

(** [createPortfolioAsset]; [newId] is the identifier the database
    gives the new row. *)
Definition createPortfolioAsset (StringToNumber : string -> number)
    (newId : string) (body : CreateBody) (db : Db) : Response * Db :=
  if negb (nonempty (b_portfolioId body)) || negb (nonempty (b_assetId body)) then
    (Status 400, db)
  else
    let portfolioId := default ""%string (b_portfolioId body) in
    let assetId := default ""%string (b_assetId body) in
    let stock := toNum StringToNumber (b_stock body) 0 in
    let costPrice := toNum StringToNumber (b_costPrice body) 0 in
    let closeValue :=
      if closeValue_missing (b_closeValue body) then
        match asset db !! assetId with
        | Some closePrice => Some (VNumber (Num closePrice))
        | None => None
        end
      else Some (b_closeValue body) in
    match closeValue with
    | None => (Status 404, db)
    | Some closeValue =>
        let closeValue := toNum StringToNumber closeValue 0 in
        if negb (bool_decide (portfolioId ∈ portfolio db)) then (Status 404, db)
        else if negb (bool_decide (is_Some (asset db !! assetId))) then (Status 404, db)
        else
          let lossGain := calcLossGain costPrice closeValue stock in
          if pair_taken db portfolioId assetId then (Status 409, db)
          else
            let row := {| id := newId; portfolioId := portfolioId;
                          assetId := assetId; stock := stock;
                          costPrice := costPrice; closeValue := closeValue;
                          lossGain := lossGain |} in
            (Row 201 row,
             with_portfolioAsset db (<[newId := row]> (portfolioAsset db)))
    end.

Record UpdateBody : Type := {
  u_stock : value;
  u_costPrice : value;
  u_closeValue : value;
}.

Definition is_undefined (v : value) : bool :=
  match v with
  | VUndefined => true
  | _ => false
  end.

(** [updatePortfolioAsset]. *)
Definition updatePortfolioAsset (StringToNumber : string -> number)
    (id_ : string) (body : UpdateBody) (db : Db) : Response * Db :=
  match portfolioAsset db !! id_ with
  | None => (Status 404, db)
  | Some current =>
      let stock :=
        if negb (is_undefined (u_stock body))
        then toNum StringToNumber (u_stock body) (stock current)
        else stock current in
      let costPrice :=
        if negb (is_undefined (u_costPrice body))
        then toNum StringToNumber (u_costPrice body) (costPrice current)
        else costPrice current in
      let closeValue :=
        if negb (is_undefined (u_closeValue body))
        then toNum StringToNumber (u_closeValue body) (closeValue current)
        else closeValue current in
      let lossGain := calcLossGain costPrice closeValue stock in
      let updated := {| id := id current; portfolioId := portfolioId current;
                        assetId := assetId current; stock := stock;
                        costPrice := costPrice; closeValue := closeValue;
                        lossGain := lossGain |} in
      (Row 200 updated,
       with_portfolioAsset db (<[id_ := updated]> (portfolioAsset db)))
  end.

(** *** Vocabulary of the properties and sample data *)

(** A response that carries a row wrote exactly that row under [key],
    with its loss or gain recomputed from the stored figures; any other
    response wrote nothing. *)
Definition wrote_recomputed (key : string) (db : Db) (out : Response * Db) : Prop :=
  match out.1 with
  | Row _ row =>
      out.2 = with_portfolioAsset db (<[key := row]> (portfolioAsset db)) /\
      lossGain row = calcLossGain (costPrice row) (closeValue row) (stock row)
  | Status _ => out.2 = db
  end.

Definition no_strings : string -> number := fun _ => NaN.

Definition sample_db : Db :=
  {| portfolio := {["p1"%string]};
     asset := {["a1"%string := 12%Q]};
     portfolioAsset := ∅ |}.

Definition sample_create : CreateBody :=
  {| b_portfolioId := Some "p1"%string; b_assetId := Some "a1"%string;
     b_stock := VNumber (Num 10); b_costPrice := VNumber (Num 8);
     b_closeValue := VUndefined |}.

Definition sample_row : PortfolioAsset :=
  {| id := "pa1"; portfolioId := "p1"; assetId := "a1"; stock := 10;
     costPrice := 8; closeValue := 12; lossGain := calcLossGain 8 12 10 |}.

Definition sample_db1 : Db :=
  with_portfolioAsset sample_db {["pa1"%string := sample_row]}.

(** An update that changes the close value only. *)
Definition sample_update : UpdateBody :=
  {| u_stock := VUndefined; u_costPrice := VUndefined;
     u_closeValue := VNumber (Num 15) |}.

Definition sample_row2 : PortfolioAsset :=
  {| id := "pa1"; portfolioId := "p1"; assetId := "a1"; stock := 10;
     costPrice := 8; closeValue := 15; lossGain := calcLossGain 8 15 10 |}.

Definition sample_db2 : Db :=
  with_portfolioAsset sample_db1 {["pa1"%string := sample_row2]}.

End PortfolioAssets.

(** ** Role-based access control middleware *)

Module RoleMiddleware.

(** [req.user]: the authenticated user, with the identifier and the
    role that this middleware reads.  An empty role is falsy. *)
Record AuthUser : Type := { id : string; role : string }.

Record Denial : Type := {
  status : Z;
  error : string;
  message : option string;
  requiredRoles : option (list string);
  userRole : option string;
}.

(** What the middleware does with a request: it calls [next()] or it
    answers. *)
Inductive Verdict : Type :=
| Next
| Deny (d : Denial).

(** [allowedRoles.includes(r)]. *)
Definition includes (allowedRoles : list string) (r : string) : bool :=
  existsb (String.eqb r) allowedRoles.

(** [allowedRoles.join(", ")]. *)
Fixpoint join (sep : string) (l : list string) : string :=
  match l with
  | [] => ""
  | [x] => x
  | x :: l' => (x ++ sep ++ join sep l')%string
  end.

(** [requireRole(allowedRoles)]. *)
Definition requireRole (allowedRoles : list string) (user : option AuthUser) : Verdict :=
  match user with
  | None =>
      Deny {| status := 401; error := "Authentication required";
              message := Some "Please login to access this resource"%string;
              requiredRoles := None; userRole := None |}
  | Some u =>
      let userRole := role u in
      if String.eqb userRole "" then
        Deny {| status := 403; error := "Access denied";
                message := Some "User role not found"%string;
                requiredRoles := None; userRole := None |}
      else if negb (includes allowedRoles userRole) then
        Deny {| status := 403; error := "Access denied";
                message :=
                  Some ("This action requires one of the following roles: "
                          ++ join ", " allowedRoles)%string;
                requiredRoles := Some allowedRoles;
                userRole := Some userRole |}
      else Next
  end.

Definition requireSuperAdmin : option AuthUser -> Verdict :=
  requireRole ["SUPER_ADMIN"%string].

Definition requireAdmin : option AuthUser -> Verdict :=
  requireRole ["SUPER_ADMIN"%string; "ADMIN"%string].

Definition requireManager : option AuthUser -> Verdict :=
  requireRole ["SUPER_ADMIN"%string; "ADMIN"%string; "MANAGER"%string].

(** [requireOwnerOrAdmin(getResourceOwnerId)], on the result of the
    owner lookup for the request: [None] when the lookup throws.  The
    lookup is only made for users that are not admins. *)
Definition requireOwnerOrAdmin (getResourceOwnerId : unit -> option string)
    (user : option AuthUser) : Verdict :=
  match user with
  | None =>
      Deny {| status := 401; error := "Authentication required";
              message := None; requiredRoles := None; userRole := None |}
  | Some u =>
      if includes ["SUPER_ADMIN"%string; "ADMIN"%string] (role u) then Next
      else
        match getResourceOwnerId tt with
        | Some ownerId =>
            if String.eqb (id u) ownerId then Next
            else
              Deny {| status := 403; error := "Access denied";
                      message := Some "You can only access your own resources"%string;
                      requiredRoles := None; userRole := None |}
        | None =>
            Deny {| status := 500; error := "Failed to verify resource ownership";
                    message := None; requiredRoles := None; userRole := None |}
        end
  end.

(** *** Sample data *)

Definition manager_user : AuthUser := {| id := "u7"; role := "MANAGER" |}.
Definition admin_user : AuthUser := {| id := "u2"; role := "ADMIN" |}.
Definition super_admin_user : AuthUser := {| id := "u1"; role := "SUPER_ADMIN" |}.
Definition plain_user : AuthUser := {| id := "u9"; role := "USER" |}.

End RoleMiddleware.

(** ** Reading one activity *)

Module ActivityDetail.

(** [req.user] of the activity controller. *)
Record AuthUser : Type := { userId : string; role : string }.

Inductive Response : Type :=
| Error (status : Z) (error : string)
| Found (activity : ActivityLogs.ActivityLog).

Definition is_staff (userRole : string) : bool :=
  RoleMiddleware.includes ["SUPER_ADMIN"%string; "ADMIN"%string; "MANAGER"%string] userRole.

(** [getActivityDetail]: [user] is [req.user], [id] the route
    parameter, [table] the activity log by identifier. *)
Definition getActivityDetail (user : option AuthUser) (id : string)
    (table : gmap string ActivityLogs.ActivityLog) : Response :=
  let userId := default ""%string (userId <$> user) in
  let userRole := role <$> user in
  if String.eqb userId "" then Error 401 "Unauthorized"
  else
    match table !! id with
    | None => Error 404 "Activity not found"
    | Some activity =>
        if negb (is_staff (default ""%string userRole))
           && negb (String.eqb (ActivityLogs.userId (ActivityLogs.data activity)) userId)
        then Error 403 "Access denied"
        else Found activity
    end.

(** *** Sample data *)

Definition login_of (user : string) : ActivityLogs.ActivityLog :=
  {| ActivityLogs.data :=
       {| ActivityLogs.userId := user; ActivityLogs.action := "LOGIN";
          ActivityLogs.module_ := "auth"; ActivityLogs.status := "SUCCESS";
          ActivityLogs.description := ""; ActivityLogs.method := "POST";
          ActivityLogs.platform := "web"; ActivityLogs.isAutomated := false |};
     ActivityLogs.createdAt := 0 |}.

Definition sample_table : gmap string ActivityLogs.ActivityLog :=
  {[ "a1"%string := login_of "u1"; "a2"%string := login_of "u2" ]}.

End ActivityDetail.

(** ** Slugs

    [generateSlug] on titles of ASCII characters, where a character of
    the string is a byte: there [toLowerCase] only changes [A-Z], and
    [\s] and [\w] are the ASCII classes. *)

Module Slug.

Definition code (c : ascii) : N := N_of_ascii c.

Definition is_upper (c : ascii) : bool := ((65 <=? code c) && (code c <=? 90))%N.
Definition is_lower (c : ascii) : bool := ((97 <=? code c) && (code c <=? 122))%N.
Definition is_digit (c : ascii) : bool := ((48 <=? code c) && (code c <=? 57))%N.

(** [\w]: a letter, a digit or the underscore. *)
Definition is_word (c : ascii) : bool :=
  is_upper c || is_lower c || is_digit c || (code c =? 95)%N.

Definition is_dash (c : ascii) : bool := (code c =? 45)%N.

Fixpoint string_forall (p : ascii -> bool) (s : string) : bool :=
  match s with
  | EmptyString => true
  | String c s' => p c && string_forall p s'
  end.

Definition is_ascii (s : string) : bool :=
  string_forall (fun c => (code c <? 128)%N) s.

(** [title.toLowerCase()]. *)
Definition toLowerCase_char (c : ascii) : ascii :=
  if is_upper c then ascii_of_N (code c + 32) else c.

Fixpoint toLowerCase (s : string) : string :=
  match s with
  | EmptyString => EmptyString
  | String c s' => String (toLowerCase_char c) (toLowerCase s')
  end.

(** [s.replace(/\s+/g, "-")]: every maximal run of white space becomes
    one dash; [in_run] tells that the previous character was white
    space. *)
Fixpoint replace_spaces (in_run : bool) (s : string) : string :=
  match s with
  | EmptyString => EmptyString
  | String c s' =>
      if Js.is_space c then
        if in_run then replace_spaces true s'
        else String "-" (replace_spaces true s')
      else String c (replace_spaces false s')
  end.

(** [s.replace(/[^\w\-]/g, "")]. *)
Fixpoint remove_special (s : string) : string :=
  match s with
  | EmptyString => EmptyString
  | String c s' =>
      if is_word c || is_dash c then String c (remove_special s')
      else remove_special s'
  end.

Definition generateSlug (title : string) : string :=
  let slug := replace_spaces false (toLowerCase title) in
  let cleanedSlug := remove_special slug in
  cleanedSlug.

(** The characters of a slug: lower-case letters, digits, the
    underscore and the dash. *)
Definition slug_char (c : ascii) : bool :=
  is_lower c || is_digit c || (code c =? 95)%N || is_dash c.

End Slug.

(** ** Portfolio assets: reading and deleting; the shape of the table *)

Module PortfolioAssetStore.

Import Js PortfolioAssets.

(** [getPortfolioAssetById]. *)
Definition getPortfolioAssetById (id_ : string) (db : Db) : Response :=
  match portfolioAsset db !! id_ with
  | Some row => Row 200 row
  | None => Status 404
  end.

(** [deletePortfolioAsset]: deleting a row that does not exist raises
    P2025, which the handler answers with 404. *)
Definition deletePortfolioAsset (id_ : string) (db : Db) : Response * Db :=
  match portfolioAsset db !! id_ with
  | Some _ => (Status 204, with_portfolioAsset db (delete id_ (portfolioAsset db)))
  | None => (Status 404, db)
  end.

(** The rows are stored under their identifier. *)
Definition keyed (db : Db) : Prop :=
  forall k row, portfolioAsset db !! k = Some row -> id row = k.

(** [@@unique([portfolioId, assetId])]: no two rows hold the same asset
    in the same portfolio. *)
Definition unique_pairs (db : Db) : Prop :=
  forall k1 k2 r1 r2,
    portfolioAsset db !! k1 = Some r1 -> portfolioAsset db !! k2 = Some r2 ->
    portfolioId r1 = portfolioId r2 -> assetId r1 = assetId r2 -> k1 = k2.

(** Every row belongs to a portfolio and to an asset that exist. *)
Definition references_exist (db : Db) : Prop :=
  forall k row, portfolioAsset db !! k = Some row ->
    portfolioId row ∈ portfolio db /\ is_Some (asset db !! assetId row).

(** Every row carries the loss or gain of its own figures. *)
Definition lossGain_consistent (db : Db) : Prop :=
  forall k row, portfolioAsset db !! k = Some row ->
    lossGain row = calcLossGain (costPrice row) (closeValue row) (stock row).

Definition well_formed (db : Db) : Prop :=
  keyed db /\ unique_pairs db /\ references_exist db /\ lossGain_consistent db.

(** A field of an update that leaves the stored figure as it is: the
    field is absent, or [Number] of it is not finite. *)
Definition keeps_current (StringToNumber : string -> number) (v : value) : Prop :=
  is_undefined v = true \/ is_finite (Number StringToNumber v) = false.

Definition sample_body_text : UpdateBody :=
  {| u_stock := VString "ten"; u_costPrice := VUndefined;
     u_closeValue := VNumber NaN |}.

End PortfolioAssetStore.

(** ** Assets

    The handlers of [/assets].  A request body is typed as the
    controller reads it: the three texts are strings or absent, the
    three figures are any JSON value.  [createdAt] and [updatedAt],
    which only the ordering of the list reads, are left out of a row. *)

Module Assets.

Import Js.

Record Asset : Type := {
  id : string;
  symbol : string;
  description : string;
  sector : string;
  allocationPercentage : number;
  costPerShare : number;
  closePrice : number;
}.

Record Db : Type := {
  asset : gmap string Asset;
  portfolioAsset : gmap string PortfolioAssets.PortfolioAsset;
}.

Definition with_asset (db : Db) (t : gmap string Asset) : Db :=
  {| asset := t; portfolioAsset := portfolioAsset db |}.

Record Body : Type := {
  b_symbol : option string;
  b_description : option string;
  b_sector : option string;
  b_allocationPercentage : PortfolioAssets.value;
  b_costPerShare : PortfolioAssets.value;
  b_closePrice : PortfolioAssets.value;
}.

Inductive Response : Type :=
| Status (code : Z)
| Data (code : Z) (data : Asset).

(** [clamp(n, min, max)]. *)
Definition clamp (n min max : number) : number :=
  Js.min max (Js.max min n).

(** [!s] for a string that may be absent. *)
Definition falsy (s : option string) : bool := negb (PortfolioAssets.nonempty s).

(** [db.asset.findUnique({ where: { symbol } })]. *)
Definition findUnique_symbol (db : Db) (sym : string) : option Asset :=
  (fun found => found.2.2) <$>
    list_find (fun kv => symbol kv.2 = sym) (map_to_list (asset db)).

(** The unique index on [symbol]: a row other than [self] holds [sym]. *)
Definition symbol_taken (db : Db) (self : option string) (sym : string) : bool :=
  bool_decide (map_Exists (fun k a => symbol a = sym /\ self <> Some k) (asset db)).

(** [db.portfolioAsset.count({ where: { assetId: id } })]. *)
Definition inUse (db : Db) (id_ : string) : nat :=
  size (filter (fun kv => PortfolioAssets.assetId kv.2 = id_) (portfolioAsset db)).

Section Handlers.

(** [String.prototype.trim], [String.prototype.toUpperCase] and
    [parseFloat]. *)
Variables (trim toUpperCase : string -> string) (parseFloat : string -> number).

(** [normalizeSymbol(sym)]: [sym?.trim().toUpperCase()]. *)
Definition normalizeSymbol (sym : option string) : option string :=
  match sym with
  | Some s => Some (toUpperCase (trim s))
  | None => None
  end.

(** [num(v, def)]. *)
Definition num (v : PortfolioAssets.value) (def : number) : number :=
  let n :=
    match v with
    | PortfolioAssets.VString s => parseFloat s
    | _ => PortfolioAssets.Number (fun _ => NaN) v
    end in
  if is_finite n then n else def.

(** [getAssetBySymbol]. *)
Definition getAssetBySymbol (param : string) (db : Db) : Response :=
  let symbol := normalizeSymbol (Some param) in
  if falsy symbol then Status 400
  else
    match findUnique_symbol db (default ""%string symbol) with
    | None => Status 404
    | Some asset => Data 200 asset
    end.

(** [getAssetById]. *)
Definition getAssetById (id_ : string) (db : Db) : Response :=
  match asset db !! id_ with
  | None => Status 404
  | Some asset => Data 200 asset
  end.

(** [createAsset]; [newId] is the identifier the database gives the
    new row.  A symbol that a row holds already raises P2002. *)
Definition createAsset (newId : string) (body : Body) (db : Db) : Response * Db :=
  let sym := normalizeSymbol (Some (default ""%string (b_symbol body))) in
  if falsy sym || falsy (b_description body) || falsy (b_sector body) then
    (Status 400, db)
  else
    let alloc := clamp (num (b_allocationPercentage body) (of_Z 0)) (of_Z 0) (of_Z 100) in
    let cps := Js.max (of_Z 0) (num (b_costPerShare body) (of_Z 0)) in
    let close := Js.max (of_Z 0) (num (b_closePrice body) (of_Z 0)) in
    if symbol_taken db None (default ""%string sym) then (Status 409, db)
    else
      let created := {| id := newId; symbol := default ""%string sym;
                        description := default ""%string (b_description body);
                        sector := default ""%string (b_sector body);
                        allocationPercentage := alloc;
                        costPerShare := cps; closePrice := close |} in
      (Data 201 created, with_asset db (<[newId := created]> (asset db))).

(** The [data] of [updateAsset]: the fields that the body gives, or
    the status of the first field that is refused. *)
Definition update_text (given : option string) (value : option string)
    (current : string) : Z + string :=
  match given with
  | None => inr current
  | Some _ => if falsy value then inl 400 else inr (default ""%string value)
  end.

Definition update_figure (given : PortfolioAssets.value) (value : number)
    (current : number) : number :=
  if PortfolioAssets.is_undefined given then current else value.

(** [updateAsset].  The unique index on [symbol] refuses a symbol of
    the body that another row holds (P2002). *)
Definition updateAsset (id_ : string) (body : Body) (db : Db) : Response * Db :=
  match asset db !! id_ with
  | None => (Status 404, db)
  | Some exists_ =>
      match update_text (b_symbol body) (normalizeSymbol (b_symbol body))
                        (symbol exists_) with
      | inl code => (Status code, db)
      | inr symbol_ =>
      match update_text (b_description body) (b_description body)
                        (description exists_) with
      | inl code => (Status code, db)
      | inr description_ =>
      match update_text (b_sector body) (b_sector body) (sector exists_) with
      | inl code => (Status code, db)
      | inr sector_ =>
          let alloc :=
            update_figure (b_allocationPercentage body)
              (clamp (num (b_allocationPercentage body) (of_Z 0)) (of_Z 0) (of_Z 100))
              (allocationPercentage exists_) in
          let cps :=
            update_figure (b_costPerShare body)
              (Js.max (of_Z 0) (num (b_costPerShare body) (of_Z 0)))
              (costPerShare exists_) in
          let close :=
            update_figure (b_closePrice body)
              (Js.max (of_Z 0) (num (b_closePrice body) (of_Z 0)))
              (closePrice exists_) in
          let clash :=
            match b_symbol body with
            | Some _ => symbol_taken db (Some id_) symbol_
            | None => false
            end in
          if clash then (Status 409, db)
          else
            let updated := {| id := id exists_; symbol := symbol_;
                              description := description_; sector := sector_;
                              allocationPercentage := alloc;
                              costPerShare := cps; closePrice := close |} in
            (Data 200 updated, with_asset db (<[id_ := updated]> (asset db)))
      end end end
  end.

End Handlers.

(** [deleteAsset]: deleting a row that does not exist raises P2025,
    which this handler answers with 500. *)
Definition deleteAsset (id_ : string) (db : Db) : Response * Db :=
  if (0 <? inUse db id_)%nat then (Status 409, db)
  else
    match asset db !! id_ with
    | None => (Status 500, db)
    | Some _ => (Status 200, with_asset db (delete id_ (asset db)))
    end.

(** *** Vocabulary of the properties and sample data *)

(** A finite number within [lo, hi]. *)
Definition between (lo hi : Q) (n : number) : Prop :=
  exists q : Q, n = Num q /\ (lo <= q <= hi)%Q.

Definition at_least (lo : Q) (n : number) : Prop :=
  exists q : Q, n = Num q /\ (lo <= q)%Q.

(** A row as the handlers write it. *)
Definition valid (a : Asset) : Prop :=
  symbol a <> ""%string /\ description a <> ""%string /\ sector a <> ""%string /\
  between 0 100 (allocationPercentage a) /\
  at_least 0 (costPerShare a) /\ at_least 0 (closePrice a).

Definition well_formed (db : Db) : Prop :=
  (forall k a, asset db !! k = Some a -> id a = k /\ valid a) /\
  (forall k1 k2 a1 a2, asset db !! k1 = Some a1 -> asset db !! k2 = Some a2 ->
     symbol a1 = symbol a2 -> k1 = k2).

(** Every portfolio asset is a row of an asset that exists. *)
Definition no_dangling (db : Db) : Prop :=
  forall k row, portfolioAsset db !! k = Some row ->
    is_Some (asset db !! PortfolioAssets.assetId row).

(** [trim] and [toUpperCase] on ASCII strings. *)
Fixpoint trim_start (s : string) : string :=
  match s with
  | String c s' => if is_space c then trim_start s' else s
  | EmptyString => EmptyString
  end.

Fixpoint trim_end (s : string) : string :=
  match s with
  | String c s' =>
      match trim_end s' with
      | EmptyString => if is_space c then EmptyString else String c EmptyString
      | rest => String c rest
      end
  | EmptyString => EmptyString
  end.

Definition trim_ascii (s : string) : string := trim_end (trim_start s).

Definition toUpperCase_char (c : ascii) : ascii :=
  if Slug.is_lower c then ascii_of_N (Slug.code c - 32) else c.

Fixpoint toUpperCase_ascii (s : string) : string :=
  match s with
  | EmptyString => EmptyString
  | String c s' => String (toUpperCase_char c) (toUpperCase_ascii s')
  end.

Definition sample_body : Body :=
  {| b_symbol := Some " aapl "%string; b_description := Some "Apple"%string;
     b_sector := Some "Technology"%string;
     b_allocationPercentage := PortfolioAssets.VNumber (Num 250);
     b_costPerShare := PortfolioAssets.VNumber (Num (25 # 2));
     b_closePrice := PortfolioAssets.VNumber (Num (-3)) |}.

Definition sample_asset : Asset :=
  {| id := "a1"; symbol := "AAPL"; description := "Apple"; sector := "Technology";
     allocationPercentage := Num 100; costPerShare := Num (25 # 2);
     closePrice := Num 0 |}.

Definition empty_db : Db := {| asset := ∅; portfolioAsset := ∅ |}.

Definition sample_db : Db := with_asset empty_db {["a1"%string := sample_asset]}.

(** The asset [a1] held by a portfolio. *)
Definition sample_db_held : Db :=
  {| asset := {["a1"%string := sample_asset]};
     portfolioAsset := {["pa1"%string := PortfolioAssets.sample_row]} |}.

End Assets.

(** ** Portfolios

    The handlers of [/portfolios].  The texts of a request body are
    strings or absent; [description] may also be [null]. *)

Module Portfolios.

Import Js.

Record Portfolio : Type := {
  id : string;
  name : string;
  description : option string;
  timeHorizon : string;
  riskTolerance : string;
  allocationPercentage : number;
}.

(** Modelled from the spec: a membership row of the Prisma model
    [UserPortfolio], of which the handlers read [portfolioId] only. *)
Record UserPortfolio : Type := {
  up_userId : string;
  up_portfolioId : string;
}.

Record Db : Type := {
  portfolio : gmap string Portfolio;
  portfolioAsset : gmap string PortfolioAssets.PortfolioAsset;
  userPortfolio : gmap string UserPortfolio;
}.

Definition with_portfolio (db : Db) (t : gmap string Portfolio) : Db :=
  {| portfolio := t; portfolioAsset := portfolioAsset db;
     userPortfolio := userPortfolio db |}.

Record Body : Type := {
  b_name : option string;
  (** [None] is [undefined], [Some None] is [null] *)
  b_description : option (option string);
  b_timeHorizon : option string;
  b_riskTolerance : option string;
  b_allocationPercentage : PortfolioAssets.value;
}.

Inductive Response : Type :=
| Status (code : Z)
| Data (code : Z) (data : Portfolio).

(** [clamp(n, min, max)]. *)
Definition clamp (n min max : number) : number :=
  Js.min (Js.max n min) max.

(** [!s] for a string that may be absent. *)
Definition falsy (s : option string) : bool := negb (PortfolioAssets.nonempty s).

(** A row other than [self] has the name. *)
Definition name_taken (db : Db) (self : option string) (n : string) : bool :=
  bool_decide (map_Exists (fun k p => name p = n /\ self <> Some k) (portfolio db)).

Section Handlers.

(** [parseFloat]. *)
Variable parseFloat : string -> number.

(** [toNumber(v, fallback)]. *)
Definition toNumber (v : PortfolioAssets.value) (fallback : number) : number :=
  let n :=
    match v with
    | PortfolioAssets.VString s => parseFloat s
    | PortfolioAssets.VNumber n => n
    | _ => NaN
    end in
  if is_finite n then n else fallback.

(** [createPortfolio]; [newId] is the identifier the database gives
    the new row. *)
Definition createPortfolio (newId : string) (body : Body) (db : Db) : Response * Db :=
  if falsy (b_name body) || falsy (b_timeHorizon body) || falsy (b_riskTolerance body)
  then (Status 400, db)
  else
    let name_ := default ""%string (b_name body) in
    if name_taken db None name_ then (Status 409, db)
    else
      let alloc := clamp (toNumber (b_allocationPercentage body) (of_Z 100))
                         (of_Z 0) (of_Z 100) in
      let created := {| id := newId; name := name_;
                        description := default None (b_description body);
                        timeHorizon := default ""%string (b_timeHorizon body);
                        riskTolerance := default ""%string (b_riskTolerance body);
                        allocationPercentage := alloc |} in
      (Data 201 created, with_portfolio db (<[newId := created]> (portfolio db))).

(** [getPortfolioById], without the relations that [include] adds. *)
Definition getPortfolioById (id_ : string) (db : Db) : Response :=
  if String.eqb id_ "" then Status 400
  else
    match portfolio db !! id_ with
    | None => Status 404
    | Some item => Data 200 item
    end.

(** [updatePortfolio].  The name is looked up beforehand only if it is
    truthy; the unique index on [name] refuses any other clash with
    P2002, and a row that does not exist raises P2025. *)
Definition updatePortfolio (id_ : string) (body : Body) (db : Db) : Response * Db :=
  if String.eqb id_ "" then (Status 400, db)
  else if negb (falsy (b_name body)) &&
          name_taken db (Some id_) (default ""%string (b_name body))
  then (Status 409, db)
  else
    match portfolio db !! id_ with
    | None => (Status 404, db)
    | Some current =>
        let data :=
          {| id := id current;
             name := default (name current) (b_name body);
             description := default (description current) (b_description body);
             timeHorizon := default (timeHorizon current) (b_timeHorizon body);
             riskTolerance := default (riskTolerance current) (b_riskTolerance body);
             allocationPercentage :=
               if PortfolioAssets.is_undefined (b_allocationPercentage body)
               then allocationPercentage current
               else clamp (toNumber (b_allocationPercentage body) (of_Z 100))
                          (of_Z 0) (of_Z 100) |} in
        let clash :=
          match b_name body with
          | Some n => name_taken db (Some id_) n
          | None => false
          end in
        if clash then (Status 409, db)
        else (Data 200 data, with_portfolio db (<[id_ := data]> (portfolio db)))
    end.

End Handlers.

(** [deletePortfolio]: the three deletions are one transaction, so a
    portfolio that does not exist (P2025) leaves every table as it
    was. *)
Definition deletePortfolio (id_ : string) (db : Db) : Response * Db :=
  if String.eqb id_ "" then (Status 400, db)
  else
    match portfolio db !! id_ with
    | None => (Status 404, db)
    | Some _ =>
        (Status 200,
         {| portfolio := delete id_ (portfolio db);
            portfolioAsset :=
              filter (fun kv => PortfolioAssets.portfolioId kv.2 <> id_)
                     (portfolioAsset db);
            userPortfolio :=
              filter (fun kv => up_portfolioId kv.2 <> id_) (userPortfolio db) |})
    end.

(** *** Vocabulary of the properties and sample data *)

Definition between (lo hi : Q) (n : number) : Prop :=
  exists q : Q, n = Num q /\ (lo <= q <= hi)%Q.

Definition well_formed (db : Db) : Prop :=
  (forall k p, portfolio db !! k = Some p ->
     id p = k /\ between 0 100 (allocationPercentage p)) /\
  (forall k1 k2 p1 p2, portfolio db !! k1 = Some p1 -> portfolio db !! k2 = Some p2 ->
     name p1 = name p2 -> k1 = k2).

(** Every portfolio asset and every membership belongs to a portfolio
    that exists. *)
Definition no_dangling (db : Db) : Prop :=
  (forall k row, portfolioAsset db !! k = Some row ->
     is_Some (portfolio db !! PortfolioAssets.portfolioId row)) /\
  (forall k row, userPortfolio db !! k = Some row ->
     is_Some (portfolio db !! up_portfolioId row)).

Definition sample_portfolio : Portfolio :=
  {| id := "p1"; name := "Growth"; description := None; timeHorizon := "5y";
     riskTolerance := "high"; allocationPercentage := Num 100 |}.

Definition sample_body : Body :=
  {| b_name := Some "Growth"%string; b_description := None;
     b_timeHorizon := Some "5y"%string; b_riskTolerance := Some "high"%string;
     b_allocationPercentage := PortfolioAssets.VUndefined |}.

(** A body that gives the empty name and nothing else. *)
Definition sample_rename : Body :=
  {| b_name := Some ""%string; b_description := None; b_timeHorizon := None;
     b_riskTolerance := None; b_allocationPercentage := PortfolioAssets.VUndefined |}.

Definition empty_db : Db :=
  {| portfolio := ∅; portfolioAsset := ∅; userPortfolio := ∅ |}.

(** The portfolio [p1] with one asset and one member. *)
Definition sample_db : Db :=
  {| portfolio := {["p1"%string := sample_portfolio]};
     portfolioAsset := {["pa1"%string := PortfolioAssets.sample_row]};
     userPortfolio := {["up1"%string :=
                          {| up_userId := "u1"; up_portfolioId := "p1" |}]} |}.

End Portfolios.

(** ** Totals over the trend buckets *)

Module TrendTotals.

Import Trends.

(** The sum of a count, and of an amount, over all buckets. *)
Definition count_sum (f : Trend -> nat) (m : gmap string Trend) : nat :=
  map_fold (fun _ t acc => (acc + f t)%nat) 0%nat m.

Definition amount_sum (g : Trend -> Q) (m : gmap string Trend) : Q :=
  map_fold (fun _ t acc => (acc + g t)%Q) 0%Q m.

(** The buckets as the loops keep them: a bucket is stored under its
    date and has counted at least one record. *)
Definition trend_buckets (m : gmap string Trend) : Prop :=
  forall k t, m !! k = Some t ->
    date t = k /\ (0 < depositCount t + withdrawalCount t)%nat.

(** Two deposits and a withdrawal of one evening, and a deposit of the
    next day. *)
Definition sample_deposits : list Reports.Transaction :=
  [deposit_at 100 tuesday_evening; deposit_at 50 tuesday_evening;
   deposit_at 7 (tuesday_evening + JsDate.msPerDay)].

Definition sample_withdrawals : list Reports.Transaction :=
  [deposit_at 30 tuesday_evening].

End TrendTotals.

(** ** Portfolio performance report *)

Module PerformanceReport.

Import JsArray.

(** A portfolio as [findMany] returns it with its relations, and an
    asset with the portfolio assets that hold it. *)
Record UserPortfolioRow : Type := { portfolioValue : Q }.

Record PortfolioRow : Type := {
  p_id : string;
  p_name : string;
  p_description : option string;
  p_riskTolerance : string;
  p_timeHorizon : string;
  p_assets : list PortfolioAssets.PortfolioAsset;
  p_userPortfolios : list UserPortfolioRow;
}.

Record AssetRow : Type := {
  a_id : string;
  a_symbol : string;
  a_description : string;
  a_sector : string;
  a_costPerShare : Q;
  a_closePrice : Q;
  a_portfolios : list PortfolioAssets.PortfolioAsset;
}.

Record PortfolioMetric : Type := {
  id : string;
  name : string;
  description : option string;
  riskTolerance : string;
  timeHorizon : string;
  assetCount : nat;
  userCount : nat;
  totalCostPrice : Q;
  totalCloseValue : Q;
  totalLossGain : Q;
  performancePercentage : Q;
  totalUserPortfolioValue : Q;
}.

Record AssetPerformance : Type := {
  ap_id : string;
  symbol : string;
  ap_description : string;
  sector : string;
  costPerShare : Q;
  closePrice : Q;
  priceChange : Q;
  percentageChange : Q;
  portfolioCount : nat;
}.

(** [x > 0]. *)
Definition positive (x : Q) : bool := negb (Qle_bool x 0).

(** The callback of [portfolios.map]. *)
Definition portfolio_metric (portfolio : PortfolioRow) : PortfolioMetric :=
  let totalCostPrice := sum_by PortfolioAssets.costPrice (p_assets portfolio) in
  let totalCloseValue := sum_by PortfolioAssets.closeValue (p_assets portfolio) in
  let totalLossGain := sum_by PortfolioAssets.lossGain (p_assets portfolio) in
  let userCount := length (p_userPortfolios portfolio) in
  let totalUserPortfolioValue := sum_by portfolioValue (p_userPortfolios portfolio) in
  {| id := p_id portfolio;
     name := p_name portfolio;
     description := p_description portfolio;
     riskTolerance := p_riskTolerance portfolio;
     timeHorizon := p_timeHorizon portfolio;
     assetCount := length (p_assets portfolio);
     userCount := userCount;
     totalCostPrice := totalCostPrice;
     totalCloseValue := totalCloseValue;
     totalLossGain := totalLossGain;
     performancePercentage :=
       if positive totalCostPrice
       then ((totalCloseValue - totalCostPrice) / totalCostPrice * 100)%Q
       else 0%Q;
     totalUserPortfolioValue := totalUserPortfolioValue |}.

(** The callback of [assets.map]. *)
Definition asset_performance (asset : AssetRow) : AssetPerformance :=
  let priceChange := (a_closePrice asset - a_costPerShare asset)%Q in
  let percentageChange :=
    if positive (a_costPerShare asset)
    then (priceChange / a_costPerShare asset * 100)%Q
    else 0%Q in
  {| ap_id := a_id asset;
     symbol := a_symbol asset;
     ap_description := a_description asset;
     sector := a_sector asset;
     costPerShare := a_costPerShare asset;
     closePrice := a_closePrice asset;
     priceChange := priceChange;
     percentageChange := percentageChange;
     portfolioCount := length (a_portfolios asset) |}.

(** The comparator [(a, b) => metric(a) - metric(b)]. *)
Definition asc {A : Type} (metric : A -> Q) (a b : A) : Q :=
  (metric a - metric b)%Q.

Record Summary : Type := {
  totalPortfolios : nat;
  totalAssets : nat;
  totalUsersWithPortfolios : nat;
  overallLossGain : Q;
  totalPortfolioValue : Q;
  bestPerformingPortfolio : option PortfolioMetric;
  worstPerformingPortfolio : option PortfolioMetric;
  bestPerformingAsset : option AssetPerformance;
  worstPerformingAsset : option AssetPerformance;
}.

Record Report : Type := {
  summary : Summary;
  portfolioMetrics : list PortfolioMetric;
  assetPerformance : list AssetPerformance;
  (** [{count, totalValue}] for each sector *)
  sectorBreakdown : gmap string Reports.Bucket;
}.

(** [asset.sector || "Other"]. *)
Definition sector_key (asset : AssetRow) : string :=
  if String.eqb (a_sector asset) "" then "Other"%string else a_sector asset.

(** The [data] of [getPortfolioPerformanceReport].  [sort] sorts the
    array in place and returns it: [portfolioMetrics1] and
    [portfolioMetrics2] are the one array [portfolioMetrics] after the
    first and the second sort of the summary, and the response holds the
    array as the last sort left it. *)
Definition getPortfolioPerformanceReport (portfolios : list PortfolioRow)
    (assets : list AssetRow) : Report :=
  let portfolioMetrics := map portfolio_metric portfolios in
  let assetPerformance := map asset_performance assets in
  let totalUsersWithPortfolios :=
    fold_left (fun sum p => (sum + userCount p)%nat) portfolioMetrics 0%nat in
  let overallLossGain := sum_by totalLossGain portfolioMetrics in
  let totalPortfolioValue := sum_by totalUserPortfolioValue portfolioMetrics in
  let portfolioMetrics1 := sort (desc performancePercentage) portfolioMetrics in
  let bestPerformingPortfolio := head portfolioMetrics1 in
  let portfolioMetrics2 := sort (asc performancePercentage) portfolioMetrics1 in
  let worstPerformingPortfolio := head portfolioMetrics2 in
  let assetPerformance1 := sort (desc percentageChange) assetPerformance in
  let bestPerformingAsset := head assetPerformance1 in
  let assetPerformance2 := sort (asc percentageChange) assetPerformance1 in
  let worstPerformingAsset := head assetPerformance2 in
  {| summary :=
       {| totalPortfolios := length portfolios;
          totalAssets := length assets;
          totalUsersWithPortfolios := totalUsersWithPortfolios;
          overallLossGain := overallLossGain;
          totalPortfolioValue := totalPortfolioValue;
          bestPerformingPortfolio := bestPerformingPortfolio;
          worstPerformingPortfolio := worstPerformingPortfolio;
          bestPerformingAsset := bestPerformingAsset;
          worstPerformingAsset := worstPerformingAsset |};
     portfolioMetrics := portfolioMetrics2;
     assetPerformance := assetPerformance2;
     sectorBreakdown :=
       fold_left (fun acc asset =>
                    Reports.add_to_object 0%Q Qplus (sector_key asset)
                                          (a_closePrice asset) acc)
                 assets ∅ |}.

(** *** Vocabulary of the properties *)

(** Ascending order of the metric. *)
Definition ascending {A : Type} (metric : A -> Q) (l : list A) : Prop :=
  StronglySorted (fun a b => (metric a <= metric b)%Q) l.

(** [out], [best] and [worst] rank the records of [input]: [out] lists
    them from the lowest metric to the highest with [worst] at its
    head, and no record has a higher metric than [best]; both are
    absent only if there is no record. *)
Definition ranked {A : Type} (metric : A -> Q) (input out : list A)
    (best worst : option A) : Prop :=
  out ≡ₚ input /\ ascending metric out /\ worst = head out /\
  match best with
  | Some b => b ∈ input /\ forall x, x ∈ input -> (metric x <= metric b)%Q
  | None => input = []
  end /\
  match worst with
  | Some w => w ∈ input /\ forall x, x ∈ input -> (metric w <= metric x)%Q
  | None => input = []
  end.

End PerformanceReport.

(** ** The asset list *)

Module AssetList.

Import Js Pagination.









Section List.

(** The rows that match the two search texts, in the order of the sort
    field and direction: what [findMany] returns without [skip] and
    [take], and what [count] counts. *)
Context {Row : Type} (matching : string -> string -> string -> string -> list Row).


End List.



End AssetList.

(** ** Users: sign-up, login and deactivation *)

Module Users.

Record User : Type := {
  id : string;
  email : string;
  phone : string;
  firstName : string;
  lastName : string;
  name : string;
  imageUrl : string;
  (** [null] for an account without a password *)
  password : option string;
  role : string;
  isActive : bool;
  emailVerified : bool;
  isApproved : bool;
}.

Record RefreshToken : Type := {
  token : string;
  rt_userId : string;
  expiresAt : Z;
}.

(** The tables; the users are in the order in which [findFirst]
    searches them. *)
Record Db : Type := {
  user : list User;
  refreshToken : list RefreshToken;
}.

Record TokenPayload : Type := {
  tp_userId : string;
  tp_phone : string;
  tp_email : string;
  tp_role : string;
}.

Record CreateBody : Type := {
  b_email : option string;
  b_imageUrl : option string;
  b_phone : option string;
  b_password : option string;
  b_firstName : option string;
  b_lastName : option string;
  b_role : option string;
  b_isActive : option bool;
}.

(** A response: a status with an error, the created user, or the user
    with the two tokens.  The user of a response is [safe]: the row
    without its password. *)
Inductive Response : Type :=
| Status (code : Z)
| Created (data : User)
| LoggedIn (data : User) (accessToken refreshToken : string).

Definition safe (u : User) : User :=
  {| id := id u; email := email u; phone := phone u; firstName := firstName u;
     lastName := lastName u; name := name u; imageUrl := imageUrl u;
     password := None; role := role u; isActive := isActive u;
     emailVerified := emailVerified u; isApproved := isApproved u |}.

Definition DEFAULT_AVATAR : string :=
  "https://y2fxfl5cnq.ufs.sh/f/NMmMr48gm28W8uLodAOyiZJafIVQ6TpdgKRrwk39xvLPlh1b".

(** [!s] for a string that may be absent. *)
Definition falsy (s : option string) : bool := negb (PortfolioAssets.nonempty s).

Definition with_isActive (u : User) (b : bool) : User :=
  {| id := id u; email := email u; phone := phone u; firstName := firstName u;
     lastName := lastName u; name := name u; imageUrl := imageUrl u;
     password := password u; role := role u; isActive := b;
     emailVerified := emailVerified u; isApproved := isApproved u |}.

Section Handlers.

(** [String.prototype.trim] and [toLowerCase], [bcrypt.hash(p, 12)]
    and [bcrypt.compare], the membership in the enumeration [UserRole],
    and the two token generators. *)
Variables (trim toLowerCase : string -> string).
Variables (hash : string -> string) (compare : string -> string -> bool).
Variable isValidRole : string -> bool.
Variables (generateAccessToken generateRefreshToken : TokenPayload -> string).

(** [createUser]; [newId] is the identifier the database gives the
    new row. *)
Definition createUser (newId : string) (body : CreateBody) (db : Db) : Response * Db :=
  if falsy (b_email body) || falsy (b_phone body) || falsy (b_password body)
     || falsy (b_firstName body) || falsy (b_lastName body)
  then (Status 400, db)
  else
    let emailNorm := toLowerCase (trim (default ""%string (b_email body))) in
    let phoneNorm := trim (default ""%string (b_phone body)) in
    let existingUser :=
      List.find (fun u => String.eqb (email u) emailNorm || String.eqb (phone u) phoneNorm)
                (user db) in
    match existingUser with
    | Some _ => (Status 409, db)
    | None =>
        let roleValue :=
          match b_role body with
          | Some r => if isValidRole r then r else "USER"%string
          | None => "USER"%string
          end in
        let hashedPassword := hash (default ""%string (b_password body)) in
        let firstName_ := default ""%string (b_firstName body) in
        let lastName_ := default ""%string (b_lastName body) in
        let newUser :=
          {| id := newId; email := emailNorm; phone := phoneNorm;
             firstName := firstName_; lastName := lastName_;
             name := trim (firstName_ ++ " " ++ lastName_);
             imageUrl := default DEFAULT_AVATAR (b_imageUrl body);
             password := Some hashedPassword;
             role := roleValue;
             isActive := default false (b_isActive body);
             emailVerified := false; isApproved := false |} in
        (Created (safe newUser),
         {| user := user db ++ [newUser]; refreshToken := refreshToken db |})
    end.

(** [loginUser]; [now] is [Date.now()]. *)
Definition loginUser (identifier password_ : option string) (now : Z) (db : Db)
  : Response * Db :=
  if falsy identifier || falsy password_ then (Status 400, db)
  else
    let identifier_ := default ""%string identifier in
    let idNorm := toLowerCase (trim identifier_) in
    let found :=
      List.find (fun u => String.eqb (email u) idNorm
                          || String.eqb (phone u) (trim identifier_))
                (user db) in
    match found with
    | None => (Status 401, db)
    | Some user_ =>
        if negb (isActive user_) then (Status 403, db)
        else if falsy (password user_) then (Status 401, db)
        else if negb (compare (default ""%string password_)
                              (default ""%string (password user_)))
        then (Status 401, db)
        else
          let payload := {| tp_userId := id user_; tp_phone := phone user_;
                            tp_email := email user_; tp_role := role user_ |} in
          let accessToken := generateAccessToken payload in
          let refreshToken_ := generateRefreshToken payload in
          (LoggedIn (safe user_) accessToken refreshToken_,
           {| user := user db;
              refreshToken :=
                refreshToken db ++
                [{| token := refreshToken_; rt_userId := id user_;
                    expiresAt := now + 30 * 24 * 60 * 60 * 1000 |}] |})
    end.

End Handlers.

(** [deleteUser]: the user is not removed but deactivated. *)
Definition deleteUser (id_ : string) (db : Db) : Response * Db :=
  match List.find (fun u => String.eqb (id u) id_) (user db) with
  | None => (Status 404, db)
  | Some _ =>
      (Status 200,
       {| user := map (fun u => if String.eqb (id u) id_ then with_isActive u false
                                else u) (user db);
          refreshToken := refreshToken db |})
  end.

(** [getUserById], with the selected fields as the row without its
    password. *)
Definition getUserById (id_ : string) (db : Db) : Response :=
  match List.find (fun u => String.eqb (id u) id_) (user db) with
  | None => Status 404
  | Some u => Created (safe u)
  end.

(** *** Sample data *)

Definition sample_body : CreateBody :=
  {| b_email := Some " Ann@Example.com "%string; b_imageUrl := None;
     b_phone := Some "0700"%string; b_password := Some "secret"%string;
     b_firstName := Some "Ann"%string; b_lastName := Some "Lee"%string;
     b_role := Some "ROOT"%string; b_isActive := None |}.

Definition sample_admin_body : CreateBody :=
  {| b_email := Some "bob@example.com"%string; b_imageUrl := None;
     b_phone := Some "0701"%string; b_password := Some "hunter2"%string;
     b_firstName := Some "Bob"%string; b_lastName := Some "Ray"%string;
     b_role := Some "ADMIN"%string; b_isActive := Some false |}.

Definition sample_user : User :=
  {| id := "u1"; email := "ann@example.com"; phone := "0700";
     firstName := "Ann"; lastName := "Lee"; name := "Ann Lee";
     imageUrl := DEFAULT_AVATAR; password := Some "hash:secret"%string;
     role := "ADMIN"; isActive := true; emailVerified := false;
     isApproved := false |}.

Definition sample_db : Db := {| user := [sample_user]; refreshToken := [] |}.

(** A hash that prefixes the password, and its comparison. *)
Definition sample_hash (p : string) : string := ("hash:" ++ p)%string.
Definition sample_compare (p h : string) : bool := String.eqb (sample_hash p) h.
Definition sample_token (prefix : string) (p : TokenPayload) : string :=
  (prefix ++ tp_userId p)%string.

End Users.

(** ** Key insights of the comprehensive report *)

Module Insights.

Import Js.


(** [a > b]. *)
Definition gt (a b : Q) : bool := negb (Qle_bool a b).



Section Insights.

(** [formatCurrency], the [Intl.NumberFormat] of the amount. *)
Variable formatCurrency : Q -> string.


End Insights.

(** *** Sample data *)



End Insights.

(** * Properties *)

(** ** Numbers and [parseInt] *)

Import Js.

Lemma Qle_bool_inject_Z (a b : Z) :
  Qle_bool (inject_Z a) (inject_Z b) = (a <=? b).
Proof. unfold Qle_bool, inject_Z; simpl. by rewrite !Z.mul_1_r. Qed.

Lemma Qeq_bool_inject_Z (a b : Z) :
  Qeq_bool (inject_Z a) (inject_Z b) = (a =? b).
Proof.
  apply Bool.eq_iff_eq_true. rewrite Qeq_bool_iff, Z.eqb_eq.
  unfold Qeq; simpl. lia.
Qed.

Lemma lt_of_Z (a b : Z) : lt (of_Z a) (of_Z b) = (a <? b).
Proof.
  unfold lt, of_Z. rewrite Qle_bool_inject_Z.
  destruct (Z.leb_spec b a), (Z.ltb_spec a b); simpl; auto; lia.
Qed.


Lemma min_of_Z (a b : Z) : min (of_Z a) (of_Z b) = of_Z (Z.min a b).
Proof.
  pose proof (lt_of_Z b a) as H. unfold min, of_Z in *. cbv iota.
  rewrite H. destruct (Z.ltb_spec b a); do 2 f_equal; lia.
Qed.



(** [parseInt] returns an integer or [NaN]. *)
Lemma parseInt_cases (s : string) :
  parseInt s = NaN \/ exists z : Z, parseInt s = of_Z z.
Proof.
  unfold parseInt.
  repeat case_match; eauto.
Qed.

(** ** Pagination *)

Import Pagination.


Lemma listAssets_pagination_defaults :
  listAssets_page None = of_Z 1 /\ listAssets_pageSize None = of_Z 20.
Proof. split; reflexivity. Qed.

(** The activity list caps its limit at 100 and has the defaults 1 and
    20, but no lower bound. *)
Lemma getRecentActivity_limit_capped (limit : option string) :
  getRecentActivity_limitNum limit = NaN \/
  exists z : Z, getRecentActivity_limitNum limit = of_Z z /\ z <= 100.
Proof.
  unfold getRecentActivity_limitNum.
  destruct (parseInt_cases (default "20"%string limit)) as [-> | [z ->]].
  - by left.
  - right. rewrite min_of_Z. eexists; split; [done | lia].
Qed.

Lemma getRecentActivity_pagination_defaults :
  getRecentActivity_pageNum None = of_Z 1 /\
  getRecentActivity_limitNum None = of_Z 20.
Proof. split; reflexivity. Qed.

Lemma of_Z_inj (a b : Z) : of_Z a = of_Z b -> a = b.
Proof. unfold of_Z, inject_Z. congruence. Qed.

(** C8, at the inputs where the code leaves the interval.  In
    [getRecentActivity] the limit ["0"] gives a page size of 0, ["-5"]
    gives -5 and ["abc"] gives [NaN]; the page ["0"] gives page 0 and
    ["-3"] gives -3.  None of them is a page of at least 1 or a size
    within 1 and 100. *)
Theorem getRecentActivity_pagination_unclamped :
  getRecentActivity_limitNum (Some "0"%string) = of_Z 0 /\
  getRecentActivity_limitNum (Some "-5"%string) = of_Z (-5) /\
  getRecentActivity_limitNum (Some "abc"%string) = NaN /\
  getRecentActivity_pageNum (Some "0"%string) = of_Z 0 /\
  getRecentActivity_pageNum (Some "-3"%string) = of_Z (-3) /\
  ~ within 1 100 (getRecentActivity_limitNum (Some "0"%string)) /\
  ~ within 1 100 (getRecentActivity_limitNum (Some "-5"%string)) /\
  ~ within 1 100 (getRecentActivity_limitNum (Some "abc"%string)) /\
  ~ at_least 1 (getRecentActivity_pageNum (Some "0"%string)) /\
  ~ at_least 1 (getRecentActivity_pageNum (Some "-3"%string)).
Proof.
  repeat split; try reflexivity.
  - intros (z & Hz & ?). apply (of_Z_inj 0 z) in Hz. lia.
  - intros (z & Hz & ?). apply (of_Z_inj (-5) z) in Hz. lia.
  - intros (z & Hz & ?). discriminate Hz.
  - intros (z & Hz & ?). apply (of_Z_inj 0 z) in Hz. lia.
  - intros (z & Hz & ?). apply (of_Z_inj (-3) z) in Hz. lia.
Qed.

(** ** Dates *)

Import JsDate.

Lemma MonthFromTime_range (t : Z) : 0 <= MonthFromTime t <= 11.
Proof. unfold MonthFromTime. repeat case_match; lia. Qed.

(** The year found from the estimate is the year of the day: the
    largest one that starts on or before it. *)
Lemma YearFromDay_spec (d : Z) :
  DayFromYear (YearFromDay d) <= d < DayFromYear (YearFromDay d + 1).
Proof.
  unfold YearFromDay.
  set (y := 1970 + d * 10000 / 3652425).
  assert (Hy : DayFromYear (y - 1) <= d < DayFromYear (y + 2)).
  { unfold DayFromYear, y. Z.div_mod_to_equations. lia. }
  destruct (Z.ltb_spec d (DayFromYear y)).
  - replace (y - 1 + 1) with y by lia. lia.
  - destruct (Z.leb_spec (DayFromYear (y + 1)) d).
    + replace (y + 1 + 1) with (y + 2) by lia. lia.
    + lia.
Qed.

(** [MakeDay] on the year and month of [t] counts days from the day of
    [t]: replacing the date [DateFromTime t] by [n] moves by the
    difference. *)
Lemma MakeDay_same_month (t n : Z) :
  MakeDay (YearFromTime t) (MonthFromTime t) n = Day t - DateFromTime t + n.
Proof.
  pose proof (MonthFromTime_range t) as Hm.
  unfold MakeDay.
  rewrite (Z.div_small (MonthFromTime t) 12), (Z.mod_small (MonthFromTime t) 12) by lia.
  rewrite Z.add_0_r.
  unfold DateFromTime, DayWithinYear, InLeapYear. lia.
Qed.

Lemma MakeDate_Day (d t : Z) :
  MakeDate d (TimeWithinDay t) = t + (d - Day t) * msPerDay.
Proof.
  unfold MakeDate, TimeWithinDay, Day.
  pose proof (Z.div_mod t msPerDay) as H. unfold msPerDay in *. lia.
Qed.

Lemma to_integer_sub_of_Z (a b : Z) :
  to_integer (sub (of_Z a) (of_Z b)) = Some (a - b).
Proof.
  unfold to_integer, sub, of_Z; simpl. rewrite Z.quot_1_r. f_equal. lia.
Qed.

(** [d.setDate(d.getDate() - k)] goes back [k] days on the local
    calendar and keeps the local time of day. *)
Lemma setDate_getDate_minus (zone : Zone) (t k : Z) :
  setDate zone (Some t) (sub (getDate zone (Some t)) (of_Z k))
  = TimeClip (UTC zone (LocalTime zone t - k * msPerDay)).
Proof.
  unfold setDate, getDate. rewrite to_integer_sub_of_Z.
  rewrite MakeDay_same_month, MakeDate_Day. do 2 f_equal. lia.
Qed.

(** In a zone without transitions these are [k] days of 24 hours. *)
Lemma setDate_getDate_minus_fixed (tza t k : Z) :
  setDate tza (Some t) (sub (getDate tza (Some t)) (of_Z k))
  = TimeClip (t - k * msPerDay).
Proof.
  rewrite setDate_getDate_minus. unfold UTC, LocalTime. simpl. f_equal. lia.
Qed.

Lemma TimeClip_Some (t : Z) : - maxTime <= t <= maxTime -> TimeClip t = Some t.
Proof.
  intros H. unfold TimeClip. destruct (Z.leb_spec (Z.abs t) maxTime); [done | lia].
Qed.

Lemma TimeClip_inv (t t' : Z) : TimeClip t = Some t' -> t' = t.
Proof. unfold TimeClip. case_match; congruence. Qed.

Lemma setDate_NaN (zone : Zone) (d : Date) : setDate zone d NaN = None.
Proof. unfold setDate. by destruct d. Qed.

Lemma sub_NaN_r (a : number) : sub a NaN = NaN.
Proof. by destruct a. Qed.

(** ** Deleting old activity logs *)

Import ActivityLogs.

(** A Super Admin request whose [olderThanDays] does not parse to a
    number passes the guard: the first database call is the deletion,
    with an Invalid Date as its bound. *)
Lemma deleteOldLogs_body_NaN (tza : Zone) (now : Z) (req : Request) :
  is_super_admin (user_role req) = true ->
  parseInt (default "90"%string (body_olderThanDays req)) = NaN ->
  exists k, deleteOldLogs_body tza now req = DeleteMany None k.
Proof.
  intros Hrole Hnan. unfold deleteOldLogs_body.
  rewrite Hrole, Hnan. simpl. eauto.
Qed.




(** C10.  A Super Admin request with the body [{olderThanDays: "abc"}]:
    [parseInt] gives [NaN], the guard [days < 30] is false, the request
    is not answered with 400, and the deletion is issued with an
    Invalid Date as its cutoff. *)
Theorem deleteOldLogs_NaN_passes_floor :
  let req := cleanup_request "abc" in
  parseInt "abc" = NaN /\
  lt (parseInt "abc") (of_Z 30) = false /\
  (forall tza now, exists k, deleteOldLogs_body tza now req = DeleteMany None k) /\
  (forall tza now table, res_status (deleteOldLogs tza now req table).1 <> 400).
Proof.
  repeat split; try reflexivity.
  - intros tza now. by apply deleteOldLogs_body_NaN.
  - intros tza now table. unfold deleteOldLogs.
    destruct (deleteOldLogs_body_NaN tza now (cleanup_request "abc") eq_refl eq_refl)
      as [k ->].
    simpl. lia.
Qed.

(** ** The date part of [toISOString] *)

Lemma digit_char_not_T (n : Z) : Ascii.eqb (digit_char n) "T" = false.
Proof.
  unfold digit_char.
  pose proof (Z.mod_pos_bound n 10 ltac:(lia)) as Hn.
  assert (H : n mod 10 = 0 \/ n mod 10 = 1 \/ n mod 10 = 2 \/ n mod 10 = 3 \/
              n mod 10 = 4 \/ n mod 10 = 5 \/ n mod 10 = 6 \/ n mod 10 = 7 \/
              n mod 10 = 8 \/ n mod 10 = 9) by lia.
  repeat destruct H as [H | H]; rewrite H; reflexivity.
Qed.

Lemma split_T_head_app (a b : string) :
  split_T_head a = a -> split_T_head b = b ->
  split_T_head (a ++ b) = (a ++ b)%string.
Proof.
  induction a as [| c a IH]; simpl; [done |].
  destruct (Ascii.eqb c "T"); [done |].
  intros [= Ha] Hb. by rewrite IH.
Qed.

Lemma split_T_head_stop (a b : string) :
  split_T_head a = a -> split_T_head (a ++ String "T" b) = a.
Proof.
  induction a as [| c a IH]; simpl; [done |].
  destruct (Ascii.eqb c "T"); [done |].
  intros [= Ha]. by rewrite IH.
Qed.

Lemma split_T_head_pad2 (n : Z) : split_T_head (pad2 n) = pad2 n.
Proof. unfold pad2; simpl. by rewrite !digit_char_not_T. Qed.

Lemma split_T_head_isoYear (y : Z) : split_T_head (isoYear y) = isoYear y.
Proof.
  unfold isoYear, pad6, pad4, pad3, pad2.
  repeat case_match; simpl; by rewrite !digit_char_not_T.
Qed.

Lemma split_T_head_isoDate (t : Z) : split_T_head (isoDate t) = isoDate t.
Proof.
  unfold isoDate.
  repeat (apply split_T_head_app;
          [first [apply split_T_head_isoYear | apply split_T_head_pad2 | reflexivity] |]).
  apply split_T_head_pad2.
Qed.

(** [toISOString().split("T")[0]] is the UTC calendar date. *)
Lemma isoDay_isoDate (t : Z) : isoDay t = isoDate t.
Proof.
  unfold isoDay, toISOString. apply split_T_head_stop, split_T_head_isoDate.
Qed.

(** The date depends on the day only. *)
Lemma isoDate_Day (t t' : Z) : Day t = Day t' -> isoDate t = isoDate t'.
Proof.
  intros H.
  unfold isoDate, DateFromTime, MonthFromTime, InLeapYear, DayWithinYear, YearFromTime.
  by rewrite H.
Qed.

Lemma Day_shift (t k : Z) : Day (t + k * msPerDay) = Day t + k.
Proof. unfold Day. apply Z.div_add. unfold msPerDay; lia. Qed.

Lemma Day_whole (d : Z) : Day (d * msPerDay) = d.
Proof. unfold Day. apply Z.div_mul. unfold msPerDay; lia. Qed.

(** ** Weekly buckets of the transaction trends *)

Import Reports Trends.

(** The weekly key in general: the UTC date of the instant that has
    the local time of day of the record on the Sunday of its local
    week.  Where that instant is beyond the range of dates,
    [toISOString] throws. *)
Lemma getGroupKey_weekly (zone : Zone) (t : Z) :
  getGroupKey zone "weekly" t
  = isoDate <$> TimeClip (UTC zone (LocalTime zone t
                                    - WeekDay (LocalTime zone t) * msPerDay)).
Proof.
  unfold getGroupKey. simpl String.eqb. cbv iota.
  unfold getDay. rewrite setDate_getDate_minus.
  destruct (TimeClip _); simpl; [by rewrite isoDay_isoDate | done].
Qed.

Lemma WeekDay_range (t : Z) : 0 <= WeekDay t < 7.
Proof. unfold WeekDay. apply Z.mod_pos_bound. lia. Qed.

(** When the local time zone is UTC, the weekly key is the date of the
    Sunday that starts the week of the record; the first six days of
    the range of dates apart, whose Sunday is not a date. *)
Lemma getGroupKey_weekly_UTC (t : Z) :
  - maxTime + 6 * msPerDay <= t <= maxTime ->
  getGroupKey 0 "weekly" t = Some (isoDate (weekStartDay 0 t * msPerDay)).
Proof.
  intros Ht. rewrite getGroupKey_weekly. unfold UTC, LocalTime. simpl.
  rewrite Z.add_0_r, Z.sub_0_r.
  pose proof (WeekDay_range t) as Hw.
  rewrite TimeClip_Some by (unfold maxTime, msPerDay in *; lia). simpl.
  f_equal. apply isoDate_Day.
  rewrite Day_whole. unfold weekStartDay, LocalTime. simpl. rewrite Z.add_0_r.
  replace (t - WeekDay t * msPerDay) with (t + (- WeekDay t) * msPerDay) by lia.
  rewrite Day_shift. lia.
Qed.

Lemma getGroupKey_weekly_UTC_same_week (t t' : Z) :
  - maxTime + 6 * msPerDay <= t <= maxTime ->
  - maxTime + 6 * msPerDay <= t' <= maxTime ->
  weekStartDay 0 t = weekStartDay 0 t' ->
  getGroupKey 0 "weekly" t = getGroupKey 0 "weekly" t'.
Proof. intros Ht Ht' H. by rewrite !getGroupKey_weekly_UTC, H. Qed.

(** In UTC two deposits of one week make one bucket, with count 2 and
    the sum of the amounts. *)
Lemma trends_weekly_UTC_same_week (d1 d2 : Transaction) :
  - maxTime + 6 * msPerDay <= createdAt d1 <= maxTime ->
  - maxTime + 6 * msPerDay <= createdAt d2 <= maxTime ->
  weekStartDay 0 (createdAt d1) = weekStartDay 0 (createdAt d2) ->
  let key := isoDate (weekStartDay 0 (createdAt d1) * msPerDay) in
  trends 0 (Some "weekly"%string) [d1; d2] []
  = Some {[ key := {| date := key;
                      deposits := (0 + amount d1 + amount d2)%Q;
                      withdrawals := 0;
                      netFlow := (0 + amount d1 + amount d2 - 0)%Q;
                      depositCount := 2;
                      withdrawalCount := 0 |} ]}.
Proof.
  intros H1 H2 Hw key. unfold trends. simpl default. unfold each_deposit.
  rewrite <- (getGroupKey_weekly_UTC_same_week _ _ H1 H2 Hw).
  rewrite getGroupKey_weekly_UTC by done. fold key.
  unfold each_withdrawal, add_deposit.
  rewrite lookup_empty. simpl default.
  rewrite lookup_insert_eq. simpl default.
  rewrite insert_insert_eq, insert_empty, map_fmap_singleton.
  reflexivity.
Qed.

(** ** Group-by totals of the deposits report *)

Import JsArray Reports.

Lemma sum_by_from {A : Type} (f : A -> Q) (l : list A) (a : Q) :
  (fold_left (fun sum x => sum + f x) l a == a + sum_by f l)%Q.
Proof.
  unfold sum_by. revert a. induction l as [| x l IH]; intros a; simpl.
  - ring.
  - rewrite (IH (a + f x)%Q), (IH (0 + f x)%Q). ring.
Qed.

Lemma sum_by_cons {A : Type} (f : A -> Q) (x : A) (l : list A) :
  (sum_by f (x :: l) == f x + sum_by f l)%Q.
Proof. unfold sum_by at 1; simpl. rewrite sum_by_from. ring. Qed.

(** The bucket counts add up to the number of records, whatever the
    arithmetic of the amounts. *)
Section GroupByCounts.
Context {N : Type} (zero : N) (add : N -> N -> N).

Lemma buckets_count_insert (k : string) (b : Bucket_of N) (m : gmap string (Bucket_of N)) :
  m !! k = None ->
  buckets_count (<[k := b]> m) = (buckets_count m + count b)%nat.
Proof.
  intros Hk. unfold buckets_count.
  apply (map_fold_insert_L (fun _ b acc => (acc + count b)%nat)); auto.
  intros. lia.
Qed.

Lemma add_to_bucket_count (k : string) (a : N) (m : gmap string (Bucket_of N)) :
  buckets_count (add_to_bucket zero add k a m) = S (buckets_count m).
Proof.
  unfold add_to_bucket.
  destruct (m !! k) as [b |] eqn:Hk; simpl.
  - rewrite <- (insert_delete_id m k b Hk), !insert_insert_eq.
    rewrite !buckets_count_insert by apply lookup_delete_eq.
    simpl. lia.
  - rewrite buckets_count_insert by done. simpl. lia.
Qed.

Lemma group_by_counts {R : Type} (key : R -> string) (amt : R -> N) (ds : list R)
    (acc : gmap string (Bucket_of N)) :
  buckets_count (fold_left (fun acc d => add_to_bucket zero add (key d) (amt d) acc) ds acc)
  = (buckets_count acc + length ds)%nat.
Proof.
  revert acc. induction ds as [| d ds IH]; intros acc; simpl; [lia |].
  rewrite IH, add_to_bucket_count. lia.
Qed.

(** On a plain object the records with a key of [Object.prototype]
    are not counted. *)
Lemma object_counts {R : Type} (key : R -> string) (amt : R -> N) (ds : list R)
    (acc : gmap string (Bucket_of N)) :
  buckets_count (fold_left (fun acc d => add_to_object zero add (key d) (amt d) acc) ds acc)
  = (buckets_count acc
     + length (List.filter (fun d => negb (JsObject.inherited (key d))) ds))%nat.
Proof.
  revert acc. induction ds as [| d ds IH]; intros acc; simpl; [lia |].
  rewrite IH. unfold add_to_object.
  destruct (JsObject.inherited (key d)); simpl; [lia |].
  rewrite add_to_bucket_count. lia.
Qed.

Lemma fold_add_to_object_own {R : Type} (key : R -> string) (amt : R -> N) (ds : list R)
    (acc : gmap string (Bucket_of N)) :
  Forall (fun d => JsObject.inherited (key d) = false) ds ->
  fold_left (fun acc d => add_to_object zero add (key d) (amt d) acc) ds acc
  = fold_left (fun acc d => add_to_bucket zero add (key d) (amt d) acc) ds acc.
Proof.
  intros Hown. revert acc. induction Hown as [| d ds Hd Hown IH]; intros acc; simpl;
    [done |].
  unfold add_to_object at 2. rewrite Hd. apply IH.
Qed.

Lemma dailyBreakdown_counts (deposits : list (Transaction_of N)) :
  buckets_count (dailyBreakdown zero add deposits) = length deposits.
Proof.
  unfold dailyBreakdown.
  rewrite (group_by_counts (fun d => isoDay (createdAt d)) amount).
  unfold buckets_count. by rewrite map_fold_empty.
Qed.
End GroupByCounts.

(** The bucket amounts add up to the total of the records when the
    addition of the amounts is associative and commutative with a
    neutral zero, up to the equality [eqv] of the amounts. *)
Section GroupByAmounts.
Context {N : Type} (zero : N) (add : N -> N -> N) (eqv : relation N).
Context (eqv_equiv : Equivalence eqv).
Context (add_proper : Proper (eqv ==> eqv ==> eqv) add).
Context (add_assoc : forall x y z, eqv (add x (add y z)) (add (add x y) z)).
Context (add_comm : forall x y, eqv (add x y) (add y x)).
Context (add_zero : forall x, eqv (add zero x) x).

Lemma add_swap (x y z : N) : eqv (add (add x y) z) (add (add x z) y).
Proof.
  rewrite <- (add_assoc x y z), (add_comm y z). apply add_assoc.
Qed.

Lemma buckets_amount_insert (k : string) (b : Bucket_of N) (m : gmap string (Bucket_of N)) :
  m !! k = None ->
  eqv (buckets_amount zero add (<[k := b]> m))
      (add (buckets_amount zero add m) (bucket_amount b)).
Proof.
  intros Hk. unfold buckets_amount.
  apply (map_fold_insert eqv (fun _ b acc => add acc (bucket_amount b))); auto.
  - intros j z x y Hxy. by rewrite Hxy.
  - intros. apply add_swap.
Qed.

Lemma add_to_bucket_amount (k : string) (a : N) (m : gmap string (Bucket_of N)) :
  eqv (buckets_amount zero add (add_to_bucket zero add k a m))
      (add (buckets_amount zero add m) a).
Proof.
  unfold add_to_bucket.
  destruct (m !! k) as [b |] eqn:Hk; simpl.
  - rewrite <- (insert_delete_id m k b Hk), !insert_insert_eq.
    rewrite !buckets_amount_insert by apply lookup_delete_eq.
    simpl. apply add_assoc.
  - rewrite buckets_amount_insert by done. simpl.
    by rewrite add_zero.
Qed.

Lemma total_amount_from (ds : list (Transaction_of N)) (a b : N) :
  eqv a b ->
  eqv (fold_left (fun sum d => add sum (amount d)) ds a)
      (fold_left (fun sum d => add sum (amount d)) ds b).
Proof.
  revert a b. induction ds as [| d ds IH]; intros a b Hab; simpl; [done |].
  apply IH. by rewrite Hab.
Qed.

Lemma group_by_amounts (key : Transaction_of N -> string) (ds : list (Transaction_of N))
    (acc : gmap string (Bucket_of N)) :
  eqv (buckets_amount zero add
         (fold_left (fun acc d => add_to_bucket zero add (key d) (amount d) acc) ds acc))
      (fold_left (fun sum d => add sum (amount d)) ds (buckets_amount zero add acc)).
Proof.
  revert acc. induction ds as [| d ds IH]; intros acc; simpl; [done |].
  rewrite IH. apply total_amount_from, add_to_bucket_amount.
Qed.

(** C1 as the code has it.  The bucket counts of the daily breakdown
    add up to the number of records in every arithmetic; the bucket
    amounts add up to the total of the record amounts when the addition
    of the amounts is exact, that is associative and commutative (here
    up to [eqv]). *)
Theorem dailyBreakdown_preserves_totals (deposits : list (Transaction_of N)) :
  eqv (buckets_amount zero add (dailyBreakdown zero add deposits))
      (total_amount zero add deposits) /\
  buckets_count (dailyBreakdown zero add deposits) = length deposits.
Proof.
  split; [| apply dailyBreakdown_counts].
  unfold dailyBreakdown, total_amount.
  rewrite (group_by_amounts (fun d => isoDay (createdAt d))).
  unfold buckets_amount. by rewrite map_fold_empty.
Qed.

(** The same holds for the breakdown by method when no method has a
    name of [Object.prototype]. *)
Lemma byMethod_preserves_totals (deposits : list (Transaction_of N)) :
  Forall (fun d => JsObject.inherited (method_key d) = false) deposits ->
  eqv (buckets_amount zero add (byMethod zero add deposits))
      (total_amount zero add deposits).
Proof.
  intros Hown. unfold byMethod, total_amount.
  rewrite (fold_add_to_object_own zero add method_key amount) by done.
  rewrite (group_by_amounts method_key).
  unfold buckets_amount. by rewrite map_fold_empty.
Qed.
End GroupByAmounts.

(** The exact reading: amounts as rationals. *)
Lemma dailyBreakdown_preserves_totals_witness :
  (buckets_amount 0%Q Qplus (dailyBreakdown 0%Q Qplus scenario_deposits)
   == total_amount 0%Q Qplus scenario_deposits)%Q /\
  buckets_count (dailyBreakdown 0%Q Qplus scenario_deposits) = 3%nat.
Proof.
  apply (dailyBreakdown_preserves_totals 0%Q Qplus Qeq Q_Setoid Qplus_comp
           Qplus_assoc Qplus_comm Qplus_0_l scenario_deposits).
Defined.

(** C1 as stated fails on doubles.  Deposits of 19.99 and 0.30 on one
    day and of 5.01 on the next: the records add up to 25.3, the two
    buckets to 25.299999999999997. *)
Lemma dailyBreakdown_total_rounds :
  let deposits := [deposit64 1999 0; deposit64 501 JsDate.msPerDay; deposit64 30 0] in
  let buckets := dailyBreakdown Binary64.zero Binary64.add deposits in
  bucket_amount <$> buckets !! "1970-01-01"%string
    = Some (Binary64.add (Binary64.hundredths 1999) (Binary64.hundredths 30)) /\
  bucket_amount <$> buckets !! "1970-01-02"%string = Some (Binary64.hundredths 501) /\
  size buckets = 2%nat /\
  Binary64.lt (buckets_amount Binary64.zero Binary64.add buckets)
              (total_amount Binary64.zero Binary64.add deposits) = true /\
  Binary64.eqb (buckets_amount Binary64.zero Binary64.add buckets)
               (total_amount Binary64.zero Binary64.add deposits) = false.
Proof. repeat split; vm_compute; reflexivity. Qed.

(** ** Summary of the deposits report *)

(** C2 as the code computes it.  The totals of the scenario are 1700,
    1000, 500 and 200; the average is the quotient 1700 / 3, which lies
    strictly between 566.66 and 566.67: the code does not round it. *)
Theorem depositsSummary_scenario :
  let s := depositsSummary scenario_deposits in
  totalAmount s = 1700%Q /\
  st_amount (approved s) = 1000%Q /\
  st_amount (pending s) = 500%Q /\
  st_amount (rejected s) = 200%Q /\
  averageDeposit s = Num (1700 # 3) /\
  (56666 # 100 < 1700 # 3)%Q /\ (1700 # 3 < 56667 # 100)%Q.
Proof. repeat split. Qed.

(** C2 as stated fails: the average of the scenario is not 566.67. *)
Lemma depositsSummary_scenario_average_not_rounded :
  ~ (exists q : Q,
       averageDeposit (depositsSummary scenario_deposits) = Num q /\
       (q == 56667 # 100)%Q).
Proof.
  intros (q & Hq & Heq).
  assert (q = 1700 # 3) as -> by (vm_compute in Hq; congruence).
  vm_compute in Heq. discriminate.
Qed.

(** ** Success and failure rates of the activity report *)

Lemma byStatus_from (k : string) (l : list Activity) (acc : gmap string nat) :
  default 0%nat
    (fold_left (fun acc a =>
                  <[status_key a := S (default 0%nat (acc !! status_key a))]> acc)
               l acc !! k)
  = (default 0%nat (acc !! k) + count_status k l)%nat.
Proof.
  revert acc. induction l as [| a l IH]; intros acc; simpl.
  - unfold count_status; simpl. lia.
  - rewrite IH. unfold count_status; simpl.
    destruct (String.eqb_spec (status_key a) k) as [-> | Hne]; simpl.
    + rewrite lookup_insert_eq. simpl. lia.
    + by rewrite lookup_insert_ne.
Qed.

(** [byStatus[k] || 0] is the number of activities of status [k]. *)
Lemma byStatus_lookup (k : string) (l : list Activity) :
  default 0%nat (byStatus l !! k) = count_status k l.
Proof. unfold byStatus. rewrite byStatus_from, lookup_empty. reflexivity. Qed.

Lemma count_status_disjoint (k1 k2 : string) (l : list Activity) :
  k1 <> k2 -> (count_status k1 l + count_status k2 l <= length l)%nat.
Proof.
  intros Hne. unfold count_status. induction l as [| a l IH]; simpl; [lia |].
  destruct (String.eqb_spec (status_key a) k1) as [H1 | H1],
           (String.eqb_spec (status_key a) k2) as [H2 | H2]; simpl; try lia.
  congruence.
Qed.

(** With a positive number of activities the exact rate is the finite
    quotient: the division never sees a zero divisor. *)
Lemma rate_nonempty (k : string) (l : list Activity) :
  l <> [] ->
  rate exact_of_nat div mul k l
  = Num (inject_Z (Z.of_nat (count_status k l))
         / inject_Z (Z.of_nat (length l)) * inject_Z 100)%Q.
Proof.
  intros Hl. unfold rate.
  destruct l as [| a l]; [done |].
  change (0 <? length (a :: l))%nat with true. cbv iota.
  rewrite byStatus_lookup. unfold div, mul, exact_of_nat, of_Z.
  change 0%Q with (inject_Z 0). rewrite Qeq_bool_inject_Z.
  destruct (Z.eqb_spec (Z.of_nat (length (a :: l))) 0) as [H | H]; [simpl in H; lia |].
  reflexivity.
Qed.

(** On the empty list the guard answers 0 and nothing is divided, in
    every arithmetic. *)
Lemma rate_empty {N : Type} (of_nat : nat -> N) (div mul : N -> N -> N) (k : string) :
  rate of_nat div mul k [] = of_nat 0%nat.
Proof. reflexivity. Qed.

Lemma rates_sum (cs cf n : Z) :
  0 <= cs -> 0 <= cf -> cs + cf <= n -> 0 < n ->
  let s := (inject_Z cs / inject_Z n * inject_Z 100)%Q in
  let f := (inject_Z cf / inject_Z n * inject_Z 100)%Q in
  (0 <= s /\ 0 <= f /\ s + f <= 100)%Q.
Proof.
  intros Hs Hf Hsum Hn s f.
  assert (Hn' : (0 < inject_Z n)%Q) by (change 0%Q with (inject_Z 0); by rewrite <- Zlt_Qlt).
  assert (Hs' : (0 <= inject_Z cs)%Q) by (change 0%Q with (inject_Z 0); by rewrite <- Zle_Qle).
  assert (Hf' : (0 <= inject_Z cf)%Q) by (change 0%Q with (inject_Z 0); by rewrite <- Zle_Qle).
  assert (Hsum' : (inject_Z cs + inject_Z cf <= inject_Z n)%Q).
  { rewrite <- inject_Z_plus. by rewrite <- Zle_Qle. }
  assert (H100 : (0 <= inject_Z 100)%Q) by (change 0%Q with (inject_Z 0); rewrite <- Zle_Qle; lia).
  assert (Hds : (0 <= inject_Z cs / inject_Z n)%Q) by (apply Qle_shift_div_l; [done | lra]).
  assert (Hdf : (0 <= inject_Z cf / inject_Z n)%Q) by (apply Qle_shift_div_l; [done | lra]).
  repeat split.
  - unfold s. apply Qmult_le_0_compat; done.
  - unfold f. apply Qmult_le_0_compat; done.
  - unfold s, f.
    assert (E : (inject_Z cs / inject_Z n * inject_Z 100
                 + inject_Z cf / inject_Z n * inject_Z 100
                 == (inject_Z cs + inject_Z cf) / inject_Z n * inject_Z 100)%Q)
      by (field; lra).
    rewrite E.
    assert (E' : (100 == 1 * inject_Z 100)%Q) by reflexivity.
    rewrite E'.
    apply Qmult_le_compat_r; [| done].
    apply Qle_shift_div_r; [done | lra].
Qed.

(** C6 as the code has it.  The activities of status SUCCESS and FAILED
    are at most all the activities, and in exact arithmetic the two
    rates are finite, non-negative and add up to at most 100.  On the
    empty list both rates are 0 in every arithmetic: the quotient is
    only taken under the guard [activities.length > 0], so that its
    divisor is never zero. *)
Theorem activity_rates_bounded (activities : list Activity) :
  (count_status "SUCCESS" activities + count_status "FAILED" activities
   <= length activities)%nat /\
  (exists s f : Q,
     successRate exact_of_nat div mul activities = Num s /\
     failureRate exact_of_nat div mul activities = Num f /\
     (0 <= s)%Q /\ (0 <= f)%Q /\ (s + f <= 100)%Q) /\
  (forall (N : Type) (of_nat : nat -> N) (div mul : N -> N -> N),
     successRate of_nat div mul [] = of_nat 0%nat /\
     failureRate of_nat div mul [] = of_nat 0%nat).
Proof.
  pose proof (count_status_disjoint "SUCCESS" "FAILED" activities ltac:(done)) as Hd.
  split; [exact Hd |]. split; [| split; reflexivity].
  unfold successRate, failureRate.
  destruct (decide (activities = [])) as [-> | Hne].
  - exists 0%Q, 0%Q. repeat split; try reflexivity; lra.
  - rewrite !rate_nonempty by done.
    destruct (rates_sum (Z.of_nat (count_status "SUCCESS" activities))
                        (Z.of_nat (count_status "FAILED" activities))
                        (Z.of_nat (length activities)))
      as (? & ? & ?); try lia.
    { destruct activities; [done | simpl; lia]. }
    eexists _, _. repeat split; done.
Qed.

(** C6 as stated fails on doubles.  With 2 activities of status SUCCESS
    and 9 of status FAILED the rates are 18.181818181818183 and
    81.81818181818183, and their sum is 100.00000000000001. *)
Lemma activity_rates_exceed_100 :
  let activities := repeat (activity_with "SUCCESS") 2 ++ repeat (activity_with "FAILED") 9 in
  let s := successRate Binary64.of_nat Binary64.div Binary64.mul activities in
  let f := failureRate Binary64.of_nat Binary64.div Binary64.mul activities in
  Binary64.eqb s (Binary64.mul (Binary64.div (Binary64.of_nat 2) (Binary64.of_nat 11))
                               (Binary64.of_nat 100)) = true /\
  Binary64.eqb f (Binary64.mul (Binary64.div (Binary64.of_nat 9) (Binary64.of_nat 11))
                               (Binary64.of_nat 100)) = true /\
  Binary64.lt (Binary64.of_nat 100) (Binary64.add s f) = true.
Proof. repeat split; vm_compute; reflexivity. Qed.

(** ** Stable sorting and top-N rankings *)

Section StableSort.
Context {A : Type} (metric : A -> Q).

Lemma insert_sorted_Permutation (x : A) (l : list A) :
  insert_sorted (desc metric) x l ≡ₚ x :: l.
Proof.
  induction l as [| y l IH]; simpl; [done |].
  destruct (Qle_bool (desc metric x y) 0); [done |].
  rewrite IH. apply Permutation_swap.
Qed.

Lemma sort_Permutation (l : list A) : sort (desc metric) l ≡ₚ l.
Proof.
  induction l as [| x l IH]; simpl; [done |].
  by rewrite insert_sorted_Permutation, IH.
Qed.

Lemma insert_sorted_descending (x : A) (l : list A) :
  descending metric l -> descending metric (insert_sorted (desc metric) x l).
Proof.
  unfold descending.
  induction l as [| y l IH]; simpl; intros Hl.
  - by repeat constructor.
  - apply StronglySorted_cons in Hl as [Hy Hl].
    destruct (Qle_bool (desc metric x y) 0) eqn:E.
    + apply Qle_bool_iff in E. unfold desc in E.
      assert (Hxy : (metric y <= metric x)%Q) by lra.
      apply StronglySorted_cons. split.
      * constructor; [done |].
        eapply Forall_impl; [exact Hy |]. simpl. intros z Hz. lra.
      * apply StronglySorted_cons. by split.
    + assert (Hxy : (metric x <= metric y)%Q).
      { destruct (Qlt_le_dec (metric y) (metric x)) as [Hlt | Hle]; [| done].
        assert (Qle_bool (desc metric x y) 0 = true); [| congruence].
        apply Qle_bool_iff. unfold desc. lra. }
      apply StronglySorted_cons. split; [| by apply IH].
      rewrite (insert_sorted_Permutation x l). by constructor.
Qed.

Lemma sort_descending (l : list A) : descending metric (sort (desc metric) l).
Proof.
  induction l as [| x l IH]; simpl.
  - constructor.
  - by apply insert_sorted_descending.
Qed.

(** Insertion passes only elements of a strictly larger metric, so
    it enters each class of equal metric at the front. *)
Lemma with_metric_insert_sorted (v : Q) (x : A) (l : list A) :
  with_metric metric v (insert_sorted (desc metric) x l)
  = with_metric metric v (x :: l).
Proof.
  unfold with_metric.
  induction l as [| y l IH]; simpl; [done |].
  destruct (Qle_bool (desc metric x y) 0) eqn:E; simpl; [done |].
  rewrite IH. simpl.
  destruct (Qeq_bool (metric x) v) eqn:Ex; [| done].
  destruct (Qeq_bool (metric y) v) eqn:Ey; [| done].
  apply Qeq_bool_iff in Ex, Ey.
  assert (Qle_bool (desc metric x y) 0 = true); [| congruence].
  apply Qle_bool_iff. unfold desc. lra.
Qed.

(** The sort is stable. *)
Lemma sort_stable (l : list A) :
  same_order_of_equals metric (sort (desc metric) l) l.
Proof.
  intros v. induction l as [| x l IH]; simpl; [done |].
  rewrite with_metric_insert_sorted. unfold with_metric in *. simpl.
  by rewrite IH.
Qed.

Lemma with_metric_elem (x : A) (l : list A) :
  x ∈ l -> x ∈ with_metric metric (metric x) l.
Proof.
  intros Hx. unfold with_metric.
  apply list_elem_of_In, filter_In. split; [by apply list_elem_of_In |].
  apply Qeq_bool_iff. reflexivity.
Qed.

Lemma with_metric_elem_inv (x : A) (v : Q) (l : list A) :
  x ∈ with_metric metric v l -> x ∈ l.
Proof.
  unfold with_metric. rewrite !list_elem_of_In, filter_In. tauto.
Qed.

(** Two descending lists that order each class of equal metric the
    same way are equal. *)
Lemma descending_unique (l1 l2 : list A) :
  descending metric l1 -> descending metric l2 ->
  same_order_of_equals metric l1 l2 -> l1 = l2.
Proof.
  unfold descending.
  revert l2. induction l1 as [| x l1 IH]; intros l2 H1 H2 Hsame.
  - destruct l2 as [| y l2]; [done |].
    pose proof (with_metric_elem y (y :: l2) ltac:(left)) as Hy.
    rewrite <- Hsame in Hy. inversion Hy.
  - destruct l2 as [| y l2].
    { pose proof (with_metric_elem x (x :: l1) ltac:(left)) as Hx.
      rewrite Hsame in Hx. inversion Hx. }
    apply StronglySorted_cons in H1 as [Hx1 H1].
    apply StronglySorted_cons in H2 as [Hy2 H2].
    rewrite Forall_forall in Hx1, Hy2.
    assert (Hyx : (metric y <= metric x)%Q).
    { pose proof (with_metric_elem y (y :: l2) ltac:(left)) as Hy.
      rewrite <- Hsame in Hy. apply with_metric_elem_inv in Hy.
      inv Hy; [lra | auto]. }
    assert (Hxy : (metric x <= metric y)%Q).
    { pose proof (with_metric_elem x (x :: l1) ltac:(left)) as Hx.
      rewrite Hsame in Hx. apply with_metric_elem_inv in Hx.
      inv Hx; [lra | auto]. }
    assert (Heq : (metric x == metric y)%Q) by lra.
    pose proof (Hsame (metric x)) as Hv. unfold with_metric in Hv. simpl in Hv.
    assert (Ex : Qeq_bool (metric x) (metric x) = true)
      by (apply Qeq_bool_iff; reflexivity).
    assert (Ey : Qeq_bool (metric y) (metric x) = true)
      by (apply Qeq_bool_iff; lra).
    rewrite Ex, Ey in Hv. injection Hv as -> Hv.
    f_equal. apply IH; [done | done |].
    intros v. unfold with_metric.
    pose proof (Hsame v) as Hv'. unfold with_metric in Hv'. simpl in Hv'.
    destruct (Qeq_bool (metric y) v) eqn:E; [| done].
    by injection Hv'.
Qed.

Lemma same_order_of_equals_trans (l1 l2 l3 : list A) :
  same_order_of_equals metric l1 l2 -> same_order_of_equals metric l2 l3 ->
  same_order_of_equals metric l1 l3.
Proof. intros H12 H23 v. by rewrite H12. Qed.

(** The output of the sort only depends on the order of the records
    within each class of equal metric. *)
Lemma sort_order_of_equals (l1 l2 : list A) :
  same_order_of_equals metric l1 l2 ->
  sort (desc metric) l1 = sort (desc metric) l2.
Proof.
  intros Hsame. apply descending_unique; try apply sort_descending.
  intros v. rewrite (sort_stable l1 v), (sort_stable l2 v). apply Hsame.
Qed.

Lemma descending_take (n : nat) (l : list A) :
  descending metric l -> descending metric (take n l).
Proof.
  unfold descending. intros H.
  rewrite <- (take_drop n l) in H. by apply StronglySorted_app_1_l in H.
Qed.

(** Sorting and cutting to [n] gives the stable top [n]. *)
Lemma sort_slice_stable_top (n : nat) (l : list A) :
  stable_top n metric l (slice0 n (sort (desc metric) l)).
Proof.
  unfold stable_top, slice0. split; [| split].
  - rewrite length_take. lia.
  - apply descending_take, sort_descending.
  - exists (drop n (sort (desc metric) l)). rewrite take_drop.
    split; [apply sort_Permutation |].
    split; [| split; [apply sort_descending | apply sort_stable]].
    rewrite length_take. intros Hlt. apply drop_ge. lia.
Qed.
End StableSort.

(** C9.  The top wallets by balance and the top active users are at
    most 10 entries in descending order of the metric, they are the
    first entries of the stable arrangement of the input (records of
    equal metric keep their input order), and a reordering of the input
    that keeps the order of the records of equal metric leaves the
    ranking unchanged. *)
Theorem top_rankings_stable :
  (forall wallets : list Wallet,
     stable_top 10 balance wallets (topWallets wallets) /\
     forall wallets' : list Wallet,
       wallets' ≡ₚ wallets -> same_order_of_equals balance wallets' wallets ->
       topWallets wallets' = topWallets wallets) /\
  (forall activities : list Activity,
     let entries := Object_values (userActivityCount activities) in
     stable_top 10 count_metric entries (topActiveUsers activities) /\
     forall entries' : list UserCount,
       entries' ≡ₚ entries -> same_order_of_equals count_metric entries' entries ->
       topUsersOf entries' = topActiveUsers activities).
Proof.
  split.
  - intros wallets. split.
    + apply (sort_slice_stable_top balance).
    + intros wallets' _ Hsame. unfold topWallets. f_equal.
      exact (sort_order_of_equals balance wallets' wallets Hsame).
  - intros activities entries. split.
    + apply (sort_slice_stable_top count_metric).
    + intros entries' _ Hsame. unfold topActiveUsers, topUsersOf. f_equal.
      exact (sort_order_of_equals count_metric entries' entries Hsame).
Qed.

Lemma top_rankings_stable_witness :
  topWallets [wallet_of "b" 7; wallet_of "a" 5; wallet_of "c" 5]
  = topWallets [wallet_of "a" 5; wallet_of "b" 7; wallet_of "c" 5] /\
  topUsersOf [ {| uc_user := "v"; uc_count := 1 |};
               {| uc_user := "u"; uc_count := 2 |} ]
  = topActiveUsers [activity_of "u"; activity_of "v"; activity_of "u"].
Proof.
  split.
  - apply (proj1 top_rankings_stable).
    + apply Permutation_swap.
    + intros v. unfold with_metric. simpl.
      destruct (Qeq_bool 7 v) eqn:E7, (Qeq_bool 5 v) eqn:E5; try reflexivity.
      apply Qeq_bool_iff in E7, E5. lra.
  - apply (proj2 top_rankings_stable).
    + apply Permutation_swap.
    + intros v. unfold with_metric. cbv -[Qeq_bool].
      destruct (Qeq_bool (1 # 1) v) eqn:E1, (Qeq_bool (2 # 1) v) eqn:E2;
        try reflexivity.
      apply Qeq_bool_iff in E1, E2. lra.
Defined.


(** ** Growth metrics of the comprehensive report *)

Import Summary.

Lemma select_valid (c : CreatedAt) (approved_only : bool) (table : list Transaction) :
  bound_valid (c_gte c) = true -> bound_valid (c_lte c) = true ->
  bound_valid (c_lt c) = true ->
  select c approved_only table
  = Some (List.filter
            (fun r => createdAt_matches c (createdAt r)
                      && (negb approved_only
                          || TransactionStatus_eqb (transactionStatus r) APPROVED))
            table).
Proof. intros H1 H2 H3. unfold select. by rewrite H1, H2, H3. Qed.

Lemma filter_ext_bool {A : Type} (f g : A -> bool) (l : list A) :
  (forall x, f x = g x) -> List.filter f l = List.filter g l.
Proof. intros H. induction l as [| x l IH]; simpl; [done |]. by rewrite H, IH. Qed.

Lemma aggregate_sum_all (table : list Transaction) :
  aggregate_sum no_condition table = Some (sum_by amount (with_status APPROVED table)).
Proof.
  unfold aggregate_sum, no_condition, select. simpl. reflexivity.
Qed.

Lemma Date_of_number_window (ts te : Z) :
  - maxTime <= ts - (te - ts) <= maxTime ->
  Date_of_number (sub (getTime (Some ts)) (sub (getTime (Some te)) (getTime (Some ts))))
  = Some (ts - (te - ts)).
Proof.
  intros Hrange. unfold Date_of_number, getTime, sub, of_Z.
  assert (Qle_bool (Qabs (inject_Z ts - (inject_Z te - inject_Z ts))) (inject_Z maxTime)
          = true) as ->.
  { apply Qle_bool_iff, Qabs_Qle_condition.
    assert (inject_Z ts - (inject_Z te - inject_Z ts) == inject_Z (ts - (te - ts)))%Q
      as ->.
    { unfold Z.sub. rewrite !inject_Z_plus, !inject_Z_opp, inject_Z_plus, inject_Z_opp.
      ring. }
    rewrite <- inject_Z_opp, <- !Zle_Qle. lia. }
  simpl. rewrite Z.quot_1_r. f_equal. lia.
Qed.

Lemma aggregate_sum_window (ts te : Z) (table : list Transaction) :
  aggregate_sum {| c_lt := Some (Some ts);
                   c_gte := Some (Some (ts - (te - ts)));
                   c_lte := None |} table
  = Some (sum_by amount (approved_between (ts - (te - ts)) ts table)).
Proof.
  unfold aggregate_sum, select. simpl. do 2 f_equal.
  unfold approved_between. apply filter_ext_bool. intros r.
  unfold createdAt_matches, holds; simpl.
  rewrite Z.geb_leb. by rewrite andb_true_r.
Qed.

(** No date parameter: the report has no growth metrics. *)
Lemma growthMetrics_no_dates (Date_parse : string -> Date) (db : Db)
    (startDate endDate : option string) :
  supplied startDate = false -> supplied endDate = false ->
  exists r, getComprehensiveFinancialReport Date_parse db startDate endDate = Ok200 r /\
            growthMetrics r = None.
Proof.
  intros Hs He. unfold getComprehensiveFinancialReport, comprehensive_body,
    parseDateFilters.
  rewrite Hs, He. simpl. eauto.
Qed.

(** Both dates: growth against the window of the same length that ends
    at the start date, where the start of the window is a date. *)
Lemma growthMetrics_both_dates (Date_parse : string -> Date) (db : Db)
    (startDate endDate : option string) (ts te : Z) :
  supplied startDate = true -> supplied endDate = true ->
  Date_parse (default ""%string startDate) = Some ts ->
  Date_parse (default ""%string endDate) = Some te ->
  - maxTime <= ts - (te - ts) <= maxTime ->
  exists r, getComprehensiveFinancialReport Date_parse db startDate endDate = Ok200 r /\
    growthMetrics r
    = Some {| depositGrowth :=
                growth (deposits_approved r)
                       (sum_by amount (approved_between (ts - (te - ts)) ts (deposit db)));
              withdrawalGrowth :=
                growth (withdrawals_approved r)
                       (sum_by amount
                               (approved_between (ts - (te - ts)) ts (withdrawal db))) |}.
Proof.
  intros Hs He Hts Hte Hrange. unfold getComprehensiveFinancialReport, comprehensive_body,
    parseDateFilters, findMany.
  rewrite Hs, He, Hts, Hte. simpl negb. simpl andb. cbv iota.
  cbn [gte lte]. rewrite !select_valid by done. cbn [mbind option_bind].
  unfold previous_window. cbn [gte lte].
  rewrite Date_of_number_window by done. cbn [mbind option_bind].
  rewrite !aggregate_sum_window. cbn [mbind option_bind].
  eexists. split; [reflexivity |]. reflexivity.
Qed.

(** The end date alone: the growth metrics are still computed, against
    all approved rows, without a date bound. *)
Lemma growthMetrics_endDate_only (Date_parse : string -> Date) (db : Db)
    (startDate endDate : option string) (te : Z) :
  supplied startDate = false -> supplied endDate = true ->
  Date_parse (default ""%string endDate) = Some te ->
  exists r, getComprehensiveFinancialReport Date_parse db startDate endDate = Ok200 r /\
    growthMetrics r
    = Some {| depositGrowth :=
                growth (deposits_approved r)
                       (sum_by amount (with_status APPROVED (deposit db)));
              withdrawalGrowth :=
                growth (withdrawals_approved r)
                       (sum_by amount (with_status APPROVED (withdrawal db))) |}.
Proof.
  intros Hs He Hte. unfold getComprehensiveFinancialReport, comprehensive_body,
    parseDateFilters, findMany.
  rewrite Hs, He, Hte. simpl negb. simpl andb. cbv iota.
  cbn [gte lte]. rewrite !select_valid by done. cbn [mbind option_bind].
  unfold previous_window. cbn [gte lte].
  change {| c_gte := None; c_lte := None; c_lt := None |} with no_condition.
  cbn [mbind option_bind].
  rewrite !aggregate_sum_all. cbn [mbind option_bind].
  eexists. split; reflexivity.
Qed.

(** The start date alone: reading [dateFilter.lte!.getTime()] raises
    and the request ends in a 500. *)
Lemma growthMetrics_startDate_only_fails (Date_parse : string -> Date) (db : Db)
    (startDate endDate : option string) :
  supplied startDate = true -> supplied endDate = false ->
  getComprehensiveFinancialReport Date_parse db startDate endDate = Error500.
Proof.
  intros Hs He. unfold getComprehensiveFinancialReport, comprehensive_body,
    parseDateFilters, findMany.
  rewrite Hs, He. simpl negb. simpl andb. cbv iota. cbn [gte lte].
  unfold select. cbn [c_gte c_lte c_lt bound_valid].
  destruct (Date_parse (default ""%string startDate)) as [ts |]; simpl; reflexivity.
Qed.

(** C3, where the code departs from it.  With both dates the growth
    is computed against the window of equal length before the start
    date, here December 2023.  With the end date alone the report still
    carries growth metrics, and they compare the approved rows up to
    the end date with the approved rows of all time, these rows among
    them, not with a preceding period.  With the start date alone the
    request fails with 500. *)
Theorem growthMetrics_without_date_range :
  (exists r,
     getComprehensiveFinancialReport Date_parse_day sample_db
       (Some "2024-01-01"%string) (Some "2024-01-31"%string) = Ok200 r /\
     deposits_approved r = (0 + 1000 + 500)%Q /\
     growthMetrics r
     = Some {| depositGrowth := growth (deposits_approved r) (0 + 300);
               withdrawalGrowth := growth (withdrawals_approved r) (0 + 200) |}) /\
  (exists r,
     getComprehensiveFinancialReport Date_parse_day sample_db
       None (Some "2024-01-31"%string) = Ok200 r /\
     growthMetrics r <> None /\
     growthMetrics r
     = Some {| depositGrowth :=
                 growth (deposits_approved r)
                        (sum_by amount (with_status APPROVED (deposit sample_db)));
               withdrawalGrowth :=
                 growth (withdrawals_approved r)
                        (sum_by amount (with_status APPROVED (withdrawal sample_db))) |} /\
     sum_by amount (with_status APPROVED (deposit sample_db)) = deposits_approved r) /\
  getComprehensiveFinancialReport Date_parse_day sample_db
    (Some "2024-01-01"%string) None = Error500.
Proof.
  split; [| split].
  - eexists. split; [reflexivity |]. split; reflexivity.
  - eexists. split; [reflexivity |]. split; [discriminate |]. split; reflexivity.
  - reflexivity.
Qed.


(** ** Loss or gain of a portfolio asset *)

Import PortfolioAssets.

Lemma createPortfolioAsset_recomputes (StringToNumber : string -> number)
    (newId : string) (body : CreateBody) (db : Db) :
  wrote_recomputed newId db (createPortfolioAsset StringToNumber newId body db).
Proof.
  unfold wrote_recomputed, createPortfolioAsset.
  repeat case_match; simplify_eq/=; auto.
Qed.

Lemma updatePortfolioAsset_recomputes (StringToNumber : string -> number)
    (id_ : string) (body : UpdateBody) (db : Db) :
  wrote_recomputed id_ db (updatePortfolioAsset StringToNumber id_ body db).
Proof.
  unfold wrote_recomputed, updatePortfolioAsset.
  destruct (portfolioAsset db !! id_) as [current |]; simpl; auto.
Qed.

(** C5.  A successful [createPortfolioAsset] or [updatePortfolioAsset]
    stores a row whose [lossGain] is (closeValue - costPrice) * stock
    of the stored close value, cost price and stock, whichever of the
    three the request gives; a request that does not succeed writes
    nothing. *)
Theorem lossGain_recomputed (StringToNumber : string -> number) (db db' : Db)
    (key : string) (row : PortfolioAsset) :
  (forall body,
     createPortfolioAsset StringToNumber key body db = (Row 201 row, db') ->
     portfolioAsset db' !! key = Some row /\
     lossGain row = ((closeValue row - costPrice row) * stock row)%Q) /\
  (forall body,
     updatePortfolioAsset StringToNumber key body db = (Row 200 row, db') ->
     portfolioAsset db' !! key = Some row /\
     lossGain row = ((closeValue row - costPrice row) * stock row)%Q) /\
  (forall body,
     wrote_recomputed key db (createPortfolioAsset StringToNumber key body db)) /\
  (forall body,
     wrote_recomputed key db (updatePortfolioAsset StringToNumber key body db)).
Proof.
  split; [| split; [| split]].
  - intros body H.
    pose proof (createPortfolioAsset_recomputes StringToNumber key body db) as Hw.
    unfold wrote_recomputed in Hw. rewrite H in Hw. simpl in Hw.
    destruct Hw as [-> Hg]. simpl. by rewrite lookup_insert_eq.
  - intros body H.
    pose proof (updatePortfolioAsset_recomputes StringToNumber key body db) as Hw.
    unfold wrote_recomputed in Hw. rewrite H in Hw. simpl in Hw.
    destruct Hw as [-> Hg]. simpl. by rewrite lookup_insert_eq.
  - intros body. apply createPortfolioAsset_recomputes.
  - intros body. apply updatePortfolioAsset_recomputes.
Qed.

Lemma lossGain_recomputed_witness :
  (portfolioAsset sample_db1 !! "pa1"%string = Some sample_row /\
   lossGain sample_row = ((12 - 8) * 10)%Q) /\
  (portfolioAsset sample_db2 !! "pa1"%string = Some sample_row2 /\
   lossGain sample_row2 = ((15 - 8) * 10)%Q).
Proof.
  split.
  - apply (proj1 (lossGain_recomputed no_strings sample_db sample_db1 "pa1" sample_row)
             sample_create).
    vm_compute. reflexivity.
  - apply (proj1 (proj2 (lossGain_recomputed no_strings sample_db1 sample_db2 "pa1"
                           sample_row2))
             sample_update).
    vm_compute. reflexivity.
Defined.


(** ** The weekly key away from UTC *)

Import Trends.

(** C7, where the code departs from it.  In a process three hours east
    of UTC, two deposits of the same Tuesday evening, two hours apart,
    belong to the same week in the local and in the UTC calendar, yet
    they get different keys, one of them a Saturday, and end in two
    buckets of count 1.  The key is taken from the UTC date of an
    instant that was moved to Sunday in local time. *)
Theorem getGroupKey_weekly_splits_week :
  toISOString tuesday_evening = "2024-01-02T20:00:00.000Z"%string /\
  toISOString tuesday_night = "2024-01-02T22:00:00.000Z"%string /\
  weekStartDay EAT tuesday_evening = weekStartDay EAT tuesday_night /\
  weekStartDay 0 tuesday_evening = weekStartDay 0 tuesday_night /\
  isoDate (weekStartDay EAT tuesday_evening * msPerDay) = "2023-12-31"%string /\
  getGroupKey EAT "weekly" tuesday_evening = Some "2023-12-31"%string /\
  getGroupKey EAT "weekly" tuesday_night = Some "2023-12-30"%string /\
  WeekDay (default 0 (Date_parse_day "2023-12-30")) = 6 /\
  trends EAT (Some "weekly"%string)
         [deposit_at 100 tuesday_evening; deposit_at 250 tuesday_night] []
  = Some (<["2023-12-31"%string := one_deposit "2023-12-31" 100]>
            {["2023-12-30"%string := one_deposit "2023-12-30" 250]}).
Proof.
  repeat split; reflexivity.
Qed.

(** * Further properties *)

(** ** Role middleware *)

Lemma includes_elem_of (allowedRoles : list string) (r : string) :
  RoleMiddleware.includes allowedRoles r = true <-> r ∈ allowedRoles.
Proof.
  unfold RoleMiddleware.includes. rewrite existsb_exists. split.
  - intros (x & Hx & Heq). apply String.eqb_eq in Heq. subst.
    by apply list_elem_of_In.
  - intros Hr. exists r. split; [by apply list_elem_of_In | apply String.eqb_refl].
Qed.

(** The middleware calls [next()] exactly for a user whose role is not
    empty and is one of the allowed roles. *)
Ltac solve_roles :=
  repeat first [rewrite elem_of_cons | rewrite elem_of_nil]; intuition congruence.

Lemma requireRole_Next (allowedRoles : list string) (user : option RoleMiddleware.AuthUser) :
  RoleMiddleware.requireRole allowedRoles user = RoleMiddleware.Next <->
  exists u, user = Some u /\ RoleMiddleware.role u <> ""%string /\
            RoleMiddleware.role u ∈ allowedRoles.
Proof.
  unfold RoleMiddleware.requireRole. destruct user as [u |].
  - destruct (String.eqb_spec (RoleMiddleware.role u) "") as [He | He].
    + split; [done |]. intros (u' & [= <-] & Hne & _). done.
    + destruct (RoleMiddleware.includes allowedRoles (RoleMiddleware.role u)) eqn:Hi; simpl.
      * split; [| done]. intros _. exists u. by rewrite <- includes_elem_of.
      * split; [done |]. intros (u' & [= <-] & _ & Hin).
        apply includes_elem_of in Hin. congruence.
  - split; [done |]. by intros (u & ? & _).
Qed.

(** A longer list of allowed roles lets through every request that a
    shorter one lets through.  So whoever passes [requireSuperAdmin]
    passes [requireAdmin], and whoever passes [requireAdmin] passes
    [requireManager]. *)
Theorem requireRole_monotone (user : option RoleMiddleware.AuthUser) :
  (forall allowed allowed' : list string,
     allowed ⊆ allowed' ->
     RoleMiddleware.requireRole allowed user = RoleMiddleware.Next ->
     RoleMiddleware.requireRole allowed' user = RoleMiddleware.Next) /\
  (RoleMiddleware.requireSuperAdmin user = RoleMiddleware.Next ->
   RoleMiddleware.requireAdmin user = RoleMiddleware.Next) /\
  (RoleMiddleware.requireAdmin user = RoleMiddleware.Next ->
   RoleMiddleware.requireManager user = RoleMiddleware.Next).
Proof.
  assert (Hmono : forall allowed allowed' : list string,
             allowed ⊆ allowed' ->
             RoleMiddleware.requireRole allowed user = RoleMiddleware.Next ->
             RoleMiddleware.requireRole allowed' user = RoleMiddleware.Next).
  { intros allowed allowed' Hsub. rewrite !requireRole_Next.
    intros (u & -> & Hne & Hin). exists u. repeat split; auto. }
  split; [exact Hmono |].
  split; apply Hmono; intros r; solve_roles.
Qed.

Lemma requireRole_monotone_witness :
  RoleMiddleware.requireAdmin (Some RoleMiddleware.super_admin_user) = RoleMiddleware.Next /\
  RoleMiddleware.requireManager (Some RoleMiddleware.admin_user) = RoleMiddleware.Next.
Proof.
  split.
  - apply (proj1 (proj2 (requireRole_monotone (Some RoleMiddleware.super_admin_user)))).
    reflexivity.
  - apply (proj2 (proj2 (requireRole_monotone (Some RoleMiddleware.admin_user)))).
    reflexivity.
Defined.

(** [requireOwnerOrAdmin] calls [next()] exactly for an admin, whatever
    the owner lookup would do, and for the owner of the resource. *)
Theorem requireOwnerOrAdmin_Next (getResourceOwnerId : unit -> option string)
    (user : option RoleMiddleware.AuthUser) :
  RoleMiddleware.requireOwnerOrAdmin getResourceOwnerId user = RoleMiddleware.Next <->
  exists u, user = Some u /\
    (RoleMiddleware.role u = "SUPER_ADMIN"%string \/
     RoleMiddleware.role u = "ADMIN"%string \/
     getResourceOwnerId tt = Some (RoleMiddleware.id u)).
Proof.
  unfold RoleMiddleware.requireOwnerOrAdmin. destruct user as [u |].
  2:{ split; [done |]. by intros (u & ? & _). }
  destruct (RoleMiddleware.includes _ (RoleMiddleware.role u)) eqn:Hi.
  - split; [| done]. intros _. exists u. split; [done |].
    apply includes_elem_of in Hi. revert Hi. solve_roles.
  - assert (Hn : ~ RoleMiddleware.role u ∈ ["SUPER_ADMIN"%string; "ADMIN"%string]).
    { rewrite <- includes_elem_of. congruence. }
    destruct (getResourceOwnerId tt) as [ownerId |] eqn:Ho.
    + destruct (String.eqb_spec (RoleMiddleware.id u) ownerId) as [Heq | Hne].
      * split; [| done]. intros _. exists u. rewrite Heq. auto.
      * split; [done |]. intros (u' & [= <-] & [H | [H | H]]);
          [| | congruence]; exfalso; apply Hn; rewrite H; solve_roles.
    + split; [done |]. intros (u' & [= <-] & [H | [H | H]]);
        [| | congruence]; exfalso; apply Hn; rewrite H; solve_roles.
Qed.

(** ** Reading one activity *)

(** [getActivityDetail] hands out an activity only to a signed-in
    caller who is staff or whose own activity it is; it answers 401
    before it looks anything up and 404 before it checks the owner. *)
Theorem getActivityDetail_access (user : option ActivityDetail.AuthUser) (id : string)
    (table : gmap string ActivityLogs.ActivityLog) (a : ActivityLogs.ActivityLog) :
  ActivityDetail.getActivityDetail user id table = ActivityDetail.Found a <->
  exists u, user = Some u /\ ActivityDetail.userId u <> ""%string /\
    table !! id = Some a /\
    (ActivityDetail.is_staff (ActivityDetail.role u) = true \/
     ActivityLogs.userId (ActivityLogs.data a) = ActivityDetail.userId u).
Proof.
  unfold ActivityDetail.getActivityDetail.
  destruct user as [u |]; simpl.
  2:{ split; [done |]. by intros (u & ? & _). }
  destruct (String.eqb_spec (ActivityDetail.userId u) "") as [He | He].
  { split; [done |]. intros (u' & [= <-] & Hne & _). done. }
  destruct (table !! id) as [a' |] eqn:Ht.
  2:{ split; [done |]. intros (u' & _ & _ & Hl & _). done. }
  destruct (ActivityDetail.is_staff (ActivityDetail.role u)) eqn:Hs; simpl.
  - split.
    + intros [= ->]. exists u. auto.
    + intros (u' & _ & _ & [= ->] & _). done.
  - destruct (String.eqb_spec
                (ActivityLogs.userId (ActivityLogs.data a')) (ActivityDetail.userId u))
      as [Ho | Ho]; simpl.
    + split.
      * intros [= ->]. exists u. auto.
      * intros (u' & _ & _ & [= ->] & _). done.
    + split; [done |].
      intros (u' & [= <-] & _ & [= ->] & [H | H]); congruence.
Qed.

(** A caller who is not staff never reads the activity of another
    user: for an activity that exists and is not theirs the answer is
    403, for an identifier that does not exist it is 404. *)
Theorem getActivityDetail_others (u : ActivityDetail.AuthUser) (id : string)
    (table : gmap string ActivityLogs.ActivityLog) :
  ActivityDetail.userId u <> ""%string ->
  ActivityDetail.is_staff (ActivityDetail.role u) = false ->
  ActivityDetail.getActivityDetail (Some u) id table
  = match table !! id with
    | None => ActivityDetail.Error 404 "Activity not found"
    | Some a =>
        if String.eqb (ActivityLogs.userId (ActivityLogs.data a)) (ActivityDetail.userId u)
        then ActivityDetail.Found a
        else ActivityDetail.Error 403 "Access denied"
    end.
Proof.
  intros Hu Hs. unfold ActivityDetail.getActivityDetail. simpl.
  destruct (String.eqb_spec (ActivityDetail.userId u) "") as [He | He]; [done |].
  destruct (table !! id) as [a |]; [| done].
  rewrite Hs. simpl. by destruct (String.eqb _ _).
Qed.

Lemma getActivityDetail_others_witness :
  ActivityDetail.getActivityDetail
    (Some {| ActivityDetail.userId := "u1"; ActivityDetail.role := "USER" |})
    "a2" ActivityDetail.sample_table
  = ActivityDetail.Error 403 "Access denied".
Proof.
  rewrite (getActivityDetail_others
             {| ActivityDetail.userId := "u1"; ActivityDetail.role := "USER" |}
             "a2" ActivityDetail.sample_table); [reflexivity | done | reflexivity].
Defined.

(** ** Slugs *)

Ltac case_codes :=
  repeat match goal with
    | |- context [(?a <=? ?b)%N] => destruct (N.leb_spec a b)
    | |- context [(?a =? ?b)%N] => destruct (N.eqb_spec a b)
    | H : context [(?a <=? ?b)%N] |- _ => destruct (N.leb_spec a b)
    | H : context [(?a =? ?b)%N] |- _ => destruct (N.eqb_spec a b)
    end;
  simpl in *; try done; try lia.

Lemma toLowerCase_char_not_upper (c : ascii) :
  Slug.is_upper (Slug.toLowerCase_char c) = false.
Proof.
  unfold Slug.toLowerCase_char.
  destruct (Slug.is_upper c) eqn:Hu; [| done].
  unfold Slug.is_upper, Slug.code in *.
  assert (65 <= N_of_ascii c <= 90)%N as Hc by (revert Hu; case_codes).
  rewrite N_ascii_embedding by lia. case_codes.
Qed.

Lemma slug_char_fixed (c : ascii) :
  Slug.slug_char c = true ->
  Slug.toLowerCase_char c = c /\ Js.is_space c = false /\
  (Slug.is_word c || Slug.is_dash c) = true.
Proof.
  unfold Slug.slug_char, Slug.toLowerCase_char, Slug.is_word, Slug.is_dash,
    Slug.is_upper, Slug.is_lower, Slug.is_digit, Js.is_space, Slug.code.
  intros H.
  assert (Hu : ((65 <=? N_of_ascii c) && (N_of_ascii c <=? 90))%N = false)
    by (revert H; case_codes).
  rewrite Hu. repeat split; revert H; case_codes.
Qed.

Lemma kept_is_slug_char (c : ascii) :
  Slug.is_upper c = false ->
  (Slug.is_word c || Slug.is_dash c) = true -> Slug.slug_char c = true.
Proof.
  unfold Slug.slug_char, Slug.is_word. intros ->. done.
Qed.

(** After the white space is replaced no character is upper case:
    those of the title were lowered and the dash is not a letter. *)
Lemma replace_spaces_not_upper (in_run : bool) (s : string) :
  Slug.string_forall (fun c => negb (Slug.is_upper c))
    (Slug.replace_spaces in_run (Slug.toLowerCase s)) = true.
Proof.
  revert in_run. induction s as [| c s IH]; intros in_run; simpl; [done |].
  destruct (Js.is_space (Slug.toLowerCase_char c)).
  - destruct in_run; simpl; auto.
  - simpl. by rewrite toLowerCase_char_not_upper, IH.
Qed.

Lemma remove_special_slug_chars (s : string) :
  Slug.string_forall (fun c => negb (Slug.is_upper c)) s = true ->
  Slug.string_forall Slug.slug_char (Slug.remove_special s) = true.
Proof.
  induction s as [| c s IH]; simpl; [done |].
  intros [Hc Hs]%andb_prop. apply negb_true_iff in Hc.
  destruct (Slug.is_word c || Slug.is_dash c) eqn:Hk; simpl; [| auto].
  by rewrite (kept_is_slug_char c Hc Hk), IH.
Qed.

Lemma slug_fixed (s : string) :
  Slug.string_forall Slug.slug_char s = true ->
  Slug.toLowerCase s = s /\
  (forall in_run, Slug.replace_spaces in_run s = s) /\
  Slug.remove_special s = s.
Proof.
  induction s as [| c s IH]; simpl; [done |].
  intros [Hc Hs]%andb_prop.
  destruct (slug_char_fixed c Hc) as (Hl & Hsp & Hk).
  destruct (IH Hs) as (IH1 & IH2 & IH3).
  rewrite Hl, Hsp, Hk, IH1, IH3. split; [done |]. split; [| done].
  intros in_run. by rewrite IH2.
Qed.

Lemma remove_special_length (s : string) :
  (String.length (Slug.remove_special s) <= String.length s)%nat.
Proof.
  induction s as [| c s IH]; simpl; [lia |].
  destruct (Slug.is_word c || Slug.is_dash c); simpl; lia.
Qed.

Lemma replace_spaces_length (in_run : bool) (s : string) :
  (String.length (Slug.replace_spaces in_run s) <= String.length s)%nat.
Proof.
  revert in_run. induction s as [| c s IH]; intros in_run; simpl; [lia |].
  pose proof (IH true) as Ht. pose proof (IH false) as Hf.
  destruct (Js.is_space c); [destruct in_run |]; simpl; lia.
Qed.

Lemma toLowerCase_length (s : string) :
  String.length (Slug.toLowerCase s) = String.length s.
Proof. induction s as [| c s IH]; simpl; [done | by rewrite IH]. Qed.

(** The slug of an ASCII title consists of lower-case letters, digits,
    underscores and dashes only, is no longer than the title, and is
    its own slug: [generateSlug] is idempotent. *)
Theorem generateSlug_idempotent (title : string) :
  Slug.is_ascii title = true ->
  Slug.string_forall Slug.slug_char (Slug.generateSlug title) = true /\
  (String.length (Slug.generateSlug title) <= String.length title)%nat /\
  Slug.generateSlug (Slug.generateSlug title) = Slug.generateSlug title.
Proof.
  intros _.
  assert (Hs : Slug.string_forall Slug.slug_char (Slug.generateSlug title) = true).
  { unfold Slug.generateSlug. apply remove_special_slug_chars, replace_spaces_not_upper. }
  split; [exact Hs |]. split.
  - unfold Slug.generateSlug.
    etransitivity; [apply remove_special_length |].
    etransitivity; [apply replace_spaces_length |].
    by rewrite toLowerCase_length.
  - destruct (slug_fixed _ Hs) as (H1 & H2 & H3).
    unfold Slug.generateSlug at 1. by rewrite H1, H2, H3.
Qed.

Lemma generateSlug_idempotent_witness :
  Slug.generateSlug "  Hello,   World! 2024_Q1 --x" = "-hello-world-2024_q1---x"%string /\
  Slug.generateSlug "-hello-world-2024_q1---x" = "-hello-world-2024_q1---x"%string.
Proof.
  pose proof (generateSlug_idempotent "  Hello,   World! 2024_Q1 --x" eq_refl)
    as (_ & _ & H).
  split; [reflexivity | exact H].
Defined.

(** ** The portfolio asset table *)

Import PortfolioAssetStore.

Lemma pair_taken_false (db : Db) (pid aid : string) :
  pair_taken db pid aid = false ->
  forall k row, portfolioAsset db !! k = Some row ->
    ~ (portfolioId row = pid /\ assetId row = aid).
Proof.
  unfold pair_taken. intros H k row Hk Hpair.
  apply bool_decide_eq_false in H. apply H.
  exists k, row. by split.
Qed.

(** What a successful create did: the body named an existing portfolio
    and asset whose pair was free, and the new row is their row. *)
Lemma createPortfolioAsset_201 (StringToNumber : string -> number) (newId : string)
    (body : CreateBody) (db db' : Db) (row : PortfolioAsset) :
  createPortfolioAsset StringToNumber newId body db = (Row 201 row, db') ->
  db' = with_portfolioAsset db (<[newId := row]> (portfolioAsset db)) /\
  id row = newId /\
  portfolioId row ∈ portfolio db /\ is_Some (asset db !! assetId row) /\
  pair_taken db (portfolioId row) (assetId row) = false /\
  lossGain row = calcLossGain (costPrice row) (closeValue row) (stock row).
Proof.
  unfold createPortfolioAsset.
  repeat case_match; intros [= <- <-]; simpl.
  all: repeat match goal with
         | H : negb _ = false |- _ => rewrite negb_false_iff in H
         | H : bool_decide _ = true |- _ => rewrite bool_decide_eq_true in H
         end.
  all: try discriminate.
  all: split_and!; auto.
Qed.

(** The shape of the table is kept by every handler that writes it:
    rows stay under their identifier, no asset is twice in a portfolio,
    every row refers to a portfolio and an asset that exist, and every
    row carries the loss or gain of its figures.  For a create the new
    identifier is one that the table does not hold yet. *)
Theorem portfolioAsset_table_well_formed (StringToNumber : string -> number) (db : Db) :
  well_formed db ->
  (forall newId body,
     portfolioAsset db !! newId = None ->
     well_formed (createPortfolioAsset StringToNumber newId body db).2) /\
  (forall id_ body, well_formed (updatePortfolioAsset StringToNumber id_ body db).2) /\
  (forall id_, well_formed (deletePortfolioAsset id_ db).2).
Proof.
  intros Hwf. pose proof Hwf as (Hkey & Huniq & Href & Hlg). split; [| split].
  - intros newId body Hfresh.
    destruct (createPortfolioAsset StringToNumber newId body db) as [r db'] eqn:Hc.
    simpl.
    destruct r as [code | code row].
    { assert (db' = db) as ->; [| done].
      revert Hc. unfold createPortfolioAsset. repeat case_match; congruence. }
    assert (code = 201) as ->.
    { revert Hc. unfold createPortfolioAsset. repeat case_match; congruence. }
    destruct (createPortfolioAsset_201 _ _ _ _ _ _ Hc)
      as (-> & Hid & Hp & Ha & Hfree & Hg).
    unfold well_formed, keyed, unique_pairs, references_exist, lossGain_consistent.
    simpl. split_and!.
    + intros k r. rewrite lookup_insert. case_decide; [intros [= <-]; by subst | apply Hkey].
    + intros k1 k2 r1 r2. rewrite !lookup_insert.
      repeat case_decide; subst; try done.
      * intros [= <-] H2 Hp' Ha'. exfalso.
        apply (pair_taken_false _ _ _ Hfree k2 r2 H2). by split.
      * intros H1 [= <-] Hp' Ha'. exfalso.
        apply (pair_taken_false _ _ _ Hfree k1 r1 H1). by split.
      * apply Huniq.
    + intros k r. rewrite lookup_insert. case_decide; [intros [= <-]; by split | apply Href].
    + intros k r. rewrite lookup_insert. case_decide; [by intros [= <-] | apply Hlg].
  - intros id_ body. unfold updatePortfolioAsset.
    destruct (portfolioAsset db !! id_) as [current |] eqn:Hcur; simpl; [| done].
    pose proof (Hkey _ _ Hcur) as Hid.
    unfold well_formed, keyed, unique_pairs, references_exist, lossGain_consistent.
    simpl. split_and!.
    + intros k r. rewrite lookup_insert. case_decide; [intros [= <-]; by subst | apply Hkey].
    + intros k1 k2 r1 r2. rewrite !lookup_insert.
      repeat case_decide; subst; try done.
      * intros [= <-] H2. simpl. intros Hp' Ha'. by apply (Huniq _ _ _ _ Hcur H2).
      * intros H1 [= <-]. simpl. intros Hp' Ha'. by apply (Huniq _ _ _ _ H1 Hcur).
      * apply Huniq.
    + intros k r. rewrite lookup_insert.
      case_decide; [intros [= <-]; simpl; by eapply Href | apply Href].
    + intros k r. rewrite lookup_insert. case_decide; [by intros [= <-] | apply Hlg].
  - intros id_. unfold deletePortfolioAsset.
    destruct (portfolioAsset db !! id_) as [row |] eqn:Hrow; simpl; [| done].
    unfold well_formed, keyed, unique_pairs, references_exist, lossGain_consistent.
    simpl. split_and!.
    + intros k r Hk. apply lookup_delete_Some in Hk as [_ Hk]. by apply Hkey.
    + intros k1 k2 r1 r2 H1 H2.
      apply lookup_delete_Some in H1 as [_ H1]. apply lookup_delete_Some in H2 as [_ H2].
      by apply Huniq.
    + intros k r Hk. apply lookup_delete_Some in Hk as [_ Hk]. by eapply Href.
    + intros k r Hk. apply lookup_delete_Some in Hk as [_ Hk]. by eapply Hlg.
Qed.

Lemma sample_db1_well_formed : well_formed sample_db1.
Proof.
  unfold well_formed, keyed, unique_pairs, references_exist, lossGain_consistent.
  unfold sample_db1. simpl. split_and!.
  - intros k row [<- <-]%lookup_singleton_Some. done.
  - intros k1 k2 r1 r2 [<- <-]%lookup_singleton_Some [<- <-]%lookup_singleton_Some. done.
  - intros k row [<- <-]%lookup_singleton_Some. simpl. split; [set_solver |].
    exists 12%Q. done.
  - intros k row [<- <-]%lookup_singleton_Some. done.
Qed.

Lemma portfolioAsset_table_well_formed_witness :
  well_formed sample_db1 /\
  well_formed (createPortfolioAsset no_strings "pa2" sample_create sample_db1).2 /\
  well_formed (updatePortfolioAsset no_strings "pa1" sample_update sample_db1).2 /\
  well_formed (deletePortfolioAsset "pa1" sample_db1).2.
Proof.
  split; [exact sample_db1_well_formed |].
  destruct (portfolioAsset_table_well_formed no_strings sample_db1 sample_db1_well_formed)
    as (Hc & Hu & Hd).
  split; [apply Hc; vm_compute; reflexivity |].
  split; [apply Hu | apply Hd].
Defined.

Lemma with_portfolioAsset_same (db : Db) :
  with_portfolioAsset db (portfolioAsset db) = db.
Proof. by destruct db. Qed.

Lemma pair_taken_insert (db : Db) (k : string) (row : PortfolioAsset) :
  portfolioAsset db !! k = None ->
  pair_taken (with_portfolioAsset db (<[k := row]> (portfolioAsset db)))
             (portfolioId row) (assetId row) = true.
Proof.
  intros Hfresh. unfold pair_taken. apply bool_decide_eq_true. simpl.
  exists k, row. by rewrite lookup_insert_eq.
Qed.

(** A row that was created can be read back under its identifier, the
    same portfolio and asset cannot be added a second time (409, nothing
    written), and deleting the row gives back the table as it was before
    the create. *)
Theorem createPortfolioAsset_round_trip (StringToNumber : string -> number)
    (newId : string) (body : CreateBody) (db db' : Db) (row : PortfolioAsset) :
  portfolioAsset db !! newId = None ->
  createPortfolioAsset StringToNumber newId body db = (Row 201 row, db') ->
  getPortfolioAssetById newId db' = Row 200 row /\
  (forall otherId, createPortfolioAsset StringToNumber otherId body db' = (Status 409, db')) /\
  deletePortfolioAsset newId db' = (Status 204, db).
Proof.
  intros Hfresh Hc.
  destruct (createPortfolioAsset_201 _ _ _ _ _ _ Hc) as (-> & Hid & Hp & Ha & Hfree & Hg).
  split_and!.
  - unfold getPortfolioAssetById. simpl. by rewrite lookup_insert_eq.
  - intros otherId.
    pose proof (pair_taken_insert db newId row Hfresh) as Htaken.
    revert Hc Htaken. unfold createPortfolioAsset. simpl.
    repeat case_match; try congruence.
    all: intros [= <- _]; simpl; congruence.
  - unfold deletePortfolioAsset. simpl. rewrite lookup_insert_eq.
    unfold with_portfolioAsset. simpl.
    rewrite delete_insert_id by done. by destruct db.
Qed.

Lemma createPortfolioAsset_round_trip_witness :
  getPortfolioAssetById "pa1" sample_db1 = Row 200 sample_row /\
  (forall otherId,
     createPortfolioAsset no_strings otherId sample_create sample_db1
     = (Status 409, sample_db1)) /\
  deletePortfolioAsset "pa1" sample_db1 = (Status 204, sample_db).
Proof.
  apply (createPortfolioAsset_round_trip no_strings "pa1" sample_create sample_db
           sample_db1 sample_row).
  - reflexivity.
  - vm_compute. reflexivity.
Defined.

Lemma toNum_keeps (StringToNumber : string -> number) (v : value) (cur : Q) :
  keeps_current StringToNumber v ->
  (if negb (is_undefined v) then toNum StringToNumber v cur else cur) = cur.
Proof.
  intros [-> | Hinf]; [done |].
  unfold toNum. destruct (is_undefined v); simpl; [done |].
  by destruct (Number StringToNumber v).
Qed.

(** An update whose fields are all absent or not numbers changes
    nothing: it answers 200 with the stored row and leaves the table as
    it is, for a row that carries the loss or gain of its figures. *)
Theorem updatePortfolioAsset_without_figures (StringToNumber : string -> number)
    (id_ : string) (body : UpdateBody) (db : Db) (current : PortfolioAsset) :
  portfolioAsset db !! id_ = Some current ->
  lossGain current = calcLossGain (costPrice current) (closeValue current) (stock current) ->
  keeps_current StringToNumber (u_stock body) ->
  keeps_current StringToNumber (u_costPrice body) ->
  keeps_current StringToNumber (u_closeValue body) ->
  updatePortfolioAsset StringToNumber id_ body db = (Row 200 current, db).
Proof.
  intros Hcur Hlg Hs Hc Hv. unfold updatePortfolioAsset. rewrite Hcur.
  rewrite !toNum_keeps by done. rewrite <- Hlg.
  assert ({| id := id current; portfolioId := portfolioId current;
             assetId := assetId current; stock := stock current;
             costPrice := costPrice current; closeValue := closeValue current;
             lossGain := lossGain current |} = current) as -> by by destruct current.
  rewrite insert_id by done. by rewrite with_portfolioAsset_same.
Qed.

Lemma updatePortfolioAsset_without_figures_witness :
  updatePortfolioAsset no_strings "pa1" sample_body_text sample_db1
  = (Row 200 sample_row, sample_db1).
Proof.
  apply updatePortfolioAsset_without_figures.
  - reflexivity.
  - reflexivity.
  - right. reflexivity.
  - left. reflexivity.
  - right. reflexivity.
Defined.

(** ** The asset table *)

Lemma falsy_false (s : option string) :
  Assets.falsy s = false -> exists x, s = Some x /\ x <> ""%string.
Proof.
  unfold Assets.falsy, nonempty. destruct s as [x |]; [| done].
  rewrite negb_false_iff, negb_true_iff. intros H. exists x. split; [done |].
  by apply String.eqb_neq.
Qed.

Lemma num_finite (parseFloat : string -> number) (v : value) :
  exists q, Assets.num parseFloat v (of_Z 0) = Num q.
Proof.
  unfold Assets.num.
  destruct (match v with VString s => parseFloat s | _ => Number (fun _ => NaN) v end)
    as [q | | |]; simpl; eauto.
Qed.

Lemma max_zero_at_least (q : Q) : Assets.at_least 0 (Js.max (of_Z 0) (Num q)).
Proof.
  unfold Assets.at_least, Js.max, of_Z, Js.lt. simpl.
  change (inject_Z 0) with 0%Q.
  destruct (Qle_bool q 0) eqn:E; simpl.
  - exists 0%Q. split; [done | lra].
  - exists q. split; [done |].
    destruct (Qlt_le_dec 0 q) as [H | H]; [lra |].
    apply Qle_bool_iff in H. congruence.
Qed.

Lemma clamp_between (q : Q) :
  Assets.between 0 100 (Assets.clamp (Num q) (of_Z 0) (of_Z 100)).
Proof.
  unfold Assets.between, Assets.clamp, Js.min, Js.max, of_Z, Js.lt. simpl.
  change (inject_Z 0) with 0%Q. change (inject_Z 100) with 100%Q.
  destruct (Qle_bool q 0) eqn:E0; simpl.
  - exists 0%Q. split; [done | lra].
  - assert (0 < q)%Q as Hq.
    { destruct (Qlt_le_dec 0 q) as [H | H]; [done |].
      apply Qle_bool_iff in H. congruence. }
    destruct (Qle_bool 100 q) eqn:E1; simpl.
    + exists 100%Q. split; [done | lra].
    + exists q. split; [done |].
      destruct (Qlt_le_dec q 100) as [H | H]; [lra |].
      apply Qle_bool_iff in H. congruence.
Qed.

Lemma symbol_taken_false (db : Assets.Db) (self : option string) (sym : string) :
  Assets.symbol_taken db self sym = false ->
  forall k a, Assets.asset db !! k = Some a -> Assets.symbol a = sym -> self = Some k.
Proof.
  unfold Assets.symbol_taken. intros H k a Hk Hs.
  apply bool_decide_eq_false in H.
  destruct (decide (self = Some k)) as [| Hne]; [done |].
  exfalso. apply H. exists k, a. done.
Qed.

Lemma symbol_taken_true (db : Assets.Db) (self : option string) (k : string)
    (a : Assets.Asset) :
  Assets.asset db !! k = Some a -> self <> Some k ->
  Assets.symbol_taken db self (Assets.symbol a) = true.
Proof.
  intros Hk Hne. unfold Assets.symbol_taken. apply bool_decide_eq_true.
  exists k, a. done.
Qed.

Lemma findUnique_symbol_Some (db : Assets.Db) (k : string) (a : Assets.Asset) :
  Assets.well_formed db -> Assets.asset db !! k = Some a ->
  Assets.findUnique_symbol db (Assets.symbol a) = Some a.
Proof.
  intros [_ Huniq] Hk. unfold Assets.findUnique_symbol.
  destruct (list_find_elem_of (fun kv : string * Assets.Asset =>
              Assets.symbol kv.2 = Assets.symbol a)
              (map_to_list (Assets.asset db)) (k, a)) as [[i [k' a']] Hfind].
  { by apply elem_of_map_to_list. }
  { done. }
  rewrite Hfind. simpl.
  apply list_find_Some in Hfind as (Hi & Hs & _). simpl in Hs.
  apply list_elem_of_lookup_2, elem_of_map_to_list in Hi.
  assert (k' = k) as -> by by eapply Huniq.
  congruence.
Qed.

Lemma findUnique_symbol_None (db : Assets.Db) (sym : string) :
  Assets.findUnique_symbol db sym = None ->
  forall k a, Assets.asset db !! k = Some a -> Assets.symbol a <> sym.
Proof.
  unfold Assets.findUnique_symbol. intros H k a Hk Hs.
  destruct (list_find_elem_of (fun kv : string * Assets.Asset => Assets.symbol kv.2 = sym)
              (map_to_list (Assets.asset db)) (k, a)) as [x Hfind].
  { by apply elem_of_map_to_list. }
  { done. }
  by rewrite Hfind in H.
Qed.

Lemma inUse_pos (db : Assets.Db) (id_ : string) :
  (0 <? Assets.inUse db id_)%nat = true <->
  exists k row, Assets.portfolioAsset db !! k = Some row /\ assetId row = id_.
Proof.
  unfold Assets.inUse. rewrite Nat.ltb_lt. split.
  - intros H.
    destruct (map_size_ne_0_lookup_1
                (filter (fun kv : string * PortfolioAsset => assetId kv.2 = id_)
                        (Assets.portfolioAsset db))) as (k & row & Hk); [lia |].
    apply map_lookup_filter_Some in Hk as [Hk Hp]. by exists k, row.
  - intros (k & row & Hk & Hp).
    assert (size (filter (fun kv : string * PortfolioAsset => assetId kv.2 = id_)
                         (Assets.portfolioAsset db)) <> 0)%nat; [| lia].
    apply (map_size_ne_0_lookup_2 _ k). exists row.
    apply map_lookup_filter_Some. done.
Qed.

Section AssetTable.

Import Assets.

Variables (trim toUpperCase : string -> string) (parseFloat : string -> number).

(** What a successful create did. *)
Lemma createAsset_201 (newId : string) (body : Body) (db db' : Db) (a : Asset) :
  createAsset trim toUpperCase parseFloat newId body db = (Data 201 a, db') ->
  db' = with_asset db (<[newId := a]> (asset db)) /\
  id a = newId /\ valid a /\
  symbol a = toUpperCase (trim (default ""%string (b_symbol body))) /\
  symbol_taken db None (symbol a) = false.
Proof.
  unfold createAsset. simpl.
  destruct (falsy (Some _)) eqn:Hsym; simpl; [congruence |].
  destruct (falsy (b_description body)) eqn:Hdesc; simpl; [congruence |].
  destruct (falsy (b_sector body)) eqn:Hsec; simpl; [congruence |].
  destruct (symbol_taken db None _) eqn:Htaken; [congruence |].
  intros [= <- <-]. simpl.
  apply falsy_false in Hsym as (x & [= <-] & Hx).
  apply falsy_false in Hdesc as (d & -> & Hd).
  apply falsy_false in Hsec as (s & -> & Hs).
  split_and!; try done.
  unfold valid. simpl. split_and!; try done.
  - destruct (num_finite parseFloat (b_allocationPercentage body)) as [q ->].
    apply clamp_between.
  - destruct (num_finite parseFloat (b_costPerShare body)) as [q ->].
    apply max_zero_at_least.
  - destruct (num_finite parseFloat (b_closePrice body)) as [q ->].
    apply max_zero_at_least.
Qed.

Lemma createAsset_writes (newId : string) (body : Body) (db : Db) :
  (exists a, createAsset trim toUpperCase parseFloat newId body db
             = (Data 201 a, with_asset db (<[newId := a]> (asset db)))) \/
  (exists code, createAsset trim toUpperCase parseFloat newId body db = (Status code, db)).
Proof.
  unfold createAsset. repeat case_match; eauto.
Qed.

Lemma update_text_inr (given value : option string) (current text : string) :
  current <> ""%string ->
  update_text given value current = inr text -> text <> ""%string.
Proof.
  unfold update_text. destruct given; [| by intros ? [= <-]].
  destruct (falsy value) eqn:E; [done |].
  apply falsy_false in E as (x & -> & Hx). by intros _ [= <-].
Qed.

Lemma update_figure_between (given : value) (q : Q) (current : number) :
  between 0 100 current ->
  between 0 100 (update_figure given (clamp (Num q) (of_Z 0) (of_Z 100)) current).
Proof.
  unfold update_figure. destruct (is_undefined given); [done |].
  intros _. apply clamp_between.
Qed.

Lemma update_figure_at_least (given : value) (q : Q) (current : number) :
  at_least 0 current ->
  at_least 0 (update_figure given (Js.max (of_Z 0) (Num q)) current).
Proof.
  unfold update_figure. destruct (is_undefined given); [done |].
  intros _. apply max_zero_at_least.
Qed.

(** What a successful update did. *)
Lemma updateAsset_200 (id_ : string) (body : Body) (db db' : Db) (a current : Asset) :
  asset db !! id_ = Some current -> valid current ->
  updateAsset trim toUpperCase parseFloat id_ body db = (Data 200 a, db') ->
  db' = with_asset db (<[id_ := a]> (asset db)) /\
  id a = id current /\ valid a /\
  (symbol_taken db (Some id_) (symbol a) = false \/ symbol a = symbol current).
Proof.
  intros Hcur (Hs & Hd & Hc & Ha & Hp & Hq). unfold updateAsset. rewrite Hcur.
  destruct (update_text (b_symbol body) _ _) as [| symbol_] eqn:E1; [congruence |].
  destruct (update_text (b_description body) _ _) as [| description_] eqn:E2; [congruence |].
  destruct (update_text (b_sector body) _ _) as [| sector_] eqn:E3; [congruence |].
  destruct (match b_symbol body with Some _ => _ | None => false end) eqn:Htaken;
    [congruence |].
  intros [= <- <-]. simpl. split_and!; try done.
  2:{ destruct (b_symbol body); [by left |]. right. simpl in E1. congruence. }
  unfold valid. simpl. split_and!.
  - exact (update_text_inr _ _ _ _ Hs E1).
  - exact (update_text_inr _ _ _ _ Hd E2).
  - exact (update_text_inr _ _ _ _ Hc E3).
  - destruct (num_finite parseFloat (b_allocationPercentage body)) as [q ->].
    by apply update_figure_between.
  - destruct (num_finite parseFloat (b_costPerShare body)) as [q ->].
    by apply update_figure_at_least.
  - destruct (num_finite parseFloat (b_closePrice body)) as [q ->].
    by apply update_figure_at_least.
Qed.

Lemma updateAsset_writes (id_ : string) (body : Body) (db : Db) :
  (exists a, updateAsset trim toUpperCase parseFloat id_ body db
             = (Data 200 a, with_asset db (<[id_ := a]> (asset db)))) \/
  (exists code, updateAsset trim toUpperCase parseFloat id_ body db = (Status code, db)).
Proof.
  unfold updateAsset. repeat case_match; eauto.
Qed.

Lemma well_formed_insert (db : Db) (k : string) (a : Asset) (self : option string) :
  well_formed db -> id a = k -> valid a ->
  (symbol_taken db self (symbol a) = false \/
   exists current, asset db !! k = Some current /\ symbol a = symbol current) ->
  (self = None /\ asset db !! k = None \/ self = Some k) ->
  well_formed (with_asset db (<[k := a]> (asset db))).
Proof.
  intros [Hrows Huniq] Hid Hvalid Hfree Hself. split; simpl.
  - intros k' a'. rewrite lookup_insert. case_decide; [| apply Hrows].
    intros [= <-]. by subst.
  - assert (forall k' a', k' <> k -> asset db !! k' = Some a' -> symbol a' <> symbol a)
      as Hother.
    { intros k' a' Hne Hk' Hs. destruct Hfree as [Hfree | (current & Hcur & Hsame)].
      - pose proof (symbol_taken_false _ _ _ Hfree k' a' Hk' Hs) as Hk.
        destruct Hself as [[-> _] | ->]; congruence.
      - apply Hne. apply (Huniq _ _ _ _ Hk' Hcur). congruence. }
    intros k1 k2 a1 a2. rewrite !lookup_insert.
    repeat case_decide; subst; try done.
    + intros [= <-] H2 Hs. exfalso. by eapply Hother.
    + intros H1 [= <-] Hs. exfalso. by eapply Hother.
    + apply Huniq.
Qed.

(** Every handler keeps the asset table in shape: a row is stored under
    its identifier, its symbol, description and sector are not empty,
    its allocation is within 0 and 100, its cost per share and close
    price are not negative, and no two rows have the same symbol;
    whatever the request bodies hold.  For a create the new identifier
    is one that the table does not hold yet. *)
Theorem asset_table_well_formed (db : Db) :
  well_formed db ->
  (forall newId body,
     asset db !! newId = None ->
     well_formed (createAsset trim toUpperCase parseFloat newId body db).2) /\
  (forall id_ body,
     well_formed (updateAsset trim toUpperCase parseFloat id_ body db).2) /\
  (forall id_, well_formed (deleteAsset id_ db).2).
Proof.
  intros Hwf. split_and!.
  - intros newId body Hfresh.
    destruct (createAsset_writes newId body db) as [[a Hc] | [code Hc]];
      rewrite Hc; [| done]. simpl.
    destruct (createAsset_201 _ _ _ _ _ Hc) as (_ & Hid & Hvalid & _ & Hfree).
    apply (well_formed_insert db newId a None); auto.
  - intros id_ body.
    destruct (updateAsset_writes id_ body db) as [[a Hu] | [code Hu]];
      rewrite Hu; [| done]. simpl.
    destruct (asset db !! id_) as [current |] eqn:Hcur.
    + destruct (proj1 Hwf _ _ Hcur) as [Hidc Hvc].
      destruct (updateAsset_200 _ _ _ _ _ _ Hcur Hvc Hu) as (_ & Hid & Hvalid & Hfree).
      apply (well_formed_insert db id_ a (Some id_)); auto; [congruence |].
      destruct Hfree as [Hfree | Hsame]; [by left | right; by exists current].
    + revert Hu. unfold updateAsset. rewrite Hcur. congruence.
  - intros id_. unfold deleteAsset. repeat case_match; try done. simpl.
    destruct Hwf as [Hrows Huniq]. split; simpl.
    + intros k' a' Hk. apply lookup_delete_Some in Hk as [_ Hk]. by apply Hrows.
    + intros k1 k2 a1 a2 H1 H2.
      apply lookup_delete_Some in H1 as [_ H1]. apply lookup_delete_Some in H2 as [_ H2].
      by apply Huniq.
Qed.

(** A created asset is found under its identifier and under every
    spelling of its symbol that [normalizeSymbol] maps to the same
    text, and a second create with such a symbol writes nothing: it is
    refused with 400 if its description or sector is missing, and with
    409 otherwise. *)
Theorem createAsset_then_lookup (newId : string) (body : Body) (db db' : Db) (a : Asset) :
  well_formed db -> asset db !! newId = None ->
  createAsset trim toUpperCase parseFloat newId body db = (Data 201 a, db') ->
  getAssetById newId db' = Data 200 a /\
  (forall param,
     normalizeSymbol trim toUpperCase (Some param)
     = normalizeSymbol trim toUpperCase (Some (default ""%string (b_symbol body))) ->
     getAssetBySymbol trim toUpperCase param db' = Data 200 a) /\
  (forall otherId body',
     normalizeSymbol trim toUpperCase (Some (default ""%string (b_symbol body')))
     = normalizeSymbol trim toUpperCase (Some (default ""%string (b_symbol body))) ->
     createAsset trim toUpperCase parseFloat otherId body' db'
     = (Status (if falsy (b_description body') || falsy (b_sector body')
                then 400 else 409), db')).
Proof.
  intros Hwf Hfresh Hc.
  destruct (createAsset_201 _ _ _ _ _ Hc) as (-> & Hid & Hvalid & Hsym & Hfree).
  assert (well_formed (with_asset db (<[newId := a]> (asset db)))) as Hwf'.
  { apply (well_formed_insert db newId a None); auto. }
  assert (asset (with_asset db (<[newId := a]> (asset db))) !! newId = Some a) as Hnew.
  { simpl. by rewrite lookup_insert_eq. }
  split_and!.
  - unfold getAssetById. by rewrite Hnew.
  - intros param Hnorm. unfold getAssetBySymbol. rewrite Hnorm. simpl.
    rewrite <- Hsym.
    destruct Hvalid as (Hne & _).
    unfold falsy, nonempty.
    destruct (String.eqb_spec (symbol a) "") as [| _]; [done |]. simpl.
    by rewrite (findUnique_symbol_Some _ newId a Hwf' Hnew).
  - intros otherId body' Hnorm. unfold createAsset. rewrite Hnorm. simpl.
    rewrite <- Hsym.
    rewrite (symbol_taken_true _ None newId a Hnew) by done.
    destruct Hvalid as (Hne & _).
    assert (falsy (Some (symbol a)) = false) as ->.
    { unfold falsy, nonempty in *.
      by destruct (String.eqb_spec (symbol a) "") as [| _]. }
    simpl. by destruct (falsy (b_description body') || falsy (b_sector body')).
Qed.

(** An asset that a portfolio holds is never deleted: [deleteAsset]
    answers 409 exactly when some portfolio asset refers to the asset,
    and then the tables are as before.  So every portfolio asset keeps
    an asset that exists.  Deleting an asset that does not exist is
    answered with 500. *)
Theorem deleteAsset_keeps_references (id_ : string) (db : Db) :
  no_dangling db ->
  no_dangling (deleteAsset id_ db).2 /\
  ((deleteAsset id_ db).1 = Status 409 <->
   exists k row, portfolioAsset db !! k = Some row /\ PortfolioAssets.assetId row = id_) /\
  ((deleteAsset id_ db).1 <> Status 200 -> (deleteAsset id_ db).2 = db) /\
  ((deleteAsset id_ db).1 = Status 200 ->
   is_Some (asset db !! id_) /\ getAssetById id_ (deleteAsset id_ db).2 = Status 404) /\
  (inUse db id_ = 0%nat -> asset db !! id_ = None -> (deleteAsset id_ db).1 = Status 500).
Proof.
  intros Hnd. unfold deleteAsset.
  destruct (0 <? inUse db id_)%nat eqn:Huse; simpl.
  - split; [done |]. split; [| split; [done |]; split; [done |]].
    + split; [intros _; by apply inUse_pos | done].
    + intros H0. rewrite H0 in Huse. done.
  - assert (~ exists k row, portfolioAsset db !! k = Some row /\
                            PortfolioAssets.assetId row = id_) as Hfree.
    { intros H. apply inUse_pos in H. congruence. }
    destruct (asset db !! id_) as [a |] eqn:Ha; simpl.
    + split; [| split; [| split; [done |]; split; [| done]]].
      * intros k row Hk. simpl.
        destruct (decide (PortfolioAssets.assetId row = id_)) as [Heq | Hne].
        { exfalso. apply Hfree. by exists k, row. }
        rewrite lookup_delete_ne by done. by eapply Hnd.
      * split; [done |]. intros Href. by apply Hfree in Href.
      * intros _. split; [by eexists |].
        unfold getAssetById. simpl. by rewrite lookup_delete_eq.
    + split; [done |]. split; [| split; [done |]; split; [done | done]].
      split; [done |]. intros Href. by apply Hfree in Href.
Qed.

End AssetTable.

Lemma assets_sample_db_well_formed : Assets.well_formed Assets.sample_db.
Proof.
  split; unfold Assets.sample_db; simpl.
  - intros k a [<- <-]%lookup_singleton_Some. split; [done |].
    unfold Assets.valid, Assets.between, Assets.at_least. simpl. split_and!; try done.
    + exists 100%Q. split; [done | lra].
    + exists (25 # 2)%Q. split; [done | lra].
    + exists 0%Q. split; [done | lra].
  - by intros k1 k2 a1 a2 [<- <-]%lookup_singleton_Some [<- <-]%lookup_singleton_Some.
Qed.

Lemma assets_empty_db_well_formed : Assets.well_formed Assets.empty_db.
Proof. split; simpl; intros *; by rewrite lookup_empty. Qed.

Lemma asset_table_well_formed_witness :
  Assets.well_formed Assets.sample_db /\
  Assets.well_formed
    (Assets.createAsset Assets.trim_ascii Assets.toUpperCase_ascii no_strings
       "a2" Assets.sample_body Assets.sample_db).2 /\
  Assets.well_formed
    (Assets.updateAsset Assets.trim_ascii Assets.toUpperCase_ascii no_strings
       "a1" Assets.sample_body Assets.sample_db).2 /\
  Assets.well_formed (Assets.deleteAsset "a1" Assets.sample_db).2.
Proof.
  split; [exact assets_sample_db_well_formed |].
  destruct (asset_table_well_formed Assets.trim_ascii Assets.toUpperCase_ascii no_strings
              Assets.sample_db assets_sample_db_well_formed) as (Hc & Hu & Hd).
  split; [apply Hc; vm_compute; reflexivity |].
  split; [apply Hu | apply Hd].
Defined.

Lemma createAsset_then_lookup_witness :
  Assets.getAssetById "a1" Assets.sample_db = Assets.Data 200 Assets.sample_asset /\
  Assets.getAssetBySymbol Assets.trim_ascii Assets.toUpperCase_ascii "Aapl  "
    Assets.sample_db = Assets.Data 200 Assets.sample_asset.
Proof.
  destruct (createAsset_then_lookup Assets.trim_ascii Assets.toUpperCase_ascii no_strings
              "a1" Assets.sample_body Assets.empty_db Assets.sample_db Assets.sample_asset)
    as (Hid & Hsym & _).
  - exact assets_empty_db_well_formed.
  - reflexivity.
  - vm_compute. reflexivity.
  - split; [exact Hid |]. apply Hsym. vm_compute. reflexivity.
Defined.

Lemma deleteAsset_keeps_references_witness :
  Assets.no_dangling Assets.sample_db_held /\
  Assets.no_dangling (Assets.deleteAsset "a1" Assets.sample_db_held).2 /\
  (Assets.deleteAsset "a1" Assets.sample_db_held).1 = Assets.Status 409.
Proof.
  assert (Assets.no_dangling Assets.sample_db_held) as Hnd.
  { intros k row. unfold Assets.sample_db_held. simpl.
    intros [<- <-]%lookup_singleton_Some. simpl. by eexists. }
  split; [exact Hnd |].
  destruct (deleteAsset_keeps_references "a1" Assets.sample_db_held Hnd)
    as (Hkeep & H409 & _).
  split; [exact Hkeep |].
  apply H409. exists "pa1"%string, sample_row. split; reflexivity.
Defined.

(** ** The portfolio table *)

Lemma portfolio_clamp_between (q : Q) :
  Portfolios.between 0 100 (Portfolios.clamp (Num q) (of_Z 0) (of_Z 100)).
Proof.
  unfold Portfolios.between, Portfolios.clamp, Js.min, Js.max, of_Z, Js.lt. simpl.
  change (inject_Z 0) with 0%Q. change (inject_Z 100) with 100%Q.
  destruct (Qle_bool 0 q) eqn:E0; simpl.
  - apply Qle_bool_iff in E0.
    destruct (Qle_bool q 100) eqn:E1; simpl.
    + apply Qle_bool_iff in E1. exists q. split; [done | lra].
    + exists 100%Q. split; [done | lra].
  - exists 0%Q. split; [done | lra].
Qed.

Lemma toNumber_finite (parseFloat : string -> number) (v : value) :
  exists q, Portfolios.toNumber parseFloat v (of_Z 100) = Num q.
Proof.
  unfold Portfolios.toNumber.
  destruct (match v with VString s => parseFloat s | VNumber n => n | _ => NaN end)
    as [q | | |]; simpl; eauto.
Qed.

Lemma name_taken_false (db : Portfolios.Db) (self : option string) (n : string) :
  Portfolios.name_taken db self n = false ->
  forall k p, Portfolios.portfolio db !! k = Some p -> Portfolios.name p = n ->
    self = Some k.
Proof.
  unfold Portfolios.name_taken. intros H k p Hk Hs.
  apply bool_decide_eq_false in H.
  destruct (decide (self = Some k)) as [| Hne]; [done |].
  exfalso. apply H. exists k, p. done.
Qed.

Section PortfolioTable.

Import Portfolios.

Variable parseFloat : string -> number.

Lemma portfolio_well_formed_insert (db : Db) (k : string) (p : Portfolio)
    (self : option string) :
  well_formed db -> id p = k -> between 0 100 (allocationPercentage p) ->
  (name_taken db self (name p) = false \/
   exists current, self = Some k /\ portfolio db !! k = Some current /\
                   name p = name current) ->
  (self = None /\ portfolio db !! k = None \/ self = Some k) ->
  well_formed (with_portfolio db (<[k := p]> (portfolio db))).
Proof.
  intros [Hrows Huniq] Hid Hrange Hfree Hself. split; simpl.
  - intros k' p'. rewrite lookup_insert. case_decide; [| apply Hrows].
    intros [= <-]. by subst.
  - assert (forall k' p', k' <> k -> portfolio db !! k' = Some p' -> name p' <> name p)
      as Hother.
    { intros k' p' Hne Hk' Hs. destruct Hfree as [Hfree | (current & _ & Hcur & Hn)].
      - pose proof (name_taken_false _ _ _ Hfree k' p' Hk' Hs) as Hk.
        destruct Hself as [[-> _] | ->]; congruence.
      - apply Hne. apply (Huniq _ _ _ _ Hk' Hcur). congruence. }
    intros k1 k2 p1 p2. rewrite !lookup_insert.
    repeat case_decide; subst; try done.
    + intros [= <-] H2 Hs. exfalso. by eapply Hother.
    + intros H1 [= <-] Hs. exfalso. by eapply Hother.
    + apply Huniq.
Qed.

Lemma clamp_toNumber_between (v : value) :
  between 0 100 (clamp (toNumber parseFloat v (of_Z 100)) (of_Z 0) (of_Z 100)).
Proof.
  destruct (toNumber_finite parseFloat v) as [q ->]. apply portfolio_clamp_between.
Qed.

(** Every handler keeps the portfolio table in shape: a row is stored
    under its identifier, its allocation is within 0 and 100, and no two
    rows have the same name; whatever the request bodies hold.  For a
    create the new identifier is one that the table does not hold
    yet. *)
Theorem portfolio_table_well_formed (db : Db) :
  well_formed db ->
  (forall newId body,
     portfolio db !! newId = None ->
     well_formed (createPortfolio parseFloat newId body db).2) /\
  (forall id_ body, well_formed (updatePortfolio parseFloat id_ body db).2) /\
  (forall id_, well_formed (deletePortfolio id_ db).2).
Proof.
  intros Hwf. split; [| split].
  - intros newId body Hfresh. unfold createPortfolio.
    destruct (_ || _); [done |].
    destruct (name_taken db None _) eqn:Htaken; [done |]. simpl.
    apply (portfolio_well_formed_insert db newId _ None); simpl; auto.
    apply clamp_toNumber_between.
  - intros id_ body. unfold updatePortfolio.
    destruct (String.eqb id_ ""); [done |].
    destruct (_ && _); [done |].
    destruct (portfolio db !! id_) as [current |] eqn:Hcur; [| done].
    destruct (proj1 Hwf _ _ Hcur) as [Hid Hrange].
    destruct (b_name body) as [n |] eqn:Hname; simpl.
    + destruct (name_taken db (Some id_) n) eqn:Htaken; [done |]. simpl.
      apply (portfolio_well_formed_insert db id_ _ (Some id_)); simpl; auto.
      destruct (is_undefined _); [done | apply clamp_toNumber_between].
    + apply (portfolio_well_formed_insert db id_ _ (Some id_)); simpl; auto.
      * destruct (is_undefined _); [done | apply clamp_toNumber_between].
      * right. by exists current.
  - intros id_. unfold deletePortfolio.
    destruct (String.eqb id_ ""); [done |].
    destruct (portfolio db !! id_) as [p |] eqn:Hp; [| done]. simpl.
    destruct Hwf as [Hrows Huniq]. split; simpl.
    + intros k' p' Hk. apply lookup_delete_Some in Hk as [_ Hk]. by apply Hrows.
    + intros k1 k2 p1 p2 H1 H2.
      apply lookup_delete_Some in H1 as [_ H1]. apply lookup_delete_Some in H2 as [_ H2].
      by apply Huniq.
Qed.

(** [deletePortfolio] takes the portfolio with all of its assets and
    memberships and nothing else: after a 200 the portfolio is gone, a
    portfolio asset or membership is left exactly if it was there and
    belongs to another portfolio, and the other portfolios are as
    before; any other answer leaves every table as it was.  So rows
    that belonged to existing portfolios still do. *)
Theorem deletePortfolio_cascade (id_ : string) (db : Db) :
  no_dangling db ->
  ((deletePortfolio id_ db).1 = Status 200 ->
   getPortfolioById id_ (deletePortfolio id_ db).2 = Status 404 /\
   (forall k, k <> id_ ->
      portfolio (deletePortfolio id_ db).2 !! k = portfolio db !! k) /\
   (forall k row,
      portfolioAsset (deletePortfolio id_ db).2 !! k = Some row <->
      portfolioAsset db !! k = Some row /\ PortfolioAssets.portfolioId row <> id_) /\
   (forall k row,
      userPortfolio (deletePortfolio id_ db).2 !! k = Some row <->
      userPortfolio db !! k = Some row /\ up_portfolioId row <> id_)) /\
  ((deletePortfolio id_ db).1 <> Status 200 -> (deletePortfolio id_ db).2 = db) /\
  no_dangling (deletePortfolio id_ db).2.
Proof.
  intros [Hpa Hup]. unfold deletePortfolio, getPortfolioById.
  destruct (String.eqb id_ "") eqn:Hid; [by split_and! |].
  destruct (portfolio db !! id_) as [p |] eqn:Hp; [| by split_and!]. simpl.
  split; [| split; [done |]].
  - intros _. rewrite lookup_delete_eq. split; [done |]. split; [| split].
    + intros k Hne. by rewrite lookup_delete_ne.
    + intros k row. by rewrite map_lookup_filter_Some.
    + intros k row. by rewrite map_lookup_filter_Some.
  - split; simpl.
    + intros k row [Hk Hne]%map_lookup_filter_Some. simpl in Hne.
      rewrite lookup_delete_ne by done. by eapply Hpa.
    + intros k row [Hk Hne]%map_lookup_filter_Some. simpl in Hne.
      rewrite lookup_delete_ne by done. by eapply Hup.
Qed.

(** [updatePortfolio] stores the name that the body gives without the
    check of [createPortfolio]: the empty name, with which a create is
    refused (400), is written by an update (200) if no other portfolio
    has it. *)
Theorem updatePortfolio_empty_name (id_ newId : string) (body : Body) (db : Db)
    (current : Portfolio) :
  id_ <> ""%string -> portfolio db !! id_ = Some current ->
  b_name body = Some ""%string -> name_taken db (Some id_) "" = false ->
  createPortfolio parseFloat newId body db = (Status 400, db) /\
  exists p, updatePortfolio parseFloat id_ body db
            = (Data 200 p, with_portfolio db (<[id_ := p]> (portfolio db))) /\
            name p = ""%string.
Proof.
  intros Hid Hcur Hname Hfree. split.
  - unfold createPortfolio. by rewrite Hname.
  - unfold updatePortfolio.
    destruct (String.eqb_spec id_ "") as [| _]; [done |].
    rewrite Hname, Hcur. simpl. rewrite Hfree. eexists. split; [done |]. done.
Qed.

End PortfolioTable.

Lemma portfolios_sample_db_well_formed : Portfolios.well_formed Portfolios.sample_db.
Proof.
  split; unfold Portfolios.sample_db; simpl.
  - intros k p [<- <-]%lookup_singleton_Some. split; [done |].
    exists 100%Q. split; [done | lra].
  - by intros k1 k2 p1 p2 [<- <-]%lookup_singleton_Some [<- <-]%lookup_singleton_Some.
Qed.

Lemma portfolios_sample_db_no_dangling : Portfolios.no_dangling Portfolios.sample_db.
Proof.
  split; unfold Portfolios.sample_db; simpl.
  - intros k row [<- <-]%lookup_singleton_Some. simpl. by eexists.
  - intros k row [<- <-]%lookup_singleton_Some. simpl. by eexists.
Qed.

Lemma portfolio_table_well_formed_witness :
  Portfolios.well_formed Portfolios.sample_db /\
  Portfolios.well_formed
    (Portfolios.createPortfolio no_strings "p2" Portfolios.sample_body
       Portfolios.sample_db).2 /\
  Portfolios.well_formed
    (Portfolios.updatePortfolio no_strings "p1" Portfolios.sample_rename
       Portfolios.sample_db).2 /\
  Portfolios.well_formed (Portfolios.deletePortfolio "p1" Portfolios.sample_db).2.
Proof.
  split; [exact portfolios_sample_db_well_formed |].
  destruct (portfolio_table_well_formed no_strings Portfolios.sample_db
              portfolios_sample_db_well_formed) as (Hc & Hu & Hd).
  split; [apply Hc; vm_compute; reflexivity |].
  split; [apply Hu | apply Hd].
Defined.

Lemma deletePortfolio_cascade_witness :
  Portfolios.no_dangling Portfolios.sample_db /\
  Portfolios.deletePortfolio "p1" Portfolios.sample_db
  = (Portfolios.Status 200, Portfolios.empty_db) /\
  Portfolios.no_dangling (Portfolios.deletePortfolio "p1" Portfolios.sample_db).2.
Proof.
  split; [exact portfolios_sample_db_no_dangling |].
  split; [vm_compute; reflexivity |].
  apply (deletePortfolio_cascade "p1" Portfolios.sample_db
           portfolios_sample_db_no_dangling).
Defined.

Lemma updatePortfolio_empty_name_witness :
  Portfolios.createPortfolio no_strings "p2" Portfolios.sample_rename Portfolios.sample_db
  = (Portfolios.Status 400, Portfolios.sample_db) /\
  exists p,
    Portfolios.updatePortfolio no_strings "p1" Portfolios.sample_rename Portfolios.sample_db
    = (Portfolios.Data 200 p,
       Portfolios.with_portfolio Portfolios.sample_db
         (<["p1"%string := p]> (Portfolios.portfolio Portfolios.sample_db))) /\
    Portfolios.name p = ""%string.
Proof.
  apply (updatePortfolio_empty_name no_strings "p1" "p2" Portfolios.sample_rename
           Portfolios.sample_db Portfolios.sample_portfolio).
  - done.
  - reflexivity.
  - reflexivity.
  - vm_compute. reflexivity.
Defined.

(** ** The activity log keeps the last thirty days *)

(** Whoever asks and whatever [olderThanDays] holds, [deleteOldLogs]
    keeps every row that was created within the last thirty days of 24
    hours less the widest change of the offset of the zone: nothing in
    a zone without transitions, an hour where daylight saving is
    observed.  A caller who is not a Super Admin gets 403 and changes
    nothing. *)
Theorem deleteOldLogs_keeps_recent (zone : Zone) (lo hi now : Z) (req : Request)
    (table : list ActivityLog) (l : ActivityLog) :
  (forall t, lo <= offset_at zone t <= hi) ->
  (forall t, lo <= offset_of_local zone t <= hi) ->
  In l table ->
  now - 30 * msPerDay + (hi - lo) <= ActivityLogs.createdAt l ->
  In l (deleteOldLogs zone now req table).2 /\
  (is_super_admin (user_role req) = false ->
   deleteOldLogs zone now req table
   = ({| res_status := 403;
         res_body := ErrorBody "Access denied. Super Admin privileges required." |},
      table)).
Proof.
  intros Hat Hloc Hin Hage. unfold deleteOldLogs, deleteOldLogs_body.
  destruct (is_super_admin (user_role req)); simpl negb; cbv iota; [| by split].
  split; [| done].
  destruct (parseInt_cases (default "90"%string (body_olderThanDays req)))
    as [-> | [d ->]].
  - simpl Js.lt. cbv iota. rewrite setDate_NaN. done.
  - rewrite lt_of_Z. destruct (Z.ltb_spec d 30); [done |].
    rewrite setDate_getDate_minus.
    destruct (TimeClip _) as [cutoff |] eqn:Hcut; [| done].
    apply TimeClip_inv in Hcut. simpl.
    apply in_or_app. left. apply filter_In. split; [done |].
    apply negb_true_iff, Z.ltb_ge.
    subst cutoff. unfold UTC, LocalTime.
    pose proof (Hat now). pose proof (Hloc (now + offset_at zone now - d * msPerDay)).
    assert (0 < msPerDay) by done. nia.
Qed.

Lemma deleteOldLogs_keeps_recent_witness :
  In (log_at (april_noon - 29 * msPerDay))
     (deleteOldLogs CET_2024 april_noon (cleanup_request "30")
        [young_row; log_at (april_noon - 29 * msPerDay)]).2.
Proof.
  apply (deleteOldLogs_keeps_recent CET_2024 3600000 7200000 april_noon
           (cleanup_request "30")).
  - intros t. simpl. case_match; lia.
  - intros t. simpl. case_match; lia.
  - simpl. auto.
  - vm_compute. discriminate.
Defined.

(** ** The trend buckets add up *)

Import TrendTotals.

Lemma count_sum_insert (f : Trend -> nat) (k : string) (t : Trend) (m : gmap string Trend) :
  m !! k = None -> count_sum f (<[k := t]> m) = (count_sum f m + f t)%nat.
Proof.
  intros Hk. unfold count_sum.
  apply (map_fold_insert_L (fun _ t acc => (acc + f t)%nat)); [| done].
  intros. lia.
Qed.

Lemma count_sum_upsert (f : Trend -> nat) (k : string) (t' : Trend) (m : gmap string Trend) :
  f (new_trend k) = 0%nat ->
  (count_sum f (<[k := t']> m) + f (default (new_trend k) (m !! k)))%nat
  = (count_sum f m + f t')%nat.
Proof.
  intros Hnew. destruct (m !! k) as [t |] eqn:Hk; simpl.
  - rewrite <- (insert_delete_id m k t Hk), !insert_insert_eq.
    rewrite !count_sum_insert by apply lookup_delete_eq. lia.
  - rewrite count_sum_insert by done. lia.
Qed.

Lemma amount_sum_insert (g : Trend -> Q) (k : string) (t : Trend) (m : gmap string Trend) :
  m !! k = None -> (amount_sum g (<[k := t]> m) == amount_sum g m + g t)%Q.
Proof.
  intros Hk. unfold amount_sum.
  apply (map_fold_insert Qeq (fun _ t acc => (acc + g t)%Q)); [| | done].
  - intros j z x y Hxy. by rewrite Hxy.
  - intros. ring.
Qed.

Lemma amount_sum_upsert (g : Trend -> Q) (k : string) (t' : Trend) (m : gmap string Trend) :
  (g (new_trend k) == 0)%Q ->
  (amount_sum g (<[k := t']> m) + g (default (new_trend k) (m !! k))
   == amount_sum g m + g t')%Q.
Proof.
  intros Hnew. destruct (m !! k) as [t |] eqn:Hk; simpl.
  - rewrite <- (insert_delete_id m k t Hk), !insert_insert_eq.
    rewrite !amount_sum_insert by apply lookup_delete_eq. ring.
  - rewrite amount_sum_insert by done. rewrite Hnew. ring.
Qed.

Lemma amount_sum_fmap (g : Trend -> Q) (h : Trend -> Trend) (m : gmap string Trend) :
  amount_sum g (h <$> m) = amount_sum (fun t => g (h t)) m.
Proof. unfold amount_sum. by rewrite map_fold_fmap. Qed.

Lemma count_sum_fmap (f : Trend -> nat) (h : Trend -> Trend) (m : gmap string Trend) :
  count_sum f (h <$> m) = count_sum (fun t => f (h t)) m.
Proof. unfold count_sum. by rewrite map_fold_fmap. Qed.

Lemma amount_sum_minus (g1 g2 : Trend -> Q) (m : gmap string Trend) :
  (amount_sum (fun t => g1 t - g2 t) m == amount_sum g1 m - amount_sum g2 m)%Q.
Proof.
  induction m as [| k t m Hk IH] using map_ind.
  - unfold amount_sum. rewrite !map_fold_empty. ring.
  - rewrite !amount_sum_insert by done. rewrite IH. ring.
Qed.

Lemma trend_buckets_upsert (k : string) (t' : Trend) (m : gmap string Trend) :
  trend_buckets m ->
  date t' = date (default (new_trend k) (m !! k)) ->
  (0 < depositCount t' + withdrawalCount t')%nat ->
  trend_buckets (<[k := t']> m).
Proof.
  intros Hm Hdate Hpos j t. rewrite lookup_insert. case_decide; [| apply Hm].
  intros [= <-]. subst j. split; [| done]. rewrite Hdate.
  destruct (m !! k) as [t0 |] eqn:Hk; simpl; [| done]. by apply (Hm k t0).
Qed.

Lemma total_amount_shift (ds : list Transaction) (a : Q) :
  (fold_left (fun sum d => sum + amount d) ds a
   == a + fold_left (fun sum d => sum + amount d) ds 0)%Q.
Proof.
  revert a. induction ds as [| d ds IH]; intros a; simpl; [ring |].
  rewrite (IH (a + amount d)%Q), (IH (0 + amount d)%Q). ring.
Qed.

Lemma each_deposit_totals (tza : Zone) (period : string) (ds : list Transaction)
    (m m' : gmap string Trend) :
  each_deposit tza period ds m = Some m' ->
  count_sum depositCount m' = (count_sum depositCount m + length ds)%nat /\
  count_sum withdrawalCount m' = count_sum withdrawalCount m /\
  (amount_sum deposits m' == amount_sum deposits m + total_amount 0 Qplus ds)%Q /\
  (amount_sum withdrawals m' == amount_sum withdrawals m)%Q /\
  (trend_buckets m -> trend_buckets m').
Proof.
  revert m. induction ds as [| d ds IH]; intros m; simpl.
  - intros [= <-]. unfold total_amount. simpl. split_and!; try done; try lia; ring.
  - destruct (getGroupKey tza period (createdAt d)) as [key |]; [| done].
    intros H. apply IH in H as (Hc & Hw & Ha & Hb & Hk).
    pose proof (count_sum_upsert depositCount key
                  (default (new_trend key) (add_deposit key (amount d) m !! key)) m eq_refl)
      as E1.
    pose proof (count_sum_upsert withdrawalCount key
                  (default (new_trend key) (add_deposit key (amount d) m !! key)) m eq_refl)
      as E2.
    pose proof (amount_sum_upsert deposits key
                  (default (new_trend key) (add_deposit key (amount d) m !! key)) m
                  (Qeq_refl 0)) as E3.
    pose proof (amount_sum_upsert withdrawals key
                  (default (new_trend key) (add_deposit key (amount d) m !! key)) m
                  (Qeq_refl 0)) as E4.
    assert (<[key := default (new_trend key) (add_deposit key (amount d) m !! key)]> m
            = add_deposit key (amount d) m) as Hins.
    { unfold add_deposit. by rewrite lookup_insert_eq. }
    rewrite Hins in E1, E2, E3, E4.
    unfold add_deposit in E1 at 2. unfold add_deposit in E2 at 2.
    unfold add_deposit in E3 at 2. unfold add_deposit in E4 at 2.
    rewrite lookup_insert_eq in E1, E2, E3, E4. simpl in E1, E2, E3, E4.
    unfold total_amount in *. simpl.
    rewrite (total_amount_shift ds (0 + amount d)%Q).
    split_and!.
    + lia.
    + lia.
    + rewrite Ha. lra.
    + rewrite Hb. lra.
    + intros Hm. apply Hk. unfold add_deposit.
      apply trend_buckets_upsert; simpl; [done | done | lia].
Qed.

Lemma each_withdrawal_totals (tza : Zone) (period : string) (ws : list Transaction)
    (m m' : gmap string Trend) :
  each_withdrawal tza period ws m = Some m' ->
  count_sum withdrawalCount m' = (count_sum withdrawalCount m + length ws)%nat /\
  count_sum depositCount m' = count_sum depositCount m /\
  (amount_sum withdrawals m' == amount_sum withdrawals m + total_amount 0 Qplus ws)%Q /\
  (amount_sum deposits m' == amount_sum deposits m)%Q /\
  (trend_buckets m -> trend_buckets m').
Proof.
  revert m. induction ws as [| w ws IH]; intros m; simpl.
  - intros [= <-]. unfold total_amount. simpl. split_and!; try done; try lia; ring.
  - destruct (getGroupKey tza period (createdAt w)) as [key |]; [| done].
    intros H. apply IH in H as (Hc & Hw & Ha & Hb & Hk).
    pose proof (count_sum_upsert depositCount key
                  (default (new_trend key) (add_withdrawal key (amount w) m !! key)) m
                  eq_refl) as E1.
    pose proof (count_sum_upsert withdrawalCount key
                  (default (new_trend key) (add_withdrawal key (amount w) m !! key)) m
                  eq_refl) as E2.
    pose proof (amount_sum_upsert deposits key
                  (default (new_trend key) (add_withdrawal key (amount w) m !! key)) m
                  (Qeq_refl 0)) as E3.
    pose proof (amount_sum_upsert withdrawals key
                  (default (new_trend key) (add_withdrawal key (amount w) m !! key)) m
                  (Qeq_refl 0)) as E4.
    assert (<[key := default (new_trend key) (add_withdrawal key (amount w) m !! key)]> m
            = add_withdrawal key (amount w) m) as Hins.
    { unfold add_withdrawal. by rewrite lookup_insert_eq. }
    rewrite Hins in E1, E2, E3, E4.
    unfold add_withdrawal in E1 at 2. unfold add_withdrawal in E2 at 2.
    unfold add_withdrawal in E3 at 2. unfold add_withdrawal in E4 at 2.
    rewrite lookup_insert_eq in E1, E2, E3, E4. simpl in E1, E2, E3, E4.
    unfold total_amount in *. simpl.
    rewrite (total_amount_shift ws (0 + amount w)%Q).
    split_and!.
    + lia.
    + lia.
    + rewrite Ha. lra.
    + rewrite Hb. lra.
    + intros Hm. apply Hk. unfold add_withdrawal.
      apply trend_buckets_upsert; simpl; [done | done | lia].
Qed.

(** The trend buckets account for every record once: the deposit and
    withdrawal counts of the buckets add up to the numbers of deposits
    and withdrawals, the bucket amounts to the totals of the record
    amounts, and the net flows to the difference of the two totals.
    Each bucket is stored under its date, has counted at least one
    record, and its net flow is its deposits less its withdrawals. *)
Theorem trends_preserve_totals (tza : Zone) (period : option string)
    (ds ws : list Transaction) (m : gmap string Trend) :
  trends tza period ds ws = Some m ->
  count_sum depositCount m = length ds /\
  count_sum withdrawalCount m = length ws /\
  (amount_sum deposits m == total_amount 0 Qplus ds)%Q /\
  (amount_sum withdrawals m == total_amount 0 Qplus ws)%Q /\
  (amount_sum netFlow m == total_amount 0 Qplus ds - total_amount 0 Qplus ws)%Q /\
  (forall k t, m !! k = Some t ->
     date t = k /\ netFlow t = (deposits t - withdrawals t)%Q /\
     (0 < depositCount t + withdrawalCount t)%nat).
Proof.
  unfold trends.
  destruct (each_deposit tza _ ds ∅) as [t1 |] eqn:H1; [| done].
  destruct (each_withdrawal tza _ ws t1) as [t2 |] eqn:H2; [| done].
  intros [= <-].
  apply each_deposit_totals in H1 as (Hc1 & Hw1 & Ha1 & Hb1 & Hk1).
  apply each_withdrawal_totals in H2 as (Hc2 & Hw2 & Ha2 & Hb2 & Hk2).
  assert (count_sum depositCount ∅ = 0%nat) as Z1 by apply map_fold_empty.
  assert (count_sum withdrawalCount ∅ = 0%nat) as Z2 by apply map_fold_empty.
  assert (amount_sum deposits ∅ = 0%Q) as Z3 by apply map_fold_empty.
  assert (amount_sum withdrawals ∅ = 0%Q) as Z4 by apply map_fold_empty.
  rewrite Z3 in Ha1. rewrite Z4 in Hb1.
  rewrite !count_sum_fmap, !amount_sum_fmap. simpl.
  change (fun t : Trend => depositCount t) with depositCount.
  change (fun t : Trend => withdrawalCount t) with withdrawalCount.
  change (fun t : Trend => deposits t) with deposits.
  change (fun t : Trend => withdrawals t) with withdrawals.
  split_and!.
  - lia.
  - lia.
  - rewrite Hb2, Ha1. ring.
  - rewrite Ha2, Hb1. ring.
  - rewrite amount_sum_minus, Hb2, Ha2, Ha1, Hb1. ring.
  - intros k t. rewrite lookup_fmap. intros Hk.
    apply fmap_Some in Hk as (t0 & Hk & ->). simpl.
    destruct (Hk2 (Hk1 ltac:(intros ? ?; by rewrite lookup_empty)) k t0 Hk) as [Hd Hp].
    done.
Qed.

Lemma trends_preserve_totals_witness :
  exists m, trends EAT (Some "weekly"%string) sample_deposits sample_withdrawals = Some m /\
            count_sum depositCount m = 3%nat /\ count_sum withdrawalCount m = 1%nat.
Proof.
  eexists. split; [vm_compute; reflexivity |].
  match goal with
  | |- count_sum _ ?m = _ /\ _ =>
      destruct (trends_preserve_totals EAT (Some "weekly"%string) sample_deposits
                  sample_withdrawals m) as (Hc & Hw & _); [vm_compute; reflexivity |]
  end.
  split; [exact Hc | exact Hw].
Defined.

(** ** Portfolio performance report *)

Section Ranking.

Import PerformanceReport.

Context {A : Type} (metric : A -> Q).

Lemma insert_sorted_asc_Permutation (x : A) (l : list A) :
  insert_sorted (asc metric) x l ≡ₚ x :: l.
Proof.
  induction l as [| y l IH]; simpl; [done |].
  destruct (Qle_bool (asc metric x y) 0); [done |].
  rewrite IH. apply Permutation_swap.
Qed.

Lemma sort_asc_Permutation (l : list A) : sort (asc metric) l ≡ₚ l.
Proof.
  induction l as [| x l IH]; simpl; [done |].
  by rewrite insert_sorted_asc_Permutation, IH.
Qed.

Lemma insert_sorted_ascending (x : A) (l : list A) :
  ascending metric l -> ascending metric (insert_sorted (asc metric) x l).
Proof.
  unfold ascending.
  induction l as [| y l IH]; simpl; intros Hl.
  - by repeat constructor.
  - apply StronglySorted_cons in Hl as [Hy Hl].
    destruct (Qle_bool (asc metric x y) 0) eqn:E.
    + apply Qle_bool_iff in E. unfold asc in E.
      constructor; [by constructor |].
      constructor; [lra |].
      eapply Forall_impl; [exact Hy |]. simpl. intros z Hz. lra.
    + assert (metric y <= metric x)%Q as Hyx.
      { destruct (Qlt_le_dec (metric x) (metric y)) as [Hlt | Hle]; [| done].
        assert (Qle_bool (asc metric x y) 0 = true) as E'; [| congruence].
        apply Qle_bool_iff. unfold asc. lra. }
      constructor; [by apply IH |].
      rewrite (insert_sorted_asc_Permutation x l). by constructor.
Qed.

Lemma sort_ascending (l : list A) : ascending metric (sort (asc metric) l).
Proof.
  induction l as [| x l IH]; simpl.
  - constructor.
  - by apply insert_sorted_ascending.
Qed.

Lemma head_descending (l : list A) (b : A) :
  descending metric l -> head l = Some b ->
  b ∈ l /\ forall x, x ∈ l -> (metric x <= metric b)%Q.
Proof.
  destruct l as [| y l]; [done |]. simpl. intros Hl [= ->].
  apply StronglySorted_cons in Hl as [Hb _].
  split; [left |]. intros x [-> | Hx]%elem_of_cons; [lra |].
  rewrite Forall_forall in Hb. by apply Hb.
Qed.

Lemma head_ascending (l : list A) (w : A) :
  ascending metric l -> head l = Some w ->
  w ∈ l /\ forall x, x ∈ l -> (metric w <= metric x)%Q.
Proof.
  destruct l as [| y l]; [done |]. simpl. intros Hl [= ->].
  apply StronglySorted_cons in Hl as [Hb _].
  split; [left |]. intros x [-> | Hx]%elem_of_cons; [lra |].
  rewrite Forall_forall in Hb. by apply Hb.
Qed.

(** The two sorts of the summary rank the records. *)
Lemma sort_twice_ranked (input : list A) :
  ranked metric input
    (sort (asc metric) (sort (desc metric) input))
    (head (sort (desc metric) input))
    (head (sort (asc metric) (sort (desc metric) input))).
Proof.
  assert (sort (asc metric) (sort (desc metric) input) ≡ₚ input) as Hperm.
  { by rewrite sort_asc_Permutation, sort_Permutation. }
  unfold ranked. split_and!; try done.
  - apply sort_ascending.
  - destruct (head (sort (desc metric) input)) as [b |] eqn:Hb.
    + destruct (head_descending _ b (sort_descending metric input) Hb) as [Hin Hmax].
      split.
      * by rewrite <- (sort_Permutation metric input).
      * intros x Hx. apply Hmax. by rewrite (sort_Permutation metric input).
    + apply head_None in Hb. apply Permutation_nil_r. by rewrite <- Hb, sort_Permutation.
  - destruct (head (sort (asc metric) (sort (desc metric) input))) as [w |] eqn:Hw.
    + destruct (head_ascending _ w (sort_ascending _) Hw) as [Hin Hmin].
      split.
      * by rewrite <- Hperm.
      * intros x Hx. apply Hmin. by rewrite Hperm.
    + apply head_None in Hw. apply Permutation_nil_r. by rewrite <- Hw.
Qed.

End Ranking.

(** The report ranks the portfolios and the assets: the best one has
    the highest and the worst one the lowest performance of all, and
    both are absent only if there is none.  The two lists of the
    response are not in the order of the database: the sorts of the
    summary leave them ordered from the lowest performance to the
    highest, with the worst one first; no entry is lost.  The counts of
    the sector breakdown add up to the number of assets whose sector is
    not a name of [Object.prototype]; an asset of such a sector is in
    no bucket. *)
Theorem performance_report_ranked (portfolios : list PerformanceReport.PortfolioRow)
    (assets : list PerformanceReport.AssetRow) :
  let r := PerformanceReport.getPortfolioPerformanceReport portfolios assets in
  PerformanceReport.ranked PerformanceReport.performancePercentage
    (map PerformanceReport.portfolio_metric portfolios)
    (PerformanceReport.portfolioMetrics r)
    (PerformanceReport.bestPerformingPortfolio (PerformanceReport.summary r))
    (PerformanceReport.worstPerformingPortfolio (PerformanceReport.summary r)) /\
  PerformanceReport.ranked PerformanceReport.percentageChange
    (map PerformanceReport.asset_performance assets)
    (PerformanceReport.assetPerformance r)
    (PerformanceReport.bestPerformingAsset (PerformanceReport.summary r))
    (PerformanceReport.worstPerformingAsset (PerformanceReport.summary r)) /\
  buckets_count (PerformanceReport.sectorBreakdown r)
  = length (List.filter
              (fun a => negb (JsObject.inherited (PerformanceReport.sector_key a)))
              assets).
Proof.
  simpl. split; [apply sort_twice_ranked |]. split; [apply sort_twice_ranked |].
  rewrite (object_counts 0%Q Qplus PerformanceReport.sector_key
             PerformanceReport.a_closePrice).
  unfold buckets_count. by rewrite map_fold_empty.
Qed.

(** ** The asset list *)









(** ** Users: who can log in *)

Section UserAccounts.

Import Users.

Variables (trim toLowerCase : string -> string).
Variables (hash : string -> string) (compare : string -> string -> bool).
Variable isValidRole : string -> bool.
Variables (generateAccessToken generateRefreshToken : TokenPayload -> string).

Lemma find_map_same {A : Type} (p : A -> bool) (f : A -> A) (l : list A) :
  (forall x, p (f x) = p x) -> List.find p (map f l) = option_map f (List.find p l).
Proof.
  intros Hp. induction l as [| x l IH]; simpl; [done |].
  rewrite Hp. by destruct (p x).
Qed.

Lemma find_app_None {A : Type} (p : A -> bool) (l1 l2 : list A) :
  List.find p l1 = None -> List.find p (l1 ++ l2) = List.find p l2.
Proof.
  induction l1 as [| x l1 IH]; simpl; [done |].
  destruct (p x); [done | exact IH].
Qed.

(** What a successful login found: a stored user who is active and
    whose password hash matches. *)
Lemma loginUser_LoggedIn (identifier password_ : option string) (now : Z) (db db' : Db)
    (s : User) (a r : string) :
  loginUser trim toLowerCase compare generateAccessToken generateRefreshToken
    identifier password_ now db = (LoggedIn s a r, db') ->
  exists u, List.find (fun u => String.eqb (email u)
                                  (toLowerCase (trim (default ""%string identifier)))
                                || String.eqb (phone u)
                                     (trim (default ""%string identifier)))
                      (user db) = Some u /\
            s = safe u /\ isActive u = true /\
            compare (default ""%string password_) (default ""%string (password u)) = true.
Proof.
  unfold loginUser.
  destruct (_ || _); [done |].
  destruct (List.find _ (user db)) as [u |] eqn:Hfind; [| done].
  destruct (isActive u) eqn:Hact; simpl; [| done].
  destruct (falsy (password u)); [done |].
  destruct (compare _ _) eqn:Hcmp; simpl; [| done].
  intros [= <- _ _ _]. by exists u.
Qed.

Lemma deactivated_not_active (id_ : string) (l : list User) (u : User) :
  In u (map (fun u => if String.eqb (id u) id_ then with_isActive u false else u) l) ->
  id u = id_ -> isActive u = false.
Proof.
  intros Hin Hid. apply in_map_iff in Hin as (u0 & Hu & _).
  destruct (String.eqb_spec (id u0) id_) as [Heq | Hne]; subst u; [done |].
  done.
Qed.

(** [deleteUser] keeps the row and closes the account: after a 200 no
    login, with whatever credentials, is answered with tokens for that
    user, while the row can still be read and every login that
    succeeded for another user succeeds as before. *)
Theorem deleteUser_blocks_login (id_ : string) (db db' : Db) :
  deleteUser id_ db = (Status 200, db') ->
  (forall identifier password_ now s a r db'',
     loginUser trim toLowerCase compare generateAccessToken generateRefreshToken
       identifier password_ now db' = (LoggedIn s a r, db'') ->
     id s <> id_) /\
  (exists u, getUserById id_ db' = Created u /\ id u = id_ /\ isActive u = false) /\
  (forall identifier password_ now s a r db1,
     loginUser trim toLowerCase compare generateAccessToken generateRefreshToken
       identifier password_ now db = (LoggedIn s a r, db1) ->
     id s <> id_ ->
     (loginUser trim toLowerCase compare generateAccessToken generateRefreshToken
        identifier password_ now db').1 = LoggedIn s a r).
Proof.
  unfold deleteUser.
  destruct (List.find (fun u => String.eqb (id u) id_) (user db)) as [u0 |] eqn:Hfind;
    [| done].
  intros [= <-]. split; [| split].
  - intros identifier password_ now s a r db'' Hlogin Hid.
    apply loginUser_LoggedIn in Hlogin as (u & Hu & -> & Hact & _).
    apply find_some in Hu as [Hin _]. simpl in Hin, Hid.
    rewrite (deactivated_not_active id_ (user db) u Hin Hid) in Hact. done.
  - unfold getUserById. simpl.
    rewrite (find_map_same (fun u => String.eqb (id u) id_)).
    2:{ intros x. simpl. destruct (String.eqb (id x) id_) eqn:E; simpl; by rewrite ?E. }
    rewrite Hfind. simpl. eexists. split; [done |].
    apply find_some in Hfind as [_ Hid]. apply String.eqb_eq in Hid.
    rewrite Hid, String.eqb_refl. simpl. done.
  - intros identifier password_ now s a r db1 Hlogin Hid.
    pose proof Hlogin as Hl.
    apply loginUser_LoggedIn in Hl as (u & Hu & -> & Hact & Hcmp).
    revert Hlogin. unfold loginUser. simpl.
    destruct (_ || _); [done |].
    rewrite (find_map_same
               (fun u => String.eqb (email u)
                           (toLowerCase (trim (default ""%string identifier)))
                         || String.eqb (phone u) (trim (default ""%string identifier)))).
    2:{ intros x. simpl. destruct (String.eqb (id x) id_) eqn:E; simpl; by rewrite ?E. }
    rewrite Hu. simpl in Hid |- *.
    destruct (String.eqb_spec (id u) id_) as [| _]; [done |].
    rewrite Hact. simpl.
    destruct (falsy (password u)); [done |].
    rewrite Hcmp. simpl. by intros [= <- <- _].
Qed.

(** A new account is closed until it is activated: a sign-up that does
    not ask for an active account stores a user with whom no login is
    answered with tokens.  The stored role is the role of the request
    if [isValidRole] accepts it, and USER if it does not or the request
    has none; the same e-mail address and phone cannot sign up again
    (409).  The new identifier is one that no user has yet. *)
Theorem createUser_inactive_by_default (newId : string) (body : CreateBody)
    (db db' : Db) (s : User) :
  (forall u, In u (user db) -> id u <> newId) ->
  b_isActive body <> Some true ->
  createUser trim toLowerCase hash isValidRole newId body db = (Created s, db') ->
  id s = newId /\ isActive s = false /\
  role s = match b_role body with
           | Some r => if isValidRole r then r else "USER"%string
           | None => "USER"%string
           end /\
  (forall identifier password_ now s' a r db'',
     loginUser trim toLowerCase compare generateAccessToken generateRefreshToken
       identifier password_ now db' = (LoggedIn s' a r, db'') ->
     id s' <> newId) /\
  (forall otherId,
     createUser trim toLowerCase hash isValidRole otherId body db' = (Status 409, db')).
Proof.
  intros Hfresh Hactive Hc. unfold createUser in Hc.
  destruct (_ || _) eqn:Hreq in Hc; [done |].
  destruct (List.find _ (user db)) as [u0 |] eqn:Hfind in Hc; [done |].
  injection Hc as <- <-. simpl.
  assert (default false (b_isActive body) = false) as Hdef.
  { destruct (b_isActive body) as [[|] |]; done. }
  split; [done |]. split; [done |]. split; [done |]. split.
  - intros identifier password_ now s' a r db'' Hlogin Hid.
    apply loginUser_LoggedIn in Hlogin as (u & Hu & -> & Hact & _).
    apply find_some in Hu as [Hin _]. simpl in Hin, Hid.
    apply in_app_or in Hin as [Hin | [<- | []]].
    + by apply (Hfresh u Hin).
    + simpl in Hact. congruence.
  - intros otherId. unfold createUser. rewrite Hreq. cbn [user].
    rewrite (find_app_None _ _ _ Hfind). simpl. by rewrite String.eqb_refl.
Qed.

End UserAccounts.

Lemma deleteUser_blocks_login_witness :
  (Users.loginUser Assets.trim_ascii Slug.toLowerCase Users.sample_compare (Users.sample_token "a:")
     (Users.sample_token "r:") (Some "ann@example.com"%string) (Some "secret"%string)
     0 Users.sample_db).1
  = Users.LoggedIn (Users.safe Users.sample_user) "a:u1" "r:u1" /\
  (Users.loginUser Assets.trim_ascii Slug.toLowerCase Users.sample_compare (Users.sample_token "a:")
     (Users.sample_token "r:") (Some "ann@example.com"%string) (Some "secret"%string)
     0 (Users.deleteUser "u1" Users.sample_db).2).1
  = Users.Status 403 /\
  exists u, Users.getUserById "u1" (Users.deleteUser "u1" Users.sample_db).2
            = Users.Created u /\ Users.id u = "u1"%string /\ Users.isActive u = false.
Proof.
  split; [vm_compute; reflexivity |]. split; [vm_compute; reflexivity |].
  apply (deleteUser_blocks_login Assets.trim_ascii Slug.toLowerCase Users.sample_compare (Users.sample_token "a:")
           (Users.sample_token "r:") "u1" Users.sample_db
           (Users.deleteUser "u1" Users.sample_db).2).
  vm_compute. reflexivity.
Defined.

(** A sign-up with a role that is none is stored as USER, one with
    the role ADMIN as ADMIN; both are inactive. *)
Lemma createUser_inactive_by_default_witness :
  (exists s db',
     Users.createUser Assets.trim_ascii Slug.toLowerCase Users.sample_hash
       (String.eqb "ADMIN") "u1" Users.sample_body
       {| Users.user := []; Users.refreshToken := [] |} = (Users.Created s, db') /\
     Users.isActive s = false /\ Users.role s = "USER"%string /\
     Users.createUser Assets.trim_ascii Slug.toLowerCase Users.sample_hash
       (String.eqb "ADMIN") "u2" Users.sample_body db'
     = (Users.Status 409, db')) /\
  (exists s db',
     Users.createUser Assets.trim_ascii Slug.toLowerCase Users.sample_hash
       (String.eqb "ADMIN") "u2" Users.sample_admin_body
       {| Users.user := []; Users.refreshToken := [] |} = (Users.Created s, db') /\
     Users.isActive s = false /\ Users.role s = "ADMIN"%string /\
     Users.createUser Assets.trim_ascii Slug.toLowerCase Users.sample_hash
       (String.eqb "ADMIN") "u3" Users.sample_admin_body db'
     = (Users.Status 409, db')).
Proof.
  split.
  - eexists _, _. split; [vm_compute; reflexivity |].
    match goal with
    | |- Users.isActive ?s = _ /\ _ /\ Users.createUser _ _ _ _ _ _ ?db' = _ =>
        destruct (createUser_inactive_by_default Assets.trim_ascii Slug.toLowerCase
                    Users.sample_hash Users.sample_compare (String.eqb "ADMIN")
                    (Users.sample_token "a:") (Users.sample_token "r:") "u1"
                    Users.sample_body
                    {| Users.user := []; Users.refreshToken := [] |} db' s)
          as (_ & Hact & Hrole & _ & Hdup)
    end.
    + intros u [].
    + discriminate.
    + vm_compute. reflexivity.
    + split; [exact Hact |]. split; [exact Hrole |]. apply Hdup.
  - eexists _, _. split; [vm_compute; reflexivity |].
    match goal with
    | |- Users.isActive ?s = _ /\ _ /\ Users.createUser _ _ _ _ _ _ ?db' = _ =>
        destruct (createUser_inactive_by_default Assets.trim_ascii Slug.toLowerCase
                    Users.sample_hash Users.sample_compare (String.eqb "ADMIN")
                    (Users.sample_token "a:") (Users.sample_token "r:") "u2"
                    Users.sample_admin_body
                    {| Users.user := []; Users.refreshToken := [] |} db' s)
          as (_ & Hact & Hrole & _ & Hdup)
    end.
    + intros u [].
    + discriminate.
    + vm_compute. reflexivity.
    + split; [exact Hact |]. split; [exact Hrole |]. apply Hdup.
Defined.

(** ** Key insights *)








